(** * AWA_split_dates: period partitioning and date filtering

    A shallow embedding of [AWA_split_dates.py].  The script splits two
    tables (holdings, transactions) into calendar periods between an
    inception date and an end date: it computes period ends, creates one
    folder per period, filters both tables to [inception, period end] and
    writes them, then replicates two auxiliary folders.

    Modelling conventions.
    - Every [datetime] of the script is built by [strptime] with a date-only
      format or by [datetime(y, m, d)], so its time of day is midnight; a
      [datetime] is modelled by its calendar fields.  Python keeps years in
      [MINYEAR, MAXYEAR] = [1, 9999] and raises outside of it.
    - Python exceptions are values of [exn]; code that may raise returns
      [res].  Code that touches the file system or the objects in memory
      runs in the state-and-error monad [M] over [world].
    - [print] calls are left out; [main] returns which of its two final
      messages it printed.
    - Paths are lists of components below [DATASETS_DIR].
    - A text is a [string] whose characters stand for the code points
      below 256, [ascii_of_nat n] being the character of code point [n]:
      on these the decimal digits are those of ASCII, and the white space
      that [str.strip] removes is made of the codes 9 to 13, 28 to 32, 133
      and 160.  Texts with other characters are not described. *)

From Stdlib Require Import ZArith Lia Bool Ascii String List.
From stdpp Require Import base option list strings gmap fin_maps sorting.

Open Scope Z_scope.

(** ** Exceptions and results *)

Abbreviation path := (list string) (only parsing).

Inductive exn : Type :=
  | OverflowError
  | ValueError
  | KeyError (k : string)
  | FileNotFoundError (p : path)
  | FileExistsError (p : path)
  | NotADirectoryError (p : path)
  | IsADirectoryError (p : path)
  | OSError (p : path)
  | TypeError
  | EOFError.

(** The result of running a piece of code: a value, a raised exception, or
    [Unfinished] when the iteration budget handed to a [while] loop of the
    model ran out ([create_folder_structure_settles] shows that the one loop
    of the script never does). *)
Inductive res (A : Type) : Type :=
  | Ok (a : A)
  | Raise (e : exn)
  | Unfinished.
Arguments Ok {A} a.
Arguments Raise {A} e.
Arguments Unfinished {A}.

#[global] Instance res_ret : MRet res := fun A a => Ok a.
#[global] Instance res_bind : MBind res := fun A B k r =>
  match r with
  | Ok a => k a
  | Raise e => Raise e
  | Unfinished => Unfinished
  end.

(** ** Calendar: the [datetime] module *)

Module Calendar.

Definition MINYEAR : Z := 1.
Definition MAXYEAR : Z := 9999.

Record datetime : Type := Datetime { year : Z; month : Z; day : Z }.

#[global] Instance datetime_eq_dec : EqDecision datetime.
Proof. solve_decision. Defined.

(** [calendar.isleap] *)
Definition is_leap (y : Z) : bool :=
  (y mod 4 =? 0) && (negb (y mod 100 =? 0) || (y mod 400 =? 0)).
Arguments is_leap : simpl never.

(** [calendar.monthrange(y, m)[1]]: the number of days of month [m]. *)
Definition days_in_month (y m : Z) : Z :=
  match m with
  | 1 => 31
  | 2 => if is_leap y then 29 else 28
  | 3 => 31
  | 4 => 30
  | 5 => 31
  | 6 => 30
  | 7 => 31
  | 8 => 31
  | 9 => 30
  | 10 => 31
  | 11 => 30
  | 12 => 31
  | _ => 0
  end.

(** The field check of the [datetime] constructor. *)
Definition check_date_fields (y m d : Z) : bool :=
  (MINYEAR <=? y) && (y <=? MAXYEAR) &&
  (1 <=? m) && (m <=? 12) &&
  (1 <=? d) && (d <=? days_in_month y m).

Definition valid (dt : datetime) : Prop :=
  check_date_fields (year dt) (month dt) (day dt) = true.

(** [datetime(y, m, d)]: raises [ValueError] on fields out of range. *)
Definition new_datetime (y m d : Z) : res datetime :=
  if check_date_fields y m d then Ok (Datetime y m d) else Raise ValueError.

(** [dt.replace(day=d)] *)
Definition replace_day (dt : datetime) (d : Z) : res datetime :=
  new_datetime (year dt) (month dt) d.

(** Comparison of datetimes: lexicographic on (year, month, day). *)
Definition ltb (a b : datetime) : bool :=
  (year a <? year b) ||
  ((year a =? year b) &&
   ((month a <? month b) ||
    ((month a =? month b) && (day a <? day b)))).

Definition leb (a b : datetime) : bool := negb (ltb b a).

(** [date.toordinal]: day number, 0001-01-01 being day 1. *)
Definition days_before_year (y : Z) : Z :=
  let y1 := y - 1 in y1 * 365 + y1 / 4 - y1 / 100 + y1 / 400.

Definition days_before_month (y m : Z) : Z :=
  match m with
  | 1 => 0
  | 2 => 31
  | 3 => 59
  | 4 => 90
  | 5 => 120
  | 6 => 151
  | 7 => 181
  | 8 => 212
  | 9 => 243
  | 10 => 273
  | 11 => 304
  | 12 => 334
  | _ => 0
  end + (if (2 <? m) && is_leap y then 1 else 0).

Definition toordinal (dt : datetime) : Z :=
  days_before_year (year dt) + days_before_month (year dt) (month dt) + day dt.

(** One day forward, one day back; [OverflowError] past the last and before
    the first representable day. *)
Definition tomorrow (dt : datetime) : res datetime :=
  if day dt <? days_in_month (year dt) (month dt)
  then Ok (Datetime (year dt) (month dt) (day dt + 1))
  else if month dt <? 12 then Ok (Datetime (year dt) (month dt + 1) 1)
  else if year dt <? MAXYEAR then Ok (Datetime (year dt + 1) 1 1)
  else Raise OverflowError.

Definition yesterday (dt : datetime) : res datetime :=
  if 1 <? day dt
  then Ok (Datetime (year dt) (month dt) (day dt - 1))
  else if 1 <? month dt
  then Ok (Datetime (year dt) (month dt - 1)
                    (days_in_month (year dt) (month dt - 1)))
  else if MINYEAR <? year dt then Ok (Datetime (year dt - 1) 12 31)
  else Raise OverflowError.

Fixpoint shift (step : datetime -> res datetime) (n : nat) (dt : datetime)
  : res datetime :=
  match n with
  | O => Ok dt
  | S k => dt' ← step dt; shift step k dt'
  end.

(** [dt + timedelta(days=n)] for any integer [n] ([dt - timedelta(days=k)]
    is [add_days dt (-k)]). *)
Definition add_days (dt : datetime) (n : Z) : res datetime :=
  if 0 <=? n then shift tomorrow (Z.to_nat n) dt
  else shift yesterday (Z.to_nat (- n)) dt.

(** [dt + relativedelta(years=ys, months=ms)] as [dateutil] computes it:
    the month is moved (with one carry into the year), the day is capped
    to the length of the target month, and [replace] checks the fields. *)
Definition add_relativedelta (dt : datetime) (ys ms : Z) : res datetime :=
  let y := year dt + ys in
  let m := month dt in
  let '(y, m) :=
    if ms =? 0 then (y, m)
    else
      let m := m + ms in
      if 12 <? m then (y + 1, m - 12)
      else if m <? 1 then (y - 1, m + 12)
      else (y, m) in
  let d := Z.min (days_in_month y m) (day dt) in
  new_datetime y m d.

End Calendar.
Export Calendar.

(** ** Period boundaries *)

Inductive frequency : Type := daily | monthly | quarterly | annually.

#[global] Instance frequency_eq_dec : EqDecision frequency.
Proof. solve_decision. Defined.

(** [get_period_end_date(start_date, frequency)] *)
Definition get_period_end_date (start_date : datetime) (f : frequency)
  : res datetime :=
  match f with
  | daily => Ok start_date
  | monthly =>
      d28 ← replace_day start_date 28;
      next_month ← add_days d28 4;
      add_days next_month (- day next_month)
  | quarterly =>
      let quarter := (month start_date - 1) / 3 + 1 in
      if quarter =? 1 then new_datetime (year start_date) 3 31
      else if quarter =? 2 then new_datetime (year start_date) 6 30
      else if quarter =? 3 then new_datetime (year start_date) 9 30
      else new_datetime (year start_date) 12 31
  | annually => new_datetime (year start_date) 12 31
  end.

(** [get_next_period_end(current_date, frequency)] *)
Definition get_next_period_end (current_date : datetime) (f : frequency)
  : res datetime :=
  match f with
  | daily => add_days current_date 1
  | monthly => add_relativedelta current_date 0 1
  | quarterly => add_relativedelta current_date 0 3
  | annually => add_relativedelta current_date 1 0
  end.


(** ** Date strings: [strftime] and [strptime] *)

Module DateText.

(** The character of a digit, and the digit of a character, through
    their codes (["0"] is 48). *)
Definition digit_to_ascii (n : Z) : ascii :=
  ascii_of_nat (Z.to_nat (48 + n)).

Definition ascii_to_digit (c : ascii) : option Z :=
  let code := Z.of_nat (nat_of_ascii c) in
  if (48 <=? code) && (code <=? 57) then Some (code - 48) else None.

Definition pad2 (n : Z) (rest : string) : string :=
  String (digit_to_ascii (n / 10 mod 10)) (String (digit_to_ascii (n mod 10)) rest).

Definition pad4 (n : Z) (rest : string) : string :=
  String (digit_to_ascii (n / 1000 mod 10))
    (String (digit_to_ascii (n / 100 mod 10)) (pad2 n rest)).

(** The date as [YYYY-MM-DD] with every field filled with zeros: the
    form [strptime] reads under ['%Y-%m-%d'], and the text [pandas] gives
    a timestamp at midnight. *)
Definition isoformat_date (dt : datetime) : string :=
  pad4 (year dt) (String "-" (pad2 (month dt) (String "-" (pad2 (day dt) EmptyString)))).

(** The year as [%Y] writes it with the C library of Linux: in decimal,
    with no zero before it. *)
Definition year_text (y : Z) (rest : string) : string :=
  if y <? 10 then String (digit_to_ascii (y mod 10)) rest
  else if y <? 100 then pad2 y rest
  else if y <? 1000 then String (digit_to_ascii (y / 100 mod 10)) (pad2 y rest)
  else pad4 y rest.

(** [dt.strftime('%Y-%m-%d')]: month and day are filled with zeros, the
    year is not, so that from year 1000 on the text is
    [isoformat_date dt]. *)
Definition strftime_ymd (dt : datetime) : string :=
  year_text (year dt)
    (String "-" (pad2 (month dt) (String "-" (pad2 (day dt) EmptyString)))).

(** The text before the first [sep], and the text after it when there is
    one. *)
Fixpoint split_at (sep : ascii) (s : string) : string * option string :=
  match s with
  | EmptyString => (EmptyString, None)
  | String c s' =>
      if Ascii.eqb c sep then (EmptyString, Some s')
      else let '(tok, rest) := split_at sep s' in (String c tok, rest)
  end.

(** The directive [%Y]: four digits. *)
Definition match_Y (t : string) : option Z :=
  match t with
  | String a (String b (String c (String d EmptyString))) =>
      x ← ascii_to_digit a; y ← ascii_to_digit b;
      z ← ascii_to_digit c; w ← ascii_to_digit d;
      Some (1000 * x + 100 * y + 10 * z + w)
  | _ => None
  end.

(** The directive [%m]: [1[0-2]|0[1-9]|[1-9]]. *)
Definition match_m (t : string) : option Z :=
  match t with
  | String a EmptyString =>
      x ← ascii_to_digit a; if 1 <=? x then Some x else None
  | String a (String b EmptyString) =>
      x ← ascii_to_digit a; y ← ascii_to_digit b;
      if ((x =? 1) && (y <=? 2)) || ((x =? 0) && (1 <=? y))
      then Some (10 * x + y) else None
  | _ => None
  end.

(** The directive [%d]: [3[0-1]|[1-2]\d|0[1-9]|[1-9]| [1-9]]. *)
Definition match_d (t : string) : option Z :=
  match t with
  | String a EmptyString =>
      x ← ascii_to_digit a; if 1 <=? x then Some x else None
  | String a (String b EmptyString) =>
      y ← ascii_to_digit b;
      if Ascii.eqb a " " then (if 1 <=? y then Some y else None)
      else
        x ← ascii_to_digit a;
        if ((x =? 3) && (y <=? 1)) || (x =? 1) || (x =? 2) ||
           ((x =? 0) && (1 <=? y))
        then Some (10 * x + y) else None
  | _ => None
  end.

Definition build (y m d : option Z) : res datetime :=
  match y, m, d with
  | Some y, Some m, Some d => new_datetime y m d
  | _, _, _ => Raise ValueError
  end.

(** [datetime.strptime(s, '%Y-%m-%d')] *)
Definition strptime_ymd (s : string) : res datetime :=
  match split_at "-" s with
  | (ty, Some s1) =>
      match split_at "-" s1 with
      | (tm, Some td) => build (match_Y ty) (match_m tm) (match_d td)
      | _ => Raise ValueError
      end
  | _ => Raise ValueError
  end.

(** Parsing one value under [format='%m/%d/%Y'], as [pd.to_datetime] does
    for each element of a column of strings.  The format alone is
    modelled: the narrower range of the timestamps of [pandas] is not. *)
Definition strptime_mdY (s : string) : res datetime :=
  match split_at "/" s with
  | (tm, Some s1) =>
      match split_at "/" s1 with
      | (td, Some ty) => build (match_Y ty) (match_m tm) (match_d td)
      | _ => Raise ValueError
      end
  | _ => Raise ValueError
  end.

(** [str.strip()]: white space removed at both ends.  [is_space] is
    [str.isspace] on one character. *)
Definition is_space (c : ascii) : bool :=
  let n := nat_of_ascii c in
  ((9 <=? n) && (n <=? 13) || (28 <=? n) && (n <=? 32) ||
   (n =? 133) || (n =? 160))%nat.

Fixpoint lstrip (s : string) : string :=
  match s with
  | EmptyString => EmptyString
  | String c s' => if is_space c then lstrip s' else s
  end.

Fixpoint rstrip (s : string) : string :=
  match s with
  | EmptyString => EmptyString
  | String c s' =>
      match rstrip s' with
      | EmptyString => if is_space c then EmptyString else String c EmptyString
      | t => String c t
      end
  end.

Definition strip (s : string) : string := rstrip (lstrip s).

End DateText.
Export DateText.

(** ** Tables, objects in memory, files *)

(** A cell of a [DataFrame]: text as read from a file, or what
    [pd.to_datetime] makes of a text, a timestamp or [NaT], the missing
    one.  Fields other than dates are opaque text. *)
Inductive cell : Type :=
  | Str (s : string)
  | Timestamp (t : datetime)
  | NaT.

#[global] Instance cell_eq_dec : EqDecision cell.
Proof. solve_decision. Defined.

(** A [DataFrame]: column labels and rows, each row holding one cell per
    column. *)
Record DataFrame : Type := Frame { columns : list string; rows : list (list cell) }.

#[global] Instance DataFrame_eq_dec : EqDecision DataFrame.
Proof. solve_decision. Defined.

Definition rectangular (df : DataFrame) : Prop :=
  Forall (fun r => length r = length (columns df)) (rows df).

(** The contents of a [.csv] file: a header and lines of text fields. *)
Record csv : Type := Csv { header : list string; lines : list (list string) }.

#[global] Instance csv_eq_dec : EqDecision csv.
Proof. solve_decision. Defined.

Inductive node : Type :=
  | Dir
  | File (content : csv).

#[global] Instance node_eq_dec : EqDecision node.
Proof. solve_decision. Defined.

(** References to [DataFrame] objects are indices into the heap. *)
Abbreviation loc := nat (only parsing).

Record world : Type := World {
  heap : list DataFrame;
  fs : gmap path node
}.

(** ** The monad of the script *)

Definition M (A : Type) : Type := world -> res A * world.

#[global] Instance M_ret : MRet M := fun A a w => (Ok a, w).
#[global] Instance M_bind : MBind M := fun A B k m w =>
  match m w with
  | (Ok a, w') => k a w'
  | (Raise e, w') => (Raise e, w')
  | (Unfinished, w') => (Unfinished, w')
  end.

Definition raise {A} (e : exn) : M A := fun w => (Raise e, w).
Definition unfinished {A} : M A := fun w => (Unfinished, w).
Definition lift {A} (r : res A) : M A := fun w => (r, w).
Definition get_fs : M (gmap path node) := fun w => (Ok (fs w), w).
Definition put_fs (t : gmap path node) : M unit :=
  fun w => (Ok tt, World (heap w) t).

(** A loop [for x in xs: body(x)]. *)
Fixpoint for_each {A} (xs : list A) (body : A -> M unit) : M unit :=
  match xs with
  | [] => mret tt
  | x :: xs' => body x;; for_each xs' body
  end.

(** *** Objects *)

(** A new object is placed after all existing ones. *)
Definition alloc (df : DataFrame) : M loc :=
  fun w => (Ok (length (heap w)), World (heap w ++ [df]) (fs w)).

Definition deref (l : loc) : M DataFrame :=
  fun w => match heap w !! l with
           | Some df => (Ok df, w)
           | None => (Raise TypeError, w)
           end.

Definition assign (l : loc) (df : DataFrame) : M unit :=
  fun w => (Ok tt, World (<[l := df]> (heap w)) (fs w)).

(** [deepcopy(df)]: a new object with the same contents. *)
Definition deepcopy (l : loc) : M loc :=
  df ← deref l; alloc df.

(** *** Columns *)

Fixpoint index_of (c : string) (labels : list string) : option nat :=
  match labels with
  | [] => None
  | l :: ls => if decide (l = c) then Some O else S <$> index_of c ls
  end.

(** [df[c]] read as a column; [KeyError] when there is no such label. *)
Definition get_column (c : string) (df : DataFrame) : res (list cell) :=
  match index_of c (columns df) with
  | Some i => Ok (map (fun r => nth i r (Str EmptyString)) (rows df))
  | None => Raise (KeyError c)
  end.

(** [df[c] = values] on contents: an existing column is replaced in place,
    a new one is appended. *)
Definition set_column (c : string) (values : list cell) (df : DataFrame)
  : DataFrame :=
  match index_of c (columns df) with
  | Some i => Frame (columns df) (zip_with (fun r v => <[i := v]> r) (rows df) values)
  | None => Frame (columns df ++ [c]) (zip_with (fun r v => r ++ [v]) (rows df) values)
  end.

(** The items of [xs] whose label is not [c]. *)
Fixpoint drop_label {A} (c : string) (labels : list string) (xs : list A)
  : list A :=
  match labels, xs with
  | l :: ls, x :: xs' =>
      if decide (l = c) then drop_label c ls xs' else x :: drop_label c ls xs'
  | _, _ => []
  end.

(** [df.drop(c, axis=1)] on contents; [KeyError] when there is no such
    label. *)
Definition drop_column (c : string) (df : DataFrame) : res DataFrame :=
  match index_of c (columns df) with
  | Some _ => Ok (Frame (drop_label c (columns df) (columns df))
                        (map (drop_label c (columns df)) (rows df)))
  | None => Raise (KeyError c)
  end.

(** [df[mask]]: the rows at which the mask is true, in order. *)
Fixpoint select_rows {A} (mask : list bool) (rs : list A) : list A :=
  match mask, rs with
  | b :: mask', r :: rs' =>
      if b then r :: select_rows mask' rs' else select_rows mask' rs'
  | _, _ => []
  end.

(** The texts [pandas] reads as a missing date whatever the format: the
    empty text and the names of [NaT] and [NaN]. *)
Definition nat_strings : list string :=
  [EmptyString; "NaT"; "nat"; "NAT"; "nan"; "NaN"; "NAN"]%string.

(** [pd.to_datetime(column, format='%m/%d/%Y')]: every element is parsed,
    a missing date becomes [NaT], and the first of the other elements that
    does not parse raises [ValueError].  A date that parses is taken to be
    one that a timestamp holds (at the resolution of nanoseconds, from
    1677-09-22 to 2262-04-11); on a date outside of that range [pandas]
    raises [OutOfBoundsDatetime] at that resolution, which is not
    described here. *)
Definition to_datetime_cell (v : cell) : res cell :=
  match v with
  | Str s =>
      if bool_decide (s ∈ nat_strings) then Ok NaT
      else t ← strptime_mdY s; Ok (Timestamp t)
  | Timestamp t => Ok (Timestamp t)
  | NaT => Ok NaT
  end.

Fixpoint to_datetime (values : list cell) : res (list cell) :=
  match values with
  | [] => Ok []
  | v :: vs => t ← to_datetime_cell v; ts ← to_datetime vs; Ok (t :: ts)
  end.

(** [(column >= lo) & (column <= hi)] on a column of timestamps: no
    comparison holds of [NaT]. *)
Definition between_cell (lo hi : datetime) (v : cell) : res bool :=
  match v with
  | Timestamp t => Ok (leb lo t && leb t hi)
  | NaT => Ok false
  | Str _ => Raise TypeError
  end.

Fixpoint between (lo hi : datetime) (values : list cell) : res (list bool) :=
  match values with
  | [] => Ok []
  | v :: vs => b ← between_cell lo hi v; bs ← between lo hi vs; Ok (b :: bs)
  end.

(** *** Files and folders *)

Definition is_dir (t : gmap path node) (p : path) : bool :=
  match p with
  | [] => true
  | _ => match t !! p with Some Dir => true | _ => false end
  end.

(** [os.path.exists(p)]; the empty path is [DATASETS_DIR] itself. *)
Definition path_exists (p : path) : M bool :=
  t ← get_fs; mret (match p with [] => true | _ => bool_decide (is_Some (t !! p)) end).

(** [if not b: body] *)
Definition unless (b : bool) (body : M unit) : M unit :=
  if b then mret tt else body.

(** [if b: body] *)
Definition when (b : bool) (body : M unit) : M unit :=
  if b then body else mret tt.

(** [os.mkdir(p)] *)
Definition mkdir (p : path) : M unit :=
  t ← get_fs;
  match p with
  | [] => raise (FileExistsError p)
  | _ =>
      match t !! p with
      | Some _ => raise (FileExistsError p)
      | None =>
          let parent := removelast p in
          if is_dir t parent then put_fs (<[p := Dir]> t)
          else match t !! parent with
               | Some _ => raise (NotADirectoryError p)
               | None => raise (FileNotFoundError p)
               end
      end
  end.

(** [os.makedirs(p)], on the path read from its last component: missing
    parents are made first. *)
Fixpoint makedirs_rev (rp : list string) : M unit :=
  match rp with
  | [] => mkdir []
  | _ :: rhead =>
      match rhead with
      | [] => mret tt
      | _ => e ← path_exists (rev rhead); unless e (makedirs_rev rhead)
      end;;
      mkdir (rev rp)
  end.

Definition makedirs (p : path) : M unit := makedirs_rev (rev p).

(** The text of a cell in a file: [NaT] is written as nothing. *)
Definition cell_text (v : cell) : string :=
  match v with
  | Str s => s
  | Timestamp t => isoformat_date t
  | NaT => EmptyString
  end.

Definition csv_of (df : DataFrame) : csv :=
  Csv (columns df) (map (map cell_text) (rows df)).

(** [pd.read_csv(p, dtype={...})]: a new [DataFrame] whose cells are the
    fields of the file, as text.  This is what [read_csv] makes of the
    files called [plain] below.  It is no description of the load of other
    files: in a column that is not among the three read as text the type
    of the values is inferred, a field that names a missing value is read
    as one, a second label of the same text is renamed, and a line with
    too many fields is left out of the holdings and an error in the
    transactions. *)
Definition read_csv (p : path) : M loc :=
  t ← get_fs;
  match t !! p with
  | Some (File c) => alloc (Frame (header c) (map (map Str) (lines c)))
  | Some Dir => raise (IsADirectoryError p)
  | None => raise (FileNotFoundError p)
  end.

(** [df.to_csv(p, index=False)]: the parent folder must exist. *)
Definition to_csv (l : loc) (p : path) : M unit :=
  df ← deref l;
  t ← get_fs;
  if is_dir t (removelast p) then
    match t !! p with
    | Some Dir => raise (IsADirectoryError p)
    | _ => put_fs (<[p := File (csv_of df)]> t)
    end
  else raise (OSError p).

(** [shutil.rmtree(p)] *)
Definition rmtree (p : path) : M unit :=
  t ← get_fs;
  match t !! p with
  | Some Dir => put_fs (filter (fun kv => ¬ p `prefix_of` kv.1) t)
  | Some (File _) => raise (NotADirectoryError p)
  | None => raise (FileNotFoundError p)
  end.

(** [shutil.copytree(src, dst)]: [dst] is made (with its parents), then
    everything below [src] is copied below [dst]. *)
Definition copytree (src dst : path) : M unit :=
  t ← get_fs;
  match t !! src with
  | Some Dir =>
      let below := filter (fun kv => src `prefix_of` kv.1 ∧ kv.1 ≠ src) t in
      makedirs dst;;
      t' ← get_fs;
      put_fs (list_to_map
                (map (fun kv => (dst ++ drop (length src) kv.1, kv.2))
                     (map_to_list below)) ∪ t')
  | Some (File _) => raise (NotADirectoryError src)
  | None => raise (FileNotFoundError src)
  end.

(** ** The script *)

Definition subfolders : list string := ["context_data"; "perf"; "portfolio"]%string.

(** The number of days from [inception_date] to [end_date], both counted:
    the iteration budget of the loop below. *)
Definition range_length (inception_date end_date : datetime) : nat :=
  Z.to_nat (toordinal end_date - toordinal inception_date + 1).

(** The [while current_date <= end_date] loop of
    [create_folder_structure], run for at most [budget] iterations. *)
Fixpoint create_folder_loop (budget : nat) (end_date : datetime)
    (f : frequency) (current_date : datetime)
    (folders_to_process : list string) : M (list string) :=
  if leb current_date end_date then
    match budget with
    | O => unfinished
    | S budget' =>
        period_end ← lift (get_period_end_date current_date f);
        (* If period end date exceeds final date, use final date *)
        let period_end :=
          if ltb end_date period_end then end_date else period_end in
        let folder_name := strftime_ymd period_end in
        let folder_path := [folder_name] in
        let folders_to_process := folders_to_process ++ [folder_name] in
        e ← path_exists folder_path;
        unless e (makedirs folder_path);;
        for_each subfolders (fun subfolder =>
          let subfolder_path := folder_path ++ [subfolder] in
          e ← path_exists subfolder_path;
          unless e (makedirs subfolder_path));;
        (* Move to next period *)
        if leb end_date period_end then mret folders_to_process
        else
          current_date ← lift (get_next_period_end period_end f);
          create_folder_loop budget' end_date f current_date folders_to_process
    end
  else mret folders_to_process.

(** [create_folder_structure(inception_date, end_date, frequency)] *)
Definition create_folder_structure (inception_date end_date : datetime)
    (f : frequency) : M (list string) :=
  create_folder_loop (range_length inception_date end_date)
    end_date f inception_date [].

Definition Valuation_Date : string := "Valuation Date".
Definition Transaction_Date : string := "Transaction Date".
Definition Valuation_Date_Datetime : string := "Valuation Date Datetime".
Definition Transaction_Date_Datetime : string := "Transaction Date Datetime".

(** [.astype(str)] on one cell *)
Definition astype_str (v : cell) : string :=
  match v with
  | NaT => "NaT"
  | _ => cell_text v
  end.

(** [.astype(str).str.strip()] on one cell *)
Definition strip_cell (v : cell) : cell := Str (strip (astype_str v)).

(** [df[c] = df[c].astype(str).str.strip()], on the object at [l]. *)
Definition strip_column (l : loc) (c : string) : M unit :=
  df ← deref l;
  values ← lift (get_column c df);
  assign l (set_column c (map strip_cell values) df).

(** [df[df[c] != c]]: a new object without the repeated header lines. *)
Definition drop_header_rows (l : loc) (c : string) : M loc :=
  df ← deref l;
  values ← lift (get_column c df);
  alloc (Frame (columns df)
               (select_rows (map (fun v => bool_decide (v ≠ Str c)) values)
                            (rows df))).

(** [load_csv_files(source_folder)] *)
Definition load_csv_files (source_folder : string) : M (loc * loc) :=
  let ho_path := [source_folder; "perf"; "Holdings.csv"]%string in
  let tr_path := [source_folder; "perf"; "Transactions.csv"]%string in
  e ← path_exists ho_path;
  unless e (raise (FileNotFoundError ho_path));;
  e ← path_exists tr_path;
  unless e (raise (FileNotFoundError tr_path));;
  df_ho ← read_csv ho_path;
  df_tr ← read_csv tr_path;
  strip_column df_ho Valuation_Date;;
  strip_column df_tr Transaction_Date;;
  df_ho ← drop_header_rows df_ho Valuation_Date;
  df_tr ← drop_header_rows df_tr Transaction_Date;
  mret (df_ho, df_tr).

(** [df[c'] = pd.to_datetime(df[c], format='%m/%d/%Y')], on the object at
    [l]. *)
Definition add_datetime_column (l : loc) (c c' : string) : M unit :=
  df ← deref l;
  values ← lift (get_column c df);
  stamps ← lift (to_datetime values);
  assign l (set_column c' stamps df).

(** [df[(df[c'] >= lo) & (df[c'] <= hi)].drop(c', axis=1)]: two new
    objects, the selection and the selection without column [c']. *)
Definition filter_between (l : loc) (c' : string) (lo hi : datetime) : M loc :=
  df ← deref l;
  values ← lift (get_column c' df);
  mask ← lift (between lo hi values);
  selected ← alloc (Frame (columns df) (select_rows mask (rows df)));
  df_selected ← deref selected;
  dropped ← lift (drop_column c' df_selected);
  alloc dropped.

(** [filter_and_save_csv(df_ho, df_tr, inception_date, folder_date,
    folder_name)] *)
Definition filter_and_save_csv (df_ho df_tr : loc)
    (inception_date folder_date : datetime) (folder_name : string) : M unit :=
  (* Use deepcopy to avoid affecting original dataframes *)
  df_ho_temp ← deepcopy df_ho;
  df_tr_temp ← deepcopy df_tr;
  add_datetime_column df_ho_temp Valuation_Date Valuation_Date_Datetime;;
  add_datetime_column df_tr_temp Transaction_Date Transaction_Date_Datetime;;
  df_ho_filtered ←
    filter_between df_ho_temp Valuation_Date_Datetime inception_date folder_date;
  df_tr_filtered ←
    filter_between df_tr_temp Transaction_Date_Datetime inception_date folder_date;
  let perf_folder := [folder_name; "perf"]%string in
  let ho_output_path := perf_folder ++ ["Holdings.csv"]%string in
  let tr_output_path := perf_folder ++ ["Transactions.csv"]%string in
  to_csv df_ho_filtered ho_output_path;;
  to_csv df_tr_filtered tr_output_path.

(** [copy_additional_folders(source_folder, target_folders)] *)
Definition copy_additional_folders (source_folder : string)
    (target_folders : list string) : M unit :=
  let source_context := [source_folder; "context_data"]%string in
  let source_portfolio := [source_folder; "portfolio"]%string in
  for_each target_folders (fun target_folder =>
    let target_context := [target_folder; "context_data"]%string in
    let target_portfolio := [target_folder; "portfolio"]%string in
    e ← path_exists source_context;
    when e
      (e' ← path_exists target_context;
       when e' (rmtree target_context);;
       copytree source_context target_context);;
    e ← path_exists source_portfolio;
    when e
      (e' ← path_exists target_portfolio;
       when e' (rmtree target_portfolio);;
       copytree source_portfolio target_portfolio)).

(** The loop [for folder_name in folders_to_process] of [main]. *)
Definition process_folders (df_ho df_tr : loc) (inception_date : datetime)
    (folders_to_process : list string) : M unit :=
  for_each folders_to_process (fun folder_name =>
    folder_date ← lift (strptime_ymd folder_name);
    filter_and_save_csv df_ho df_tr inception_date folder_date folder_name).

(** The body of the [try] block of [main], after [get_user_input] has
    returned [inception_date], [end_date], [source_folder] and
    [frequency]. *)
Definition main_try (inception_date end_date : datetime)
    (source_folder : string) (f : frequency) : M unit :=
  folders_to_process ← create_folder_structure inception_date end_date f;
  '(df_ho, df_tr) ← load_csv_files source_folder;
  process_folders df_ho df_tr inception_date folders_to_process;;
  copy_additional_folders source_folder folders_to_process.

(** How a run ends: ["Run is done!"] or ["Error: ..."]. *)
Inductive outcome : Type :=
  | RunDone
  | RunError (e : exn).

(** [main()]: every exception of the body is caught and reported. *)
Definition main (inception_date end_date : datetime)
    (source_folder : string) (f : frequency) : M outcome :=
  fun w =>
    match main_try inception_date end_date source_folder f w with
    | (Ok _, w') => (Ok RunDone, w')
    | (Raise e, w') => (Ok (RunError e), w')
    | (Unfinished, w') => (Unfinished, w')
    end.

(** ** What the specification says a period end is

    These definitions follow the words of the specification, to be
    compared with [get_period_end_date] and the loop of
    [create_folder_structure]. *)

(** The last calendar day of the period unit that contains [dt]. *)
Definition last_day_of_unit (dt : datetime) (f : frequency) : datetime :=
  match f with
  | daily => dt
  | monthly =>
      Datetime (year dt) (month dt) (days_in_month (year dt) (month dt))
  | quarterly =>
      if month dt <=? 3 then Datetime (year dt) 3 31
      else if month dt <=? 6 then Datetime (year dt) 6 30
      else if month dt <=? 9 then Datetime (year dt) 9 30
      else Datetime (year dt) 12 31
  | annually => Datetime (year dt) 12 31
  end.

(** A period end cut back to the end date. *)
Definition clamped (end_date period_end : datetime) : datetime :=
  if ltb end_date period_end then end_date else period_end.

(** [a] and [b] lie in the same day, month, quarter or year. *)
Definition same_unit (f : frequency) (a b : datetime) : Prop :=
  match f with
  | daily => a = b
  | monthly => year a = year b /\ month a = month b
  | quarterly =>
      year a = year b /\ (month a - 1) / 3 = (month b - 1) / 3
  | annually => year a = year b
  end.


(** ** What the specification says the filter keeps

    These definitions follow the words of the specification, to be
    compared with [filter_and_save_csv]. *)

(** The date of row [r], read in column [c] under [MM/DD/YYYY]. *)
Definition row_date (c : string) (df : DataFrame) (r : list cell)
  : option datetime :=
  match index_of c (columns df) with
  | Some i =>
      match to_datetime_cell (nth i r (Str EmptyString)) with
      | Ok (Timestamp t) => Some t
      | _ => None
      end
  | None => None
  end.

(** The date of [r] lies in [[lo, hi]], both ends included. *)
Definition in_range (lo hi : datetime) (c : string) (df : DataFrame)
    (r : list cell) : bool :=
  match row_date c df r with
  | Some t => leb lo t && leb t hi
  | None => false
  end.

(** The rows of [df] in range, in their order, with every field as it
    was. *)
Definition filtered (lo hi : datetime) (c : string) (df : DataFrame)
  : DataFrame :=
  Frame (columns df) (List.filter (in_range lo hi c df) (rows df)).

Definition has_column (c : string) (df : DataFrame) : bool :=
  match index_of c (columns df) with Some _ => true | None => false end.

Definition dates_parse (c : string) (df : DataFrame) : Prop :=
  Forall (fun r => is_Some (row_date c df r)) (rows df).

(** ** Reasoning about runs *)

(** [m] never exhausts an iteration budget. *)
Definition settles {A} (m : M A) : Prop :=
  forall w, (m w).1 <> Unfinished.

(** From a world in [P], [m] returns [a] in a world in [Q a], or stops
    early in a world in [E]. *)
Definition hoare {A} (P : world -> Prop) (m : M A)
    (Q : A -> world -> Prop) (E : world -> Prop) : Prop :=
  forall w, P w ->
    match m w with
    | (Ok a, w') => Q a w'
    | (_, w') => E w'
    end.


(** [m] keeps the worlds of [I] in [I], however it ends. *)
Definition keeps {A} (I : world -> Prop) (m : M A) : Prop :=
  hoare I m (fun _ => I) I.

(** [t'] is [t] with, at most, new folders one or two components deep. *)
Definition only_new_folders (t t' : gmap path node) : Prop :=
  forall p, t' !! p = t !! p \/
            (t !! p = None /\ t' !! p = Some Dir /\ (length p <= 2)%nat).

(** The objects of [w0] are all still there, and the files differ from
    those of [w0] by new folders only. *)
Definition folders_grown (w0 w : world) : Prop :=
  heap w = heap w0 /\ only_new_folders (fs w0) (fs w).

(** No regular file has the name of a period folder. *)
Definition no_file_in_the_way (t : gmap path node) : Prop :=
  forall d c, t !! [strftime_ymd d] <> Some (File c).

(** The files are those of [w0]. *)
Definition files_kept (w0 w : world) : Prop := fs w = fs w0.

(** The objects [h] are still in memory, unchanged. *)
Definition objects_kept (h : list DataFrame) (w : world) : Prop :=
  h `prefix_of` heap w.


(** ** Sample data *)

Module Samples.

Definition empty_world : world := World [] ∅.

Definition holdings_csv : csv :=
  Csv ["Portfolio Code"; "Valuation Date"; "Market Value"]%string
      [["P1"; "01/10/2023"; "100"];
       ["P1"; "02/15/2023"; "110"];
       ["P1"; "12/31/2022"; "90"];
       ["P1"; "03/01/2023"; "120"]]%string.

Definition transactions_csv : csv :=
  Csv ["Transaction Date"; "Portfolio Code"; "Amount"]%string
      [["01/05/2023"; "P1"; "5"];
       ["02/20/2023"; "P1"; "7"]]%string.

(** A source folder named after the end date 2023-02-28. *)
Definition source : string := "2023-02-28-source".

(** The source folder with both tables. *)
Definition source_world : world :=
  World []
    (list_to_map
       [([source], Dir);
        ([source; "perf"], Dir);
        ([source; "perf"; "Holdings.csv"], File holdings_csv);
        ([source; "perf"; "Transactions.csv"], File transactions_csv)]%string).

(** The source folder without [Holdings.csv]. *)
Definition no_holdings_world : world :=
  World []
    (list_to_map
       [([source], Dir);
        ([source; "perf"], Dir);
        ([source; "perf"; "Transactions.csv"], File transactions_csv)]%string).

Definition holdings : DataFrame :=
  Frame (header holdings_csv) (map (map Str) (lines holdings_csv)).

Definition transactions : DataFrame :=
  Frame (header transactions_csv) (map (map Str) (lines transactions_csv)).

Definition january_folder : gmap path node :=
  list_to_map [(["2023-01-31"], Dir); (["2023-01-31"; "perf"], Dir)]%string.

(** Both tables in memory and the period folder 2023-01-31 in place. *)
Definition loaded_world : world :=
  World [holdings; transactions] january_folder.



End Samples.

(** ** The prompts of the script

    [input()] takes the next of the lines still to be read, which the
    functions below are given as a list of texts and hand back shortened;
    it raises [EOFError] when none is left.  The messages printed between
    two prompts are left out, and [DATASETS_DIR] can be listed. *)

(** *** Checking the inception date *)

(** [n] digits at the start of [s]: what follows them. *)
Fixpoint skip_digits (n : nat) (s : string) : option string :=
  match n with
  | O => Some s
  | S k =>
      match s with
      | String c s' =>
          match ascii_to_digit c with
          | Some _ => skip_digits k s'
          | None => None
          end
      | EmptyString => None
      end
  end.

(** [re.match(r'^\d{8}$', s)]: eight digits and then the end of the
    string, before which [$] lets one newline pass. *)
Definition match_8_digits (s : string) : bool :=
  match skip_digits 8 s with
  | Some EmptyString => true
  | Some (String c EmptyString) => Ascii.eqb c "010"%char
  | _ => false
  end.

(** The ways [%m] matches at the start of [s], in the order the regular
    expression [1[0-2]|0[1-9]|[1-9]] tries them: the month and what
    follows it. *)
Definition prefixes_m (s : string) : list (Z * string) :=
  match s with
  | String a s1 =>
      match ascii_to_digit a with
      | Some x =>
          match s1 with
          | String b s2 =>
              match ascii_to_digit b with
              | Some y =>
                  if ((x =? 1) && (y <=? 2)) || ((x =? 0) && (1 <=? y))
                  then [(10 * x + y, s2)] else []
              | None => []
              end
          | EmptyString => []
          end ++ (if 1 <=? x then [(x, s1)] else [])
      | None => []
      end
  | EmptyString => []
  end.

(** The same for [%d]: [3[0-1]|[1-2]\d|0[1-9]|[1-9]| [1-9]]. *)
Definition prefixes_d (s : string) : list (Z * string) :=
  match s with
  | String a s1 =>
      match ascii_to_digit a with
      | Some x =>
          match s1 with
          | String b s2 =>
              match ascii_to_digit b with
              | Some y =>
                  if ((x =? 3) && (y <=? 1)) || (x =? 1) || (x =? 2) ||
                     ((x =? 0) && (1 <=? y))
                  then [(10 * x + y, s2)] else []
              | None => []
              end
          | EmptyString => []
          end ++ (if 1 <=? x then [(x, s1)] else [])
      | None =>
          if Ascii.eqb a " " then
            match s1 with
            | String b s2 =>
                match ascii_to_digit b with
                | Some y => if 1 <=? y then [(y, s2)] else []
                | None => []
                end
            | EmptyString => []
            end
          else []
      end
  | EmptyString => []
  end.

(** The match of [%m%d]: the first way of [%m] after which [%d] matches,
    with the first way of [%d]. *)
Fixpoint first_md (months : list (Z * string)) : option (Z * Z * string) :=
  match months with
  | [] => None
  | (m, s1) :: months' =>
      match prefixes_d s1 with
      | (d, s2) :: _ => Some (m, d, s2)
      | [] => first_md months'
      end
  end.

(** [datetime.strptime(s, '%Y%m%d')]: the format must match at the start
    of [s] and leave nothing over. *)
Definition strptime_Ymd (s : string) : res datetime :=
  match s with
  | String a (String b (String c (String d rest))) =>
      match match_Y (String a (String b (String c (String d EmptyString)))),
            first_md (prefixes_m rest) with
      | Some y, Some (m, dd, EmptyString) => new_datetime y m dd
      | _, _ => Raise ValueError
      end
  | _ => Raise ValueError
  end.

(** [validate_date_format(date_str)] *)
Definition validate_date_format (date_str : string) : bool :=
  if negb (match_8_digits date_str) then false
  else match strptime_Ymd date_str with
       | Ok _ => true
       | _ => false
       end.

(** The text [YYYYMMDD] of a date. *)
Definition compact_date (dt : datetime) : string :=
  pad4 (year dt) (pad2 (month dt) (pad2 (day dt) EmptyString)).

(** *** Prompting *)

(** [str.lower()] on one character: the capital letters of ASCII and
    those with the codes 192 to 222, but for the sign at 215. *)
Definition lower_ascii (c : ascii) : ascii :=
  let n := nat_of_ascii c in
  if ((65 <=? n) && (n <=? 90) ||
      (192 <=? n) && (n <=? 222) && negb (n =? 215))%nat
  then ascii_of_nat (n + 32) else c.

Fixpoint lower (s : string) : string :=
  match s with
  | EmptyString => EmptyString
  | String c s' => String (lower_ascii c) (lower s')
  end.

(** [frequency in frequency_options] *)
Definition frequency_option (s : string) : option frequency :=
  if String.eqb s "daily" then Some daily
  else if String.eqb s "monthly" then Some monthly
  else if String.eqb s "quarterly" then Some quarterly
  else if String.eqb s "annually" then Some annually
  else None.

(** [re.match(r'^(\d{4}-\d{2}-\d{2})', s)]: the group, when [s] begins
    with it. *)
Definition date_prefix (s : string) : option string :=
  match s with
  | String y1 (String y2 (String y3 (String y4 (String h1
      (String m1 (String m2 (String h2 (String d1 (String d2 _))))))))) =>
      if forallb (fun c => bool_decide (is_Some (ascii_to_digit c)))
           [y1; y2; y3; y4; m1; m2; d1; d2]
         && Ascii.eqb h1 "-" && Ascii.eqb h2 "-"
      then Some (String y1 (String y2 (String y3 (String y4 (String h1
             (String m1 (String m2 (String h2 (String d1 (String d2
               EmptyString))))))))))
      else None
  | _ => None
  end.

(** The first loop of [get_user_input]: lines are read until one is a
    date; what is returned is the date and the lines not read.  When no
    line is left [input()] raises [EOFError]. *)
Fixpoint ask_inception_date (stdin : list string)
  : res (datetime * list string) :=
  match stdin with
  | [] => Raise EOFError
  | line :: stdin' =>
      let inception_date := strip line in
      if validate_date_format inception_date
      then inception_date ← strptime_Ymd inception_date;
           Ok (inception_date, stdin')
      else ask_inception_date stdin'
  end.

(** The second loop: lines are read until one names an entry of
    [DATASETS_DIR] that begins with a date, which is the end date. *)
Fixpoint ask_folder_name (t : gmap path node) (stdin : list string)
  : res (datetime * string * list string) :=
  match stdin with
  | [] => Raise EOFError
  | line :: stdin' =>
      let folder_name := strip line in
      if bool_decide (is_Some (t !! [folder_name])) then
        match date_prefix folder_name with
        | Some date_match =>
            end_date ← strptime_ymd date_match;
            Ok (end_date, folder_name, stdin')
        | None => ask_folder_name t stdin'
        end
      else ask_folder_name t stdin'
  end.

(** The third loop: lines are read until one is a frequency. *)
Fixpoint ask_frequency (stdin : list string)
  : res (frequency * list string) :=
  match stdin with
  | [] => Raise EOFError
  | line :: stdin' =>
      match frequency_option (lower (strip line)) with
      | Some f => Ok (f, stdin')
      | None => ask_frequency stdin'
      end
  end.

(** [get_user_input()], reading the lines [stdin] with the files [t] in
    place: the four values it returns, and the lines not read. *)
Definition get_user_input (t : gmap path node) (stdin : list string)
  : res (datetime * datetime * string * frequency * list string) :=
  '(inception_date, stdin) ← ask_inception_date stdin;
  '(end_date, folder_name, stdin) ← ask_folder_name t stdin;
  '(f, stdin) ← ask_frequency stdin;
  Ok (inception_date, end_date, folder_name, f, stdin).

(** ** What a run needs and leaves *)

(** The folder of a period and its three subfolders are in place. *)
Definition period_folder_made (t : gmap path node) (name : string) : Prop :=
  is_Some (t !! [name]) /\
  forall sub, sub ∈ subfolders -> is_Some (t !! [name; sub]).

(** The [perf] folder of a period is in place, and no folder has the
    name of one of its two tables. *)
Definition perf_folder_ready (t : gmap path node) (name : string) : Prop :=
  t !! [name; "perf"]%string = Some Dir /\
  t !! [name; "perf"; "Holdings.csv"]%string <> Some Dir /\
  t !! [name; "perf"; "Transactions.csv"]%string <> Some Dir.

(** The dates that a timestamp of [pandas] holds at its resolution of
    nanoseconds: 1677-09-22 to 2262-04-11. *)
Definition in_timestamp_range (dt : datetime) : Prop :=
  leb (Datetime 1677 9 22) dt = true /\ leb dt (Datetime 2262 4 11) = true.




(** ** What the load makes of a file

    These definitions follow the words of the specification on the
    cleaning of the two tables: white space is stripped from the date
    field, and the lines that repeat the header are dropped. *)

Definition strip_field (i : nat) (r : list cell) : list cell :=
  <[i := strip_cell (nth i r (Str EmptyString))]> r.

Definition cleaned (c : string) (i : nat) (f : csv) : DataFrame :=
  Frame (header f)
    (List.filter (fun r => bool_decide (nth i r (Str EmptyString) <> Str c))
       (map (strip_field i) (map (map Str) (lines f)))).

(** Every line has as many fields as the header. *)
Definition regular (f : csv) : Prop :=
  Forall (fun l => length l = length (header f)) (lines f).

(** The columns that [load_csv_files] has [read_csv] read as text, for the
    table whose date column is [c]. *)
Definition text_columns (c : string) : list string :=
  ["Portfolio Code"; "Security Code"; c]%string.

(** The fields that [read_csv] takes for missing values, in small
    letters. *)
Definition na_values : list string :=
  [EmptyString; "#n/a"; "#n/a n/a"; "#na"; "-1.#ind"; "-1.#qnan"; "-nan";
   "1.#ind"; "1.#qnan"; "<na>"; "n/a"; "na"; "null"; "nan";
   "none"]%string.

(** A file that [read_csv] reads field by field, as text: every line has
    as many fields as the header, no label occurs twice, every column is
    one of those read as text, and no field is, but for white space
    around it and for the case of its letters, one taken for a missing
    value. *)
Definition plain (c : string) (f : csv) : Prop :=
  regular f /\ NoDup (header f) /\
  Forall (fun l => l ∈ text_columns c) (header f) /\
  Forall (Forall (fun s => lower (strip s) ∉ na_values)) (lines f).

(** Every row of [df] has in column [c] a date that a timestamp holds. *)
Definition dates_in_range (c : string) (df : DataFrame) : Prop :=
  Forall (fun r => exists t, row_date c df r = Some t /\ in_timestamp_range t)
         (rows df).

(** The entries below [src], moved below [dst]: what [copytree] adds. *)
Definition copied (src dst : path) (t : gmap path node) : gmap path node :=
  list_to_map
    (map (fun kv => ((dst ++ drop (length src) kv.1)%list, kv.2))
         (map_to_list
            (filter (fun kv => src `prefix_of` kv.1 /\ kv.1 <> src) t))).

(** Folder [sub] of [target] can be replaced: it is a folder, or nothing
    is there. *)
Definition aux_ready (t : gmap path node) (target sub : string) : Prop :=
  t !! [target; sub] = Some Dir \/
  forall q, [target; sub] `prefix_of` q -> t !! q = None.

(** The files after the two auxiliary folders of [source_folder] have
    replaced those of every folder of [targets]. *)
Definition replicated (source_folder : string) (targets : list string)
    (t : gmap path node) (q : path) : option node :=
  match q with
  | target :: sub :: r =>
      if bool_decide (target ∈ targets /\
                      (sub = "context_data" \/ sub = "portfolio"))%string
      then t !! (source_folder :: sub :: r)
      else t !! q
  | _ => t !! q
  end.

(** A period folder whose two auxiliary folders can be replaced. *)
Definition target_ready (t : gmap path node) (target : string) : Prop :=
  t !! [target] = Some Dir /\
  aux_ready t target "context_data" /\ aux_ready t target "portfolio".

(** ** More sample data *)

Module MoreSamples.
Import Samples.




(** The one table of each auxiliary folder of the samples. *)
Definition auxiliary_csv : csv :=
  Csv ["Code"; "Name"]%string [["P1"; "One"]]%string.

(** A source folder with both auxiliary folders, and a period folder
    2023-01-31 that holds an old file in its [context_data]. *)
Definition auxiliary_world : world :=
  World []
    (list_to_map
       [([source], Dir);
        ([source; "context_data"], Dir);
        ([source; "context_data"; "Benchmarks.csv"], File auxiliary_csv);
        ([source; "portfolio"], Dir);
        ([source; "portfolio"; "Portfolios.csv"], File auxiliary_csv);
        (["2023-01-31"], Dir);
        (["2023-01-31"; "context_data"], Dir);
        (["2023-01-31"; "context_data"; "Old.csv"], File auxiliary_csv);
        (["2023-02-28"], Dir)]%string).

(** Two tables all of whose columns are read as text; the holdings have
    white space around a date and a line that repeats the header. *)
Definition plain_holdings_csv : csv :=
  Csv ["Portfolio Code"; "Security Code"; "Valuation Date"]%string
      [["P1"; "S1"; "01/10/2023"];
       ["P1"; "S2"; " 02/15/2023 "];
       ["Portfolio Code"; "Security Code"; "Valuation Date"];
       ["P1"; "S1"; "12/31/2022"];
       ["P1"; "S1"; "03/01/2023"]]%string.

Definition plain_transactions_csv : csv :=
  Csv ["Transaction Date"; "Portfolio Code"; "Security Code"]%string
      [["01/05/2023"; "P1"; "S1"];
       ["02/20/2023"; "P1"; "S2"]]%string.

(** A source folder with both tables and both auxiliary folders. *)
Definition whole_source_world : world :=
  World []
    (list_to_map
       [([source], Dir);
        ([source; "perf"], Dir);
        ([source; "perf"; "Holdings.csv"], File plain_holdings_csv);
        ([source; "perf"; "Transactions.csv"], File plain_transactions_csv);
        ([source; "context_data"], Dir);
        ([source; "context_data"; "Benchmarks.csv"], File auxiliary_csv);
        ([source; "portfolio"], Dir);
        ([source; "portfolio"; "Portfolios.csv"], File auxiliary_csv)]%string).

End MoreSamples.

(** * Facts

    ** The calendar *)

Lemma valid_fields dt :
  valid dt <->
  1 <= year dt <= 9999 /\ 1 <= month dt <= 12 /\
  1 <= day dt <= days_in_month (year dt) (month dt).
Proof.
  unfold valid, check_date_fields, MINYEAR, MAXYEAR.
  repeat first [rewrite andb_true_iff | rewrite Z.leb_le]. lia.
Qed.

Lemma ltb_lt a b :
  ltb a b = true <->
  year a < year b \/
  (year a = year b /\
   (month a < month b \/ (month a = month b /\ day a < day b))).
Proof.
  unfold ltb.
  repeat first [rewrite orb_true_iff | rewrite andb_true_iff
               | rewrite Z.ltb_lt | rewrite Z.eqb_eq].
  tauto.
Qed.

Lemma leb_le a b :
  leb a b = true <->
  year a < year b \/
  (year a = year b /\
   (month a < month b \/ (month a = month b /\ day a <= day b))).
Proof.
  unfold leb. rewrite negb_true_iff, <- not_true_iff_false, ltb_lt. lia.
Qed.

Lemma month_cases m :
  1 <= m <= 12 ->
  m = 1 \/ m = 2 \/ m = 3 \/ m = 4 \/ m = 5 \/ m = 6 \/
  m = 7 \/ m = 8 \/ m = 9 \/ m = 10 \/ m = 11 \/ m = 12.
Proof. lia. Qed.

Ltac each_month m H :=
  let C := fresh "C" in
  pose proof (month_cases m H) as C;
  repeat (destruct C as [C | C]; [subst m | ]); [.. | subst m].

Lemma days_in_month_bounds y m :
  1 <= m <= 12 -> 28 <= days_in_month y m <= 31.
Proof.
  intros H. each_month m H; cbn; try destruct (is_leap y); lia.
Qed.

Lemma days_before_year_succ y :
  days_before_year (y + 1) =
  days_before_year y + 365 + (if is_leap y then 1 else 0).
Proof.
  unfold days_before_year, is_leap. cbn zeta.
  replace (y + 1 - 1) with y by lia.
  destruct (Z.eqb_spec (y mod 4) 0), (Z.eqb_spec (y mod 100) 0),
    (Z.eqb_spec (y mod 400) 0); cbn [andb orb negb];
    Z.div_mod_to_equations; lia.
Qed.

Lemma days_before_year_mono y1 y2 :
  y1 <= y2 -> days_before_year y1 <= days_before_year y2.
Proof.
  unfold days_before_year. cbn zeta. intros H.
  assert (H4 : (y1 - 1) / 4 <= (y2 - 1) / 4)
    by (apply Z.div_le_mono; lia).
  assert (H400 : (y1 - 1) / 400 <= (y2 - 1) / 400)
    by (apply Z.div_le_mono; lia).
  assert (H100 : (y2 - 1) / 100 - (y1 - 1) / 100 <= y2 - y1)
    by (Z.div_mod_to_equations; lia).
  lia.
Qed.

Lemma days_before_month_next y m :
  1 <= m <= 12 ->
  days_before_month y m + days_in_month y m =
  if m =? 12 then 365 + (if is_leap y then 1 else 0)
  else days_before_month y (m + 1).
Proof.
  intros H. each_month m H; unfold days_before_month, days_in_month;
    destruct (is_leap y); reflexivity.
Qed.

Lemma days_before_month_bounds y m :
  1 <= m <= 12 -> 0 <= days_before_month y m /\
  days_before_month y m + days_in_month y m <= 365 + (if is_leap y then 1 else 0).
Proof.
  intros H. each_month m H; unfold days_before_month; cbn;
    destruct (is_leap y); lia.
Qed.

Lemma days_before_month_mono y m1 m2 :
  1 <= m1 -> m1 < m2 -> m2 <= 12 ->
  days_before_month y m1 + days_in_month y m1 <= days_before_month y m2.
Proof.
  intros H1 H2 H3.
  assert (Hm1 : 1 <= m1 <= 12) by lia.
  assert (Hm2 : 1 <= m2 <= 12) by lia.
  each_month m1 Hm1; each_month m2 Hm2; try lia;
    unfold days_before_month; cbn; destruct (is_leap y); lia.
Qed.

Lemma toordinal_lt a b :
  valid a -> valid b -> ltb a b = true -> toordinal a < toordinal b.
Proof.
  rewrite !valid_fields, ltb_lt. unfold toordinal.
  intros (Hya & Hma & Hda) (Hyb & Hmb & Hdb) [Hy | [Hy [Hm | [Hm Hd]]]].
  - pose proof (days_before_year_mono (year a + 1) (year b) ltac:(lia)).
    rewrite days_before_year_succ in H.
    pose proof (days_before_month_bounds (year a) (month a) Hma).
    pose proof (days_before_month_bounds (year b) (month b) Hmb).
    lia.
  - rewrite <- Hy in *.
    pose proof (days_before_month_mono (year a) (month a) (month b)
                  ltac:(lia) Hm ltac:(lia)).
    lia.
  - rewrite Hy, Hm. lia.
Qed.

Lemma new_datetime_ok y m d :
  1 <= y <= 9999 -> 1 <= m <= 12 -> 1 <= d <= days_in_month y m ->
  new_datetime y m d = Ok (Datetime y m d).
Proof.
  intros Hy Hm Hd. unfold new_datetime.
  replace (check_date_fields y m d) with true; [done|].
  symmetry. apply (valid_fields (Datetime y m d)). done.
Qed.

(** Literal arithmetic, which [cbn] leaves alone. *)
Ltac lit_arith :=
  repeat match goal with
  | |- context [Z.pos ?a + Z.pos ?b] =>
      let v := eval vm_compute in (Z.pos a + Z.pos b) in
      change (Z.pos a + Z.pos b) with v
  | |- context [Z.pos ?a - Z.pos ?b] =>
      let v := eval vm_compute in (Z.pos a - Z.pos b) in
      change (Z.pos a - Z.pos b) with v
  | |- context [- Z.pos ?a] =>
      let v := eval vm_compute in (- Z.pos a) in
      change (- Z.pos a) with v
  | |- context [- Z.neg ?a] =>
      let v := eval vm_compute in (- Z.neg a) in
      change (- Z.neg a) with v
  | |- context [Z.to_nat (Z.pos ?a)] =>
      let v := eval vm_compute in (Z.to_nat (Z.pos a)) in
      change (Z.to_nat (Z.pos a)) with v
  end.

Lemma tomorrow_eq y m d :
  tomorrow (Datetime y m d) =
  if d <? days_in_month y m then Ok (Datetime y m (d + 1))
  else if m <? 12 then Ok (Datetime y (m + 1) 1)
  else if y <? 9999 then Ok (Datetime (y + 1) 1 1)
  else Raise OverflowError.
Proof. reflexivity. Qed.

Lemma yesterday_eq y m d :
  yesterday (Datetime y m d) =
  if 1 <? d then Ok (Datetime y m (d - 1))
  else if 1 <? m then Ok (Datetime y (m - 1) (days_in_month y (m - 1)))
  else if 1 <? y then Ok (Datetime (y - 1) 12 31)
  else Raise OverflowError.
Proof. reflexivity. Qed.

(** Runs [tomorrow] and [yesterday] on dates whose month and day are
    literals; comparisons on the year are settled by [lia]. *)
Ltac run_days :=
  repeat first
    [ progress cbn [shift mbind res_bind year month day days_in_month]
    | progress lit_arith
    | rewrite tomorrow_eq
    | rewrite yesterday_eq
    | progress unfold add_days
    | match goal with
      | E : is_leap ?y = _ |- context [is_leap ?y] => rewrite E
      | |- context [?a <? ?b] => destruct (Z.ltb_spec a b); try lia
      | |- context [?a <=? ?b] => destruct (Z.leb_spec a b); try lia
      end ].

Lemma get_period_end_date_monthly dt :
  valid dt -> ~ (year dt = 9999 /\ month dt = 12) ->
  get_period_end_date dt monthly =
  Ok (Datetime (year dt) (month dt) (days_in_month (year dt) (month dt))).
Proof.
  rewrite valid_fields. destruct dt as [y m d]; cbn [year month day].
  intros (Hy & Hm & Hd) Hmax.
  unfold get_period_end_date, replace_day. cbn [year month day].
  rewrite new_datetime_ok
    by (pose proof (days_in_month_bounds y m Hm); lia).
  each_month m Hm; try (destruct (is_leap y) eqn:E); run_days;
    first [reflexivity | repeat f_equal; lia].
Qed.

Lemma get_period_end_date_overflow dt :
  valid dt -> year dt = 9999 -> month dt = 12 ->
  get_period_end_date dt monthly = Raise OverflowError.
Proof.
  rewrite valid_fields. destruct dt as [y m d]; cbn [year month day].
  intros (Hy & Hm & Hd) -> ->.
  unfold get_period_end_date, replace_day. cbn [year month day].
  rewrite new_datetime_ok by (cbn; lia).
  reflexivity.
Qed.

Lemma new_datetime_inv y m d dt :
  new_datetime y m d = Ok dt -> dt = Datetime y m d /\ valid dt.
Proof.
  unfold new_datetime, valid.
  destruct (check_date_fields y m d) eqn:E; [|discriminate].
  intros [= <-]. done.
Qed.

Lemma leb_refl a : leb a a = true.
Proof. apply leb_le. lia. Qed.

Lemma ltb_leb a b : ltb a b = true -> leb a b = true.
Proof. rewrite ltb_lt, leb_le. lia. Qed.

Lemma leb_false_ltb a b : leb a b = false -> ltb b a = true.
Proof. unfold leb. by intros ->%negb_false_iff. Qed.

Lemma ltb_false_leb a b : ltb a b = false -> leb b a = true.
Proof. unfold leb. by intros ->. Qed.

Lemma leb_ltb_trans a b c :
  leb a b = true -> ltb b c = true -> ltb a c = true.
Proof. rewrite leb_le, !ltb_lt. lia. Qed.

Lemma ltb_trans a b c :
  ltb a b = true -> ltb b c = true -> ltb a c = true.
Proof. rewrite !ltb_lt. lia. Qed.

Lemma leb_antisym a b : leb a b = true -> leb b a = true -> a = b.
Proof.
  rewrite !leb_le. destruct a, b; cbn [year month day]. intros. f_equal; lia.
Qed.

Lemma toordinal_le a b :
  valid a -> valid b -> leb a b = true -> toordinal a <= toordinal b.
Proof.
  intros Ha Hb Hle.
  destruct (ltb a b) eqn:Hlt.
  - pose proof (toordinal_lt a b Ha Hb Hlt). lia.
  - apply ltb_false_leb in Hlt.
    rewrite (leb_antisym a b Hle Hlt). lia.
Qed.

(** *** Period ends *)

Lemma quarter_cases m :
  1 <= m <= 12 ->
  (m - 1) / 3 + 1 =
  if m <=? 3 then 1 else if m <=? 6 then 2 else if m <=? 9 then 3 else 4.
Proof.
  intros H. each_month m H; reflexivity.
Qed.

Lemma get_period_end_date_spec dt f :
  valid dt -> ~ (f = monthly /\ year dt = 9999 /\ month dt = 12) ->
  get_period_end_date dt f = Ok (last_day_of_unit dt f).
Proof.
  intros Hv Hmax. destruct f.
  - reflexivity.
  - apply get_period_end_date_monthly; [done|]. tauto.
  - apply valid_fields in Hv as (Hy & Hm & Hd).
    unfold get_period_end_date, last_day_of_unit.
    cbv zeta. rewrite (quarter_cases _ Hm).
    destruct (month dt <=? 3); [|destruct (month dt <=? 6);
      [|destruct (month dt <=? 9)]];
      cbn [Z.eqb Pos.eqb]; apply new_datetime_ok; cbn; lia.
  - apply valid_fields in Hv as (Hy & Hm & Hd).
    apply new_datetime_ok; cbn; lia.
Qed.

Lemma last_day_of_unit_valid dt f : valid dt -> valid (last_day_of_unit dt f).
Proof.
  intros Hv. pose proof Hv as (Hy & Hm & Hd)%valid_fields.
  destruct f; unfold last_day_of_unit; [done|..].
  - apply valid_fields; cbn [year month day].
    pose proof (days_in_month_bounds (year dt) (month dt) Hm). lia.
  - destruct (month dt <=? 3); [|destruct (month dt <=? 6);
      [|destruct (month dt <=? 9)]]; apply valid_fields; cbn; lia.
  - apply valid_fields; cbn; lia.
Qed.

Lemma last_day_of_unit_ge dt f :
  valid dt -> leb dt (last_day_of_unit dt f) = true.
Proof.
  intros (Hy & Hm & Hd)%valid_fields. apply leb_le.
  destruct dt as [y m d]. cbn [year month day] in *.
  destruct f; unfold last_day_of_unit; cbn [year month day]; [lia|lia|..];
    each_month m Hm; cbn in Hd |- *; lia.
Qed.

Lemma last_day_of_unit_same dt f :
  valid dt -> same_unit f dt (last_day_of_unit dt f).
Proof.
  intros (Hy & Hm & Hd)%valid_fields.
  destruct dt as [y m d]. cbn [year month day] in *.
  destruct f; unfold same_unit, last_day_of_unit; cbn [year month day];
    [done|done|..|done].
  each_month m Hm; split; reflexivity.
Qed.

(** Away from December 9999 under [monthly], [get_period_end_date] returns
    the last day of the unit of its argument, which is not before it. *)
Lemma get_period_end_date_correct dt f :
  valid dt -> ~ (f = monthly /\ year dt = 9999 /\ month dt = 12) ->
  exists pe,
    get_period_end_date dt f = Ok pe /\ pe = last_day_of_unit dt f /\
    valid pe /\ leb dt pe = true /\ same_unit f dt pe.
Proof.
  intros Hv Hmax. exists (last_day_of_unit dt f).
  split; [by apply get_period_end_date_spec|]. split; [done|].
  split; [by apply last_day_of_unit_valid|].
  split; [by apply last_day_of_unit_ge|by apply last_day_of_unit_same].
Qed.

(** What [get_period_end_date] returns, when it returns. *)
Lemma get_period_end_date_inv dt f pe :
  valid dt -> get_period_end_date dt f = Ok pe ->
  pe = last_day_of_unit dt f.
Proof.
  intros Hv H.
  destruct (decide (f = monthly /\ year dt = 9999 /\ month dt = 12))
    as [(-> & Hy & Hm) | Hn].
  - rewrite get_period_end_date_overflow in H by done. discriminate.
  - rewrite get_period_end_date_spec in H by done. congruence.
Qed.

(** *** The next anchor *)

Lemma tomorrow_inv dt dt' :
  valid dt -> tomorrow dt = Ok dt' -> valid dt' /\ ltb dt dt' = true.
Proof.
  intros (Hy & Hm & Hd)%valid_fields. destruct dt as [y m d].
  cbn [year month day] in *. rewrite tomorrow_eq.
  destruct (Z.ltb_spec d (days_in_month y m));
    [|destruct (Z.ltb_spec m 12); [|destruct (Z.ltb_spec y 9999)]];
    intros [= <-]; rewrite valid_fields, ltb_lt; cbn [year month day].
  - lia.
  - pose proof (days_in_month_bounds y (m + 1) ltac:(lia)). lia.
  - cbn. lia.
Qed.

Lemma add_relativedelta_inv dt ys ms dt' :
  valid dt -> 0 <= ys -> 0 <= ms <= 12 -> 0 < ys + ms ->
  add_relativedelta dt ys ms = Ok dt' -> valid dt' /\ ltb dt dt' = true.
Proof.
  intros (Hy & Hm & Hd)%valid_fields Hys Hms Hpos.
  unfold add_relativedelta.
  destruct (Z.eqb_spec ms 0) as [-> | Hne].
  - intros [-> Hv]%new_datetime_inv. split; [done|].
    apply ltb_lt; cbn [year month day]. lia.
  - destruct (Z.ltb_spec 12 (month dt + ms));
      [|destruct (Z.ltb_spec (month dt + ms) 1)];
      intros [-> Hv]%new_datetime_inv; (split; [done|]);
      apply ltb_lt; cbn [year month day]; lia.
Qed.

Lemma get_next_period_end_inv dt f dt' :
  valid dt -> get_next_period_end dt f = Ok dt' ->
  valid dt' /\ ltb dt dt' = true.
Proof.
  intros Hv. destruct f; cbn [get_next_period_end].
  - unfold add_days. change (0 <=? 1) with true.
    change (Z.to_nat 1) with 1%nat. cbn [shift].
    destruct (tomorrow dt) as [t| |] eqn:E; cbn; [|done..].
    intros [= <-]. by apply tomorrow_inv.
  - apply add_relativedelta_inv; (done || lia).
  - apply add_relativedelta_inv; (done || lia).
  - apply add_relativedelta_inv; (done || lia).
Qed.

(** *** No pure computation is left unfinished *)

Lemma new_datetime_settles y m d : new_datetime y m d <> Unfinished.
Proof. unfold new_datetime. by destruct check_date_fields. Qed.

Lemma tomorrow_settles dt : tomorrow dt <> Unfinished.
Proof. unfold tomorrow. by repeat case_match. Qed.

Lemma yesterday_settles dt : yesterday dt <> Unfinished.
Proof. unfold yesterday. by repeat case_match. Qed.

Lemma res_bind_settles {A B} (r : res A) (k : A -> res B) :
  r <> Unfinished -> (forall a, r = Ok a -> k a <> Unfinished) ->
  r ≫= k <> Unfinished.
Proof. destruct r; cbn; intros H Hk; [by apply Hk|done|done]. Qed.

Lemma shift_settles step n dt :
  (forall d, step d <> Unfinished) -> shift step n dt <> Unfinished.
Proof.
  intros Hs. revert dt. induction n as [|n IH]; intros dt; cbn [shift]; [done|].
  apply res_bind_settles; auto.
Qed.

Lemma add_days_settles dt n : add_days dt n <> Unfinished.
Proof.
  unfold add_days. destruct (0 <=? n); apply shift_settles;
    auto using tomorrow_settles, yesterday_settles.
Qed.

Lemma get_period_end_date_settles dt f : get_period_end_date dt f <> Unfinished.
Proof.
  destruct f; cbn [get_period_end_date]; [done|..].
  - apply res_bind_settles; [apply new_datetime_settles|intros d28 _].
    apply res_bind_settles; intros; apply add_days_settles.
  - cbv zeta. repeat case_match; apply new_datetime_settles.
  - apply new_datetime_settles.
Qed.

Lemma get_next_period_end_settles dt f : get_next_period_end dt f <> Unfinished.
Proof.
  destruct f; cbn [get_next_period_end]; [apply add_days_settles|..];
    unfold add_relativedelta; repeat case_match; apply new_datetime_settles.
Qed.

(** ** Runs of the monad *)

Section Runs.
Context {A B : Type}.

Lemma bind_run (m : M A) (k : A -> M B) w :
  (m ≫= k) w =
  match m w with
  | (Ok a, w') => k a w'
  | (Raise e, w') => (Raise e, w')
  | (Unfinished, w') => (Unfinished, w')
  end.
Proof. reflexivity. Qed.

Lemma bind_run_ok (m : M A) (k : A -> M B) w a w' :
  m w = (Ok a, w') -> (m ≫= k) w = k a w'.
Proof. intros H. by rewrite bind_run, H. Qed.

Lemma bind_run_raise (m : M A) (k : A -> M B) w e w' :
  m w = (Raise e, w') -> (m ≫= k) w = (Raise e, w').
Proof. intros H. by rewrite bind_run, H. Qed.

Lemma settles_bind (m : M A) (k : A -> M B) :
  settles m -> (forall a, settles (k a)) -> settles (m ≫= k).
Proof.
  intros Hm Hk w. rewrite bind_run. specialize (Hm w).
  destruct (m w) as [[a| |] w']; cbn in *; [apply Hk|done|done].
Qed.

Lemma hoare_bind P (m : M A) Q (k : A -> M B) Q' E :
  hoare P m Q E -> (forall a, hoare (Q a) (k a) Q' E) ->
  hoare P (m ≫= k) Q' E.
Proof.
  intros Hm Hk w HP. rewrite bind_run. specialize (Hm w HP).
  destruct (m w) as [[a| |] w']; [by apply Hk|done|done].
Qed.

Lemma hoare_weaken (P P' : world -> Prop) (m : M A) (Q Q' : A -> world -> Prop)
    (E E' : world -> Prop) :
  hoare P' m Q' E' ->
  (forall w, P w -> P' w) -> (forall a w, Q' a w -> Q a w) ->
  (forall w, E' w -> E w) ->
  hoare P m Q E.
Proof.
  intros Hm HP HQ HE w Hw. specialize (Hm w (HP w Hw)).
  destruct (m w) as [[a| |] w']; auto.
Qed.
End Runs.

Lemma settles_ret {A} (a : A) : settles (mret a).
Proof. by intros w. Qed.

Lemma settles_raise {A} e : settles (@raise A e).
Proof. by intros w. Qed.

Lemma settles_lift {A} (r : res A) : r <> Unfinished -> settles (lift r).
Proof. by intros H w. Qed.

Lemma settles_get_fs : settles get_fs.
Proof. by intros w. Qed.

Lemma settles_put_fs t : settles (put_fs t).
Proof. by intros w. Qed.

Lemma settles_unless b body : settles body -> settles (unless b body).
Proof. destruct b; [intros _; apply settles_ret|done]. Qed.

Lemma settles_when b body : settles body -> settles (when b body).
Proof. destruct b; [done|intros _; apply settles_ret]. Qed.

Lemma settles_for_each {A} (xs : list A) body :
  (forall x, settles (body x)) -> settles (for_each xs body).
Proof.
  intros H. induction xs as [|x xs IH]; cbn [for_each].
  - apply settles_ret.
  - apply settles_bind; auto.
Qed.

Lemma settles_path_exists p : settles (path_exists p).
Proof. by intros w. Qed.

Lemma settles_mkdir p : settles (mkdir p).
Proof.
  intros w. unfold mkdir. rewrite bind_run. cbn.
  destruct p; [done|]. repeat case_match; done.
Qed.

Lemma settles_makedirs_rev rp : settles (makedirs_rev rp).
Proof.
  induction rp as [|c rp IH]; cbn [makedirs_rev]; [apply settles_mkdir|].
  apply settles_bind; [|intros; apply settles_mkdir].
  destruct rp; [apply settles_ret|].
  apply settles_bind; [apply settles_path_exists|].
  intros e. by apply settles_unless.
Qed.

Lemma settles_makedirs p : settles (makedirs p).
Proof. apply settles_makedirs_rev. Qed.

(** One iteration's folder making. *)
Lemma settles_ensure_folder p :
  settles (e ← path_exists p; unless e (makedirs p)).
Proof.
  apply settles_bind; [apply settles_path_exists|].
  intros e. apply settles_unless, settles_makedirs.
Qed.

Lemma bind_settles_at {A B} (m : M A) (k : A -> M B) w :
  (m w).1 <> Unfinished ->
  (forall a w', m w = (Ok a, w') -> (k a w').1 <> Unfinished) ->
  ((m ≫= k) w).1 <> Unfinished.
Proof.
  intros Hm Hk. rewrite bind_run.
  destruct (m w) as [[a| |] w']; cbn in *; [by apply Hk|done|done].
Qed.

(** ** The loop of [create_folder_structure] ends *)

Lemma create_folder_loop_settles budget end_date f current folders w :
  valid current -> valid end_date ->
  toordinal end_date - toordinal current + 1 <= Z.of_nat budget ->
  (create_folder_loop budget end_date f current folders w).1 <> Unfinished.
Proof.
  revert current folders w.
  induction budget as [|budget IH]; intros current folders w Hc He Hb.
  - cbn [create_folder_loop].
    destruct (leb current end_date) eqn:Hle; [|done].
    pose proof (toordinal_le _ _ Hc He Hle). lia.
  - cbn [create_folder_loop].
    destruct (leb current end_date) eqn:Hle; [|done].
    apply bind_settles_at; [apply settles_lift, get_period_end_date_settles|].
    intros pe0 ? [= Hpe <-].
    apply get_period_end_date_inv in Hpe as ->; [|done].
    cbv zeta.
    set (pe := if ltb end_date _ then end_date else _).
    assert (Hpe : valid pe /\ leb current pe = true).
    { subst pe. destruct (ltb end_date _); [done|].
      split; [by apply last_day_of_unit_valid|by apply last_day_of_unit_ge]. }
    destruct Hpe as [Hpv Hpc].
    apply bind_settles_at; [apply settles_path_exists|intros e w1 _].
    apply bind_settles_at;
      [apply settles_unless, settles_makedirs|intros _ w2 _].
    apply bind_settles_at;
      [apply settles_for_each; intros; apply settles_ensure_folder
      |intros _ w3 _].
    destruct (leb end_date pe) eqn:Hend; [done|].
    apply bind_settles_at; [apply settles_lift, get_next_period_end_settles|].
    intros next ? [= Hnext <-].
    apply get_next_period_end_inv in Hnext as [Hnv Hnlt]; [|done].
    apply IH; [done|done|].
    pose proof (toordinal_le _ _ Hc Hpv Hpc).
    pose proof (toordinal_lt _ _ Hpv Hnv Hnlt). lia.
Qed.

Lemma create_folder_structure_settles inception_date end_date f :
  valid inception_date -> valid end_date ->
  settles (create_folder_structure inception_date end_date f).
Proof.
  intros Hi He w. apply create_folder_loop_settles; [done|done|].
  unfold range_length. lia.
Qed.

Lemma bind_agree {A B} (m : M A) (k k' : A -> M B) w :
  (forall a w', m w = (Ok a, w') ->
     (k a w').1 <> Unfinished -> k' a w' = k a w') ->
  ((m ≫= k) w).1 <> Unfinished -> (m ≫= k') w = (m ≫= k) w.
Proof.
  intros H. rewrite !bind_run.
  destruct (m w) as [[a| |] w']; cbn; auto.
Qed.

Lemma bind_run_inv {A B} (m : M A) (k : A -> M B) w b w'' :
  (m ≫= k) w = (Ok b, w'') ->
  exists a w', m w = (Ok a, w') /\ k a w' = (Ok b, w'').
Proof.
  rewrite bind_run. destruct (m w) as [[a| |] w']; [eauto|done|done].
Qed.

(** A larger budget changes nothing once the loop has ended. *)
Lemma create_folder_loop_budget budget budget' end_date f current folders w :
  (budget <= budget')%nat ->
  (create_folder_loop budget end_date f current folders w).1 <> Unfinished ->
  create_folder_loop budget' end_date f current folders w =
  create_folder_loop budget end_date f current folders w.
Proof.
  revert budget' current folders w.
  induction budget as [|budget IH]; intros budget' current folders w Hb.
  - destruct budget'; cbn [create_folder_loop];
      destruct (leb current end_date); done.
  - destruct budget' as [|budget']; [lia|]. cbn [create_folder_loop].
    destruct (leb current end_date); [|done].
    apply bind_agree; intros pe0 w1 _. cbv zeta.
    apply bind_agree; intros e w2 _.
    apply bind_agree; intros _ w3 _.
    apply bind_agree; intros _ w4 _.
    destruct (leb end_date _); [done|].
    apply bind_agree; intros next w5 _.
    apply IH. lia.
Qed.

(** Every iteration adds one folder name. *)
Lemma create_folder_loop_length budget end_date f current folders w l w' :
  create_folder_loop budget end_date f current folders w = (Ok l, w') ->
  (length l <= length folders + budget)%nat.
Proof.
  revert current folders w.
  induction budget as [|budget IH]; intros current folders w;
    cbn [create_folder_loop]; (destruct (leb current end_date);
      [|intros [= <- <-]; lia]); [done|].
  intros (pe0 & w1 & _ & H)%bind_run_inv. cbv zeta in H.
  apply bind_run_inv in H as (e & w2 & _ & H).
  apply bind_run_inv in H as (? & w3 & _ & H).
  apply bind_run_inv in H as (? & w4 & _ & H).
  destruct (leb end_date _).
  - injection H as <- <-. rewrite length_app. cbn. lia.
  - apply bind_run_inv in H as (next & w5 & _ & H).
    apply IH in H. rewrite length_app in H. cbn in H. lia.
Qed.

(** The anchor of the next iteration lies after the current one. *)
Lemma next_anchor_later end_date f current period_end next :
  valid current -> valid end_date -> leb current end_date = true ->
  get_period_end_date current f = Ok period_end ->
  get_next_period_end
    (if ltb end_date period_end then end_date else period_end) f = Ok next ->
  valid next /\ ltb current next = true.
Proof.
  intros Hc He Hle Hpe Hnext.
  apply get_period_end_date_inv in Hpe as ->; [|done].
  set (pe := if ltb end_date _ then end_date else _) in *.
  assert (Hpe : valid pe /\ leb current pe = true).
  { subst pe. destruct (ltb end_date _); [done|].
    split; [by apply last_day_of_unit_valid|by apply last_day_of_unit_ge]. }
  destruct Hpe as [Hpv Hpc].
  apply get_next_period_end_inv in Hnext as [Hnv Hnlt]; [|done].
  split; [done|]. by apply (leb_ltb_trans _ pe).
Qed.

(** ** Invariants of runs *)

Section Keeps.
Context (I : world -> Prop).

Lemma keeps_ret {A} (a : A) : keeps I (mret a).
Proof. by intros w Hw. Qed.

Lemma keeps_raise {A} e : keeps I (@raise A e).
Proof. by intros w Hw. Qed.

Lemma keeps_lift {A} (r : res A) : keeps I (lift r).
Proof. intros w Hw. unfold lift. by destruct r. Qed.

Lemma keeps_get_fs : keeps I get_fs.
Proof. by intros w Hw. Qed.

Lemma keeps_path_exists p : keeps I (path_exists p).
Proof. by intros w Hw. Qed.

Lemma keeps_deref l : keeps I (deref l).
Proof. intros w Hw. unfold deref. by destruct (heap w !! l). Qed.

Lemma keeps_bind {A B} (m : M A) (k : A -> M B) :
  keeps I m -> (forall a, keeps I (k a)) -> keeps I (m ≫= k).
Proof. intros Hm Hk. by apply (hoare_bind _ _ (fun _ => I)). Qed.

Lemma keeps_unless b body : keeps I body -> keeps I (unless b body).
Proof. destruct b; [intros _; apply keeps_ret|done]. Qed.

Lemma keeps_when b body : keeps I body -> keeps I (when b body).
Proof. destruct b; [done|intros _; apply keeps_ret]. Qed.

Lemma keeps_for_each {A} (xs : list A) body :
  (forall x, keeps I (body x)) -> keeps I (for_each xs body).
Proof.
  intros H. induction xs as [|x xs IH]; cbn [for_each].
  - apply keeps_ret.
  - apply keeps_bind; auto.
Qed.

(** The world in which a run ends, whatever the result. *)
Lemma keeps_run {A} (m : M A) w : keeps I m -> I w -> I (m w).2.
Proof.
  intros Hm Hw. specialize (Hm w Hw). by destruct (m w) as [[a| |] w'].
Qed.
End Keeps.

(** *** New folders only *)

Lemma only_new_folders_refl t : only_new_folders t t.
Proof. intros p. by left. Qed.

Lemma only_new_folders_mkdir t t' p :
  only_new_folders t t' -> t' !! p = None -> (length p <= 2)%nat ->
  only_new_folders t (<[p := Dir]> t').
Proof.
  intros H Hp Hlen q. destruct (decide (p = q)) as [<- | Hne].
  - rewrite lookup_insert_eq. right.
    destruct (H p) as [Heq | (? & ? & ?)]; [|congruence].
    rewrite <- Heq. done.
  - rewrite lookup_insert_ne by done. apply H.
Qed.

Lemma mkdir_run p w :
  mkdir p w =
  match p with
  | [] => (Raise (FileExistsError p), w)
  | _ =>
      match fs w !! p with
      | Some _ => (Raise (FileExistsError p), w)
      | None =>
          if is_dir (fs w) (removelast p)
          then (Ok tt, World (heap w) (<[p := Dir]> (fs w)))
          else match fs w !! removelast p with
               | Some _ => (Raise (NotADirectoryError p), w)
               | None => (Raise (FileNotFoundError p), w)
               end
      end
  end.
Proof.
  unfold mkdir. rewrite bind_run. unfold get_fs. cbv beta iota.
  destruct p; [reflexivity|]. repeat case_match; reflexivity.
Qed.

Lemma keeps_mkdir w0 p :
  (length p <= 2)%nat -> keeps (folders_grown w0) (mkdir p).
Proof.
  intros Hlen w Hw. rewrite mkdir_run.
  destruct p as [|c p]; [done|].
  destruct (fs w !! (c :: p)) eqn:Hp; cbv beta iota; [done|].
  destruct (is_dir (fs w) (removelast (c :: p))); cbv beta iota.
  - destruct Hw as [Hh Hf]. split; [done|]. by apply only_new_folders_mkdir.
  - by destruct (fs w !! removelast (c :: p)).
Qed.

Lemma keeps_makedirs_rev w0 rp :
  (length rp <= 2)%nat -> keeps (folders_grown w0) (makedirs_rev rp).
Proof.
  induction rp as [|c rp IH]; intros Hlen; cbn [makedirs_rev].
  - by apply keeps_mkdir.
  - cbn in Hlen. apply keeps_bind.
    + destruct rp; [apply keeps_ret|].
      apply keeps_bind; [apply keeps_path_exists|].
      intros e. apply keeps_unless, IH. lia.
    + intros _. apply keeps_mkdir. rewrite length_rev. cbn. lia.
Qed.

Lemma keeps_makedirs w0 p :
  (length p <= 2)%nat -> keeps (folders_grown w0) (makedirs p).
Proof. intros H. apply keeps_makedirs_rev. by rewrite length_rev. Qed.

Lemma keeps_create_folder_loop w0 budget end_date f current folders :
  keeps (folders_grown w0)
    (create_folder_loop budget end_date f current folders).
Proof.
  revert current folders.
  induction budget as [|budget IH]; intros current folders;
    cbn [create_folder_loop]; destruct (leb current end_date);
    try apply keeps_ret; [by intros w Hw|].
  apply keeps_bind; [apply keeps_lift|intros pe0]. cbv zeta.
  apply keeps_bind; [apply keeps_path_exists|intros e].
  apply keeps_bind; [apply keeps_unless, keeps_makedirs; cbn; lia|intros _].
  apply keeps_bind.
  { apply keeps_for_each. intros sub.
    apply keeps_bind; [apply keeps_path_exists|intros e'].
    apply keeps_unless, keeps_makedirs. cbn. lia. }
  intros _. destruct (leb end_date _); [apply keeps_ret|].
  apply keeps_bind; [apply keeps_lift|intros next]. apply IH.
Qed.

Lemma keeps_create_folder_structure w0 inception_date end_date f :
  keeps (folders_grown w0)
    (create_folder_structure inception_date end_date f).
Proof. apply keeps_create_folder_loop. Qed.

(** *** Objects in memory *)

Section Objects.
Context (h : list DataFrame).

Lemma keeps_objects_put_fs t : keeps (objects_kept h) (put_fs t).
Proof. by intros w Hw. Qed.

Lemma hoare_alloc df :
  hoare (objects_kept h) (alloc df)
    (fun l w => objects_kept h w /\ (length h <= l)%nat) (objects_kept h).
Proof.
  intros w Hw. cbn. split.
  - by apply prefix_app_r.
  - by apply prefix_length.
Qed.

Lemma keeps_objects_assign l df :
  (length h <= l)%nat -> keeps (objects_kept h) (assign l df).
Proof.
  intros Hl w [k Hk]. cbn. unfold objects_kept. cbn. rewrite Hk.
  rewrite insert_app_r_alt by done. by apply prefix_app_r.
Qed.

Lemma hoare_deepcopy l :
  hoare (objects_kept h) (deepcopy l)
    (fun l' w => objects_kept h w /\ (length h <= l')%nat) (objects_kept h).
Proof.
  apply (hoare_bind _ _ (fun _ => objects_kept h)); [apply keeps_deref|].
  intros df. apply hoare_alloc.
Qed.

Lemma keeps_objects_add_datetime_column l c c' :
  (length h <= l)%nat -> keeps (objects_kept h) (add_datetime_column l c c').
Proof.
  intros Hl. apply keeps_bind; [apply keeps_deref|intros df].
  apply keeps_bind; [apply keeps_lift|intros values].
  apply keeps_bind; [apply keeps_lift|intros stamps].
  by apply keeps_objects_assign.
Qed.

Lemma hoare_filter_between l c' lo hi :
  hoare (objects_kept h) (filter_between l c' lo hi)
    (fun l' w => objects_kept h w /\ (length h <= l')%nat) (objects_kept h).
Proof.
  apply (hoare_bind _ _ (fun _ => objects_kept h)); [apply keeps_deref|].
  intros df.
  apply (hoare_bind _ _ (fun _ => objects_kept h)); [apply keeps_lift|].
  intros values.
  apply (hoare_bind _ _ (fun _ => objects_kept h)); [apply keeps_lift|].
  intros mask.
  apply (hoare_bind _ _ (fun _ => objects_kept h)).
  { eapply hoare_weaken; [apply hoare_alloc|done|by intros ? ? []|done]. }
  intros selected.
  apply (hoare_bind _ _ (fun _ => objects_kept h)); [apply keeps_deref|].
  intros df'.
  apply (hoare_bind _ _ (fun _ => objects_kept h)); [apply keeps_lift|].
  intros dropped. apply hoare_alloc.
Qed.

Lemma keeps_objects_to_csv l p : keeps (objects_kept h) (to_csv l p).
Proof.
  apply keeps_bind; [apply keeps_deref|intros df].
  apply keeps_bind; [apply keeps_get_fs|intros t].
  destruct (is_dir t (removelast p)); [|apply keeps_raise].
  destruct (t !! p) as [[|c]|];
    first [apply keeps_objects_put_fs | apply keeps_raise].
Qed.

(** A precondition that does not depend on the world. *)
Lemma hoare_assume {A} (P : world -> Prop) (F : Prop) (m : M A) Q E :
  (F -> hoare P m Q E) -> hoare (fun w => P w /\ F) m Q E.
Proof. intros H w [HP HF]. by apply H. Qed.

Lemma keeps_objects_filter_and_save_csv df_ho df_tr inception_date
    folder_date folder_name :
  keeps (objects_kept h)
    (filter_and_save_csv df_ho df_tr inception_date folder_date folder_name).
Proof.
  unfold filter_and_save_csv.
  eapply hoare_bind; [apply hoare_deepcopy|intros ho_temp].
  apply hoare_assume; intros Hho.
  eapply hoare_bind; [apply hoare_deepcopy|intros tr_temp].
  apply hoare_assume; intros Htr.
  apply keeps_bind;
    [by apply keeps_objects_add_datetime_column|intros _].
  apply keeps_bind;
    [by apply keeps_objects_add_datetime_column|intros _].
  eapply hoare_bind; [apply hoare_filter_between|intros ho_filtered].
  apply hoare_assume; intros _.
  eapply hoare_bind; [apply hoare_filter_between|intros tr_filtered].
  apply hoare_assume; intros _. cbv zeta.
  apply keeps_bind; [apply keeps_objects_to_csv|intros _].
  apply keeps_objects_to_csv.
Qed.
End Objects.

(** ** The filter on contents *)

Lemma index_of_lt c labels i :
  index_of c labels = Some i -> (i < length labels)%nat.
Proof.
  revert i. induction labels as [|l ls IH]; intros i; cbn [index_of]; [done|].
  destruct (decide (l = c)); [intros [= <-]; cbn; lia|].
  destruct (index_of c ls) as [j|]; [|done].
  intros [= <-]. specialize (IH j eq_refl). cbn. lia.
Qed.

Lemma index_of_snoc c labels :
  index_of c labels = None -> index_of c (labels ++ [c]) = Some (length labels).
Proof.
  induction labels as [|l ls IH]; cbn [index_of app length].
  - intros _. by rewrite decide_True.
  - destruct (decide (l = c)); [done|].
    destruct (index_of c ls); [done|]. intros _. by rewrite IH.
Qed.

Lemma drop_label_snoc {A} c labels (xs : list A) v :
  index_of c labels = None -> length xs = length labels ->
  drop_label c (labels ++ [c]) (xs ++ [v]) = xs.
Proof.
  revert xs. induction labels as [|l ls IH]; intros [|x xs]; cbn; try done.
  - intros _ _. by rewrite decide_True.
  - destruct (decide (l = c)); [done|].
    destruct (index_of c ls) eqn:E; [done|].
    intros _ [= Hlen]. by rewrite IH.
Qed.

Lemma to_datetime_cell_row c df r i t :
  index_of c (columns df) = Some i -> row_date c df r = Some t ->
  to_datetime_cell (nth i r (Str EmptyString)) = Ok (Timestamp t).
Proof.
  unfold row_date. intros ->.
  destruct (to_datetime_cell _) as [[s|t'|]| |] eqn:E; try done.
  by intros [= ->].
Qed.

Section Pipeline.
Context (lo hi : datetime) (c c' : string) (df : DataFrame) (i : nat).
Context (Hc : index_of c (columns df) = Some i).
Context (Hc' : index_of c' (columns df) = None).

(** The column of timestamps, the mask and the selection, row by row. *)
Lemma filter_rows (rs : list (list cell)) :
  Forall (fun r => length r = length (columns df)) rs ->
  Forall (fun r => is_Some (row_date c df r)) rs ->
  exists stamps mask,
    to_datetime (map (fun r => nth i r (Str EmptyString)) rs) = Ok stamps /\
    length stamps = length rs /\
    map (fun r => nth (length (columns df)) r (Str EmptyString))
        (zip_with (fun r v => r ++ [v]) rs stamps) = stamps /\
    between lo hi stamps = Ok mask /\
    map (drop_label c' (columns df ++ [c']))
        (select_rows mask (zip_with (fun r v => r ++ [v]) rs stamps)) =
    List.filter (in_range lo hi c df) rs.
Proof.
  induction rs as [|r rs IH]; intros Hrect Hparse.
  - by exists [], [].
  - apply Forall_cons in Hrect as [Hr Hrect].
    apply Forall_cons in Hparse as [[t Ht] Hparse].
    destruct (IH Hrect Hparse) as (stamps & mask & H1 & H2 & H3 & H4 & H5).
    exists (Timestamp t :: stamps), ((leb lo t && leb t hi) :: mask).
    cbn [map to_datetime]. rewrite (to_datetime_cell_row c df r i t Hc Ht).
    cbn [mbind res_bind]. rewrite H1. cbn [mbind res_bind].
    split; [done|]. split; [cbn; lia|].
    cbn [zip_with map]. rewrite H3. split.
    { f_equal. rewrite app_nth2 by lia. by rewrite Hr, Nat.sub_diag. }
    cbn [between between_cell mbind res_bind]. rewrite H4.
    cbn [mbind res_bind]. split; [done|].
    cbn [select_rows List.filter]. unfold in_range at 1. rewrite Ht.
    destruct (leb lo t && leb t hi); cbn [map]; rewrite H5; [|done].
    f_equal. by apply drop_label_snoc.
Qed.
End Pipeline.

(** ** Runs of the filter *)

Lemma deepcopy_run l df w :
  heap w !! l = Some df ->
  deepcopy l w = (Ok (length (heap w)), World (heap w ++ [df]) (fs w)).
Proof.
  intros H. unfold deepcopy. rewrite bind_run. unfold deref. by rewrite H.
Qed.

Lemma add_datetime_column_run l c c' df values stamps w :
  heap w !! l = Some df ->
  get_column c df = Ok values ->
  to_datetime values = Ok stamps ->
  add_datetime_column l c c' w =
  (Ok tt, World (<[l := set_column c' stamps df]> (heap w)) (fs w)).
Proof.
  intros H Hv Hs. unfold add_datetime_column.
  rewrite bind_run. unfold deref. rewrite H.
  rewrite bind_run. unfold lift at 1. rewrite Hv.
  rewrite bind_run. unfold lift at 1. rewrite Hs. reflexivity.
Qed.

Lemma filter_between_run l c' lo hi df values mask out w :
  heap w !! l = Some df ->
  get_column c' df = Ok values ->
  between lo hi values = Ok mask ->
  drop_column c' (Frame (columns df) (select_rows mask (rows df))) = Ok out ->
  filter_between l c' lo hi w =
  (Ok (S (length (heap w))),
   World (heap w ++ [Frame (columns df) (select_rows mask (rows df)); out])
         (fs w)).
Proof.
  intros H Hv Hm Hd. unfold filter_between.
  rewrite bind_run. unfold deref at 1. rewrite H.
  rewrite bind_run. unfold lift at 1. rewrite Hv.
  rewrite bind_run. unfold lift at 1. rewrite Hm.
  rewrite bind_run. unfold alloc at 1. cbn [heap fs].
  rewrite bind_run. unfold deref. cbn [heap].
  rewrite lookup_app_r by done. rewrite Nat.sub_diag. cbn [lookup list_lookup].
  rewrite bind_run. unfold lift. rewrite Hd.
  unfold alloc. cbn [heap fs]. rewrite length_app, <- app_assoc.
  cbn [length app]. do 3 f_equal. lia.
Qed.

Lemma to_csv_run l p df w :
  heap w !! l = Some df ->
  is_dir (fs w) (removelast p) = true ->
  fs w !! p <> Some Dir ->
  to_csv l p w = (Ok tt, World (heap w) (<[p := File (csv_of df)]> (fs w))).
Proof.
  intros H Hd Hp. unfold to_csv.
  rewrite bind_run. unfold deref. rewrite H.
  rewrite bind_run. unfold get_fs. cbv beta iota. rewrite Hd.
  destruct (fs w !! p) as [[|c]|]; done.
Qed.

(** The filter on one table whose contents are [df]: the temporary copy
    gets its timestamp column, and the filtered table is the one the
    specification describes. *)
Lemma filter_table_run c c' lo hi df :
  rectangular df ->
  has_column c df = true -> has_column c' df = false ->
  dates_parse c df ->
  exists df1 selected,
    (forall l w, heap w !! l = Some df ->
       add_datetime_column l c c' w =
       (Ok tt, World (<[l := df1]> (heap w)) (fs w))) /\
    (forall l w, heap w !! l = Some df1 ->
       filter_between l c' lo hi w =
       (Ok (S (length (heap w))),
        World (heap w ++ [selected; filtered lo hi c df]) (fs w))).
Proof.
  unfold has_column. intros Hrect Hc Hc' Hparse.
  destruct (index_of c (columns df)) as [i|] eqn:Hi; [clear Hc|done].
  destruct (index_of c' (columns df)) eqn:Hi'; [done|clear Hc'].
  destruct (filter_rows lo hi c c' df i Hi Hi' (rows df) Hrect Hparse)
    as (stamps & mask & H1 & H2 & H3 & H4 & H5).
  set (df1 := set_column c' stamps df).
  assert (Hdf1 : df1 = Frame (columns df ++ [c'])
            (zip_with (fun r v => r ++ [v]) (rows df) stamps)).
  { subst df1. unfold set_column. by rewrite Hi'. }
  exists df1, (Frame (columns df1) (select_rows mask (rows df1))).
  split.
  - intros l w Hl.
    apply (add_datetime_column_run l c c' df
             (map (fun r => nth i r (Str EmptyString)) (rows df)));
      [done|unfold get_column; by rewrite Hi|done].
  - intros l w Hl.
    apply (filter_between_run l c' lo hi df1 stamps); [done|..|done|].
    + unfold get_column. rewrite Hdf1. cbn [columns rows].
      rewrite (index_of_snoc _ _ Hi'). by rewrite H3.
    + unfold drop_column. cbn [columns rows]. rewrite Hdf1. cbn [columns rows].
      rewrite (index_of_snoc _ _ Hi'). unfold filtered.
      rewrite H5. by rewrite (drop_label_snoc c' (columns df) (columns df) c').
Qed.

Lemma heap_lookup (h l : list DataFrame) k :
  (h ++ l) !! (length h + k)%nat = l !! k.
Proof. rewrite lookup_app_r by lia. f_equal. lia. Qed.

Lemma heap_lookup_0 (h l : list DataFrame) :
  (h ++ l) !! length h = l !! 0%nat.
Proof. rewrite <- (heap_lookup h l 0). f_equal. lia. Qed.

Lemma heap_insert_0 (h l : list DataFrame) df :
  <[length h := df]> (h ++ l) = h ++ <[0%nat := df]> l.
Proof. rewrite <- insert_app_r. f_equal. lia. Qed.

Lemma filter_and_save_csv_run w df_ho df_tr ho tr inception_date folder_date
    folder_name :
  let ho_out := [folder_name; "perf"; "Holdings.csv"]%string in
  let tr_out := [folder_name; "perf"; "Transactions.csv"]%string in
  heap w !! df_ho = Some ho -> heap w !! df_tr = Some tr ->
  rectangular ho -> rectangular tr ->
  has_column Valuation_Date ho = true ->
  has_column Transaction_Date tr = true ->
  has_column Valuation_Date_Datetime ho = false ->
  has_column Transaction_Date_Datetime tr = false ->
  dates_parse Valuation_Date ho -> dates_parse Transaction_Date tr ->
  fs w !! [folder_name; "perf"]%string = Some Dir ->
  fs w !! ho_out <> Some Dir -> fs w !! tr_out <> Some Dir ->
  exists w',
    filter_and_save_csv df_ho df_tr inception_date folder_date folder_name w
      = (Ok tt, w') /\
    fs w' =
      <[tr_out := File (csv_of
           (filtered inception_date folder_date Transaction_Date tr))]>
        (<[ho_out := File (csv_of
             (filtered inception_date folder_date Valuation_Date ho))]>
           (fs w)).
Proof.
  intros ho_out tr_out Hho Htr Rho Rtr Cho Ctr Nho Ntr Pho Ptr Hperf Oho Otr.
  destruct (filter_table_run Valuation_Date Valuation_Date_Datetime
              inception_date folder_date ho Rho Cho Nho Pho)
    as (ho1 & hsel & Hadd_ho & Hfil_ho).
  destruct (filter_table_run Transaction_Date Transaction_Date_Datetime
              inception_date folder_date tr Rtr Ctr Ntr Ptr)
    as (tr1 & tsel & Hadd_tr & Hfil_tr).
  destruct w as [h t]. cbn [heap fs] in *.
  eexists. split; [|shelve].
  unfold filter_and_save_csv.
  erewrite bind_run_ok; [|by apply deepcopy_run].
  cbn [heap fs].
  erewrite bind_run_ok;
    [|apply deepcopy_run; cbn [heap]; by apply lookup_app_l_Some].
  cbn [heap fs]. rewrite <- app_assoc, length_app. cbn [app length].
  erewrite bind_run_ok; [|apply Hadd_ho; cbn [heap]; apply heap_lookup_0].
  cbn [heap fs]. rewrite heap_insert_0. cbn [insert list_insert].
  erewrite bind_run_ok; [|apply Hadd_tr; cbn [heap]; apply heap_lookup].
  cbn [heap fs]. rewrite insert_app_r. cbn [insert list_insert].
  erewrite bind_run_ok; [|apply Hfil_ho; cbn [heap]; apply heap_lookup_0].
  cbn [heap fs]. rewrite <- app_assoc, length_app. cbn [app length].
  erewrite bind_run_ok; [|apply Hfil_tr; cbn [heap]; apply heap_lookup].
  cbn [heap fs]. rewrite <- app_assoc, length_app. cbn [app length].
  cbv zeta.
  erewrite bind_run_ok;
    [|apply to_csv_run; cbn [heap fs];
      [replace (S (length h + 2)) with (length h + 3)%nat by lia;
       rewrite heap_lookup; reflexivity
      |cbn; by rewrite Hperf|done]].
  cbn [heap fs].
  apply to_csv_run; cbn [heap fs].
  - replace (S (length h + 4)) with (length h + 5)%nat by lia.
    rewrite heap_lookup. reflexivity.
  - cbn. rewrite lookup_insert_ne by done. by rewrite Hperf.
  - rewrite lookup_insert_ne by done. done.
  Unshelve. reflexivity.
Qed.

(** ** Loading the source tables *)

Lemma settles_alloc df : settles (alloc df).
Proof. by intros w. Qed.

Lemma settles_deref l : settles (deref l).
Proof. intros w. unfold deref. by destruct (heap w !! l). Qed.

Lemma settles_assign l df : settles (assign l df).
Proof. by intros w. Qed.

Lemma get_column_settles c df : get_column c df <> Unfinished.
Proof. unfold get_column. by destruct (index_of c (columns df)). Qed.

Lemma settles_read_csv p : settles (read_csv p).
Proof.
  apply settles_bind; [apply settles_get_fs|intros t].
  destruct (t !! p) as [[|c]|];
    first [apply settles_alloc | apply settles_raise].
Qed.

Lemma settles_strip_column l c : settles (strip_column l c).
Proof.
  apply settles_bind; [apply settles_deref|intros df].
  apply settles_bind; [apply settles_lift, get_column_settles|intros vs].
  apply settles_assign.
Qed.

Lemma settles_drop_header_rows l c : settles (drop_header_rows l c).
Proof.
  apply settles_bind; [apply settles_deref|intros df].
  apply settles_bind; [apply settles_lift, get_column_settles|intros vs].
  apply settles_alloc.
Qed.

Lemma settles_load_csv_files source_folder :
  settles (load_csv_files source_folder).
Proof.
  unfold load_csv_files. cbv zeta.
  apply settles_bind; [apply settles_path_exists|intros e].
  apply settles_bind; [apply settles_unless, settles_raise|intros _].
  apply settles_bind; [apply settles_path_exists|intros e'].
  apply settles_bind; [apply settles_unless, settles_raise|intros _].
  apply settles_bind; [apply settles_read_csv|intros df_ho].
  apply settles_bind; [apply settles_read_csv|intros df_tr].
  apply settles_bind; [apply settles_strip_column|intros _].
  apply settles_bind; [apply settles_strip_column|intros _].
  apply settles_bind; [apply settles_drop_header_rows|intros df_ho'].
  apply settles_bind; [apply settles_drop_header_rows|intros df_tr'].
  apply settles_ret.
Qed.

Section FilesKept.
Context (w0 : world).

Lemma keeps_files_alloc df : keeps (files_kept w0) (alloc df).
Proof. by intros w Hw. Qed.

Lemma keeps_files_assign l df : keeps (files_kept w0) (assign l df).
Proof. by intros w Hw. Qed.

Lemma keeps_files_read_csv p : keeps (files_kept w0) (read_csv p).
Proof.
  apply keeps_bind; [apply keeps_get_fs|intros t].
  destruct (t !! p) as [[|c]|];
    first [apply keeps_files_alloc | apply keeps_raise].
Qed.

Lemma keeps_files_strip_column l c : keeps (files_kept w0) (strip_column l c).
Proof.
  apply keeps_bind; [apply keeps_deref|intros df].
  apply keeps_bind; [apply keeps_lift|intros vs].
  apply keeps_files_assign.
Qed.

Lemma keeps_files_drop_header_rows l c :
  keeps (files_kept w0) (drop_header_rows l c).
Proof.
  apply keeps_bind; [apply keeps_deref|intros df].
  apply keeps_bind; [apply keeps_lift|intros vs].
  apply keeps_files_alloc.
Qed.

Lemma keeps_files_load_csv_files source_folder :
  keeps (files_kept w0) (load_csv_files source_folder).
Proof.
  unfold load_csv_files. cbv zeta.
  apply keeps_bind; [apply keeps_path_exists|intros e].
  apply keeps_bind; [apply keeps_unless, keeps_raise|intros _].
  apply keeps_bind; [apply keeps_path_exists|intros e'].
  apply keeps_bind; [apply keeps_unless, keeps_raise|intros _].
  apply keeps_bind; [apply keeps_files_read_csv|intros df_ho].
  apply keeps_bind; [apply keeps_files_read_csv|intros df_tr].
  apply keeps_bind; [apply keeps_files_strip_column|intros _].
  apply keeps_bind; [apply keeps_files_strip_column|intros _].
  apply keeps_bind; [apply keeps_files_drop_header_rows|intros df_ho'].
  apply keeps_bind; [apply keeps_files_drop_header_rows|intros df_tr'].
  apply keeps_ret.
Qed.
End FilesKept.

Lemma path_exists_run c p w :
  path_exists (c :: p) w = (Ok (bool_decide (is_Some (fs w !! (c :: p)))), w).
Proof. reflexivity. Qed.

(** A missing source table stops the load before anything is read; the
    holdings are looked for first. *)
Lemma load_csv_files_missing source_folder w :
  let ho_path := [source_folder; "perf"; "Holdings.csv"]%string in
  let tr_path := [source_folder; "perf"; "Transactions.csv"]%string in
  fs w !! ho_path = None \/ fs w !! tr_path = None ->
  load_csv_files source_folder w =
  (Raise (FileNotFoundError
            match fs w !! ho_path with
            | None => ho_path
            | Some _ => tr_path
            end), w).
Proof.
  cbv zeta. intros Hmiss. unfold load_csv_files. cbv zeta.
  erewrite bind_run_ok; [|apply path_exists_run].
  destruct (fs w !! [source_folder; "perf"; "Holdings.csv"]%string)
    as [n|] eqn:Hho.
  - destruct Hmiss as [|Htr]; [done|].
    rewrite bool_decide_true by eauto.
    erewrite bind_run_ok; [|reflexivity].
    erewrite bind_run_ok; [|apply path_exists_run].
    rewrite Htr. rewrite bool_decide_false by (by intros [? ?]).
    reflexivity.
  - rewrite bool_decide_false by (by intros [? ?]).
    reflexivity.
Qed.

(** ** An end date before the inception date *)

Lemma create_folder_structure_inverted inception_date end_date f w :
  ltb end_date inception_date = true ->
  create_folder_structure inception_date end_date f w = (Ok [], w).
Proof.
  intros H. unfold create_folder_structure.
  destruct (range_length inception_date end_date); cbn [create_folder_loop];
    unfold leb; rewrite H; reflexivity.
Qed.

Lemma for_each_nil {A} (body : A -> M unit) w : for_each [] body w = (Ok tt, w).
Proof. reflexivity. Qed.

(** ** Runs of [main] *)

Lemma main_run inception_date end_date source_folder f w :
  main inception_date end_date source_folder f w =
  match main_try inception_date end_date source_folder f w with
  | (Ok _, w') => (Ok RunDone, w')
  | (Raise e, w') => (Ok (RunError e), w')
  | (Unfinished, w') => (Unfinished, w')
  end.
Proof. reflexivity. Qed.

Lemma keeps_objects_process_folders h df_ho df_tr inception_date folders :
  keeps (objects_kept h) (process_folders df_ho df_tr inception_date folders).
Proof.
  apply keeps_for_each. intros folder_name.
  apply keeps_bind; [apply keeps_lift|intros folder_date].
  apply keeps_objects_filter_and_save_csv.
Qed.

Lemma objects_kept_lookup w w' l df :
  objects_kept (heap w) w' -> heap w !! l = Some df -> heap w' !! l = Some df.
Proof. intros Hk Hl. by apply (prefix_lookup_Some (heap w)). Qed.

(** An inverted range: the run goes on as if there were no period. *)
Lemma main_inverted_run inception_date end_date source_folder f w :
  ltb end_date inception_date = true ->
  main inception_date end_date source_folder f w =
  match load_csv_files source_folder w with
  | (Ok _, w') => (Ok RunDone, w')
  | (Raise e, w') => (Ok (RunError e), w')
  | (Unfinished, w') => (Unfinished, w')
  end.
Proof.
  intros H. rewrite main_run. unfold main_try.
  erewrite bind_run_ok; [|by apply create_folder_structure_inverted].
  rewrite bind_run.
  destruct (load_csv_files source_folder w) as [[[df_ho df_tr]| |] w1];
    reflexivity.
Qed.

(** A missing source table: the run stops at the load, after the
    folders. *)
Lemma main_missing_run inception_date end_date source_folder f w :
  let ho_path := [source_folder; "perf"; "Holdings.csv"]%string in
  let tr_path := [source_folder; "perf"; "Transactions.csv"]%string in
  fs w !! ho_path = None \/ fs w !! tr_path = None ->
  match create_folder_structure inception_date end_date f w with
  | (Ok _, w1) =>
      main inception_date end_date source_folder f w =
      (Ok (RunError (FileNotFoundError
                       match fs w !! ho_path with
                       | None => ho_path
                       | Some _ => tr_path
                       end)), w1)
  | (Raise e, w1) =>
      main inception_date end_date source_folder f w = (Ok (RunError e), w1)
  | (Unfinished, w1) =>
      main inception_date end_date source_folder f w = (Unfinished, w1)
  end.
Proof.
  cbv zeta. intros Hmiss. rewrite main_run. unfold main_try.
  rewrite bind_run.
  pose proof (keeps_run _ _ w
    (keeps_create_folder_structure w inception_date end_date f)
    (conj eq_refl (only_new_folders_refl _))) as [_ Hnew].
  destruct (create_folder_structure inception_date end_date f w)
    as [[folders| |] w1]; [|done|done].
  cbn [snd] in Hnew.
  assert (Hsame : forall a b c, fs w1 !! [a; b; c] = fs w !! [a; b; c]).
  { intros a b c.
    destruct (Hnew [a; b; c]) as [-> | (_ & _ & Hlen)]; [done|].
    cbn in Hlen. lia. }
  rewrite bind_run, load_csv_files_missing by (by rewrite !Hsame).
  by rewrite Hsame.
Qed.


(** ** The sequence of period ends, away from the end of year 9999 *)

Lemma tomorrow_ok dt end_date :
  valid dt -> valid end_date -> ltb dt end_date = true ->
  exists dt', tomorrow dt = Ok dt'.
Proof.
  intros (Hy & Hm & Hd)%valid_fields (Hy' & Hm' & Hd')%valid_fields Hlt%ltb_lt.
  destruct dt as [y m d], end_date as [y' m' d'].
  cbn [year month day] in *. rewrite tomorrow_eq.
  destruct (Z.ltb_spec d (days_in_month y m)); [eauto|].
  destruct (Z.ltb_spec m 12); [eauto|].
  destruct (Z.ltb_spec y 9999); [eauto|].
  assert (m = 12) as -> by lia. assert (m' = 12) as -> by lia.
  cbn in *. lia.
Qed.

Lemma add_relativedelta_ok dt ys ms :
  valid dt -> 0 <= ys -> 0 <= ms <= 12 ->
  year dt + ys + (if 12 <? month dt + ms then 1 else 0) <= 9999 ->
  exists dt', add_relativedelta dt ys ms = Ok dt'.
Proof.
  intros (Hy & Hm & Hd)%valid_fields Hys Hms Hmax.
  unfold add_relativedelta.
  destruct (Z.eqb_spec ms 0) as [-> | Hne].
  - replace (12 <? month dt + 0) with false in Hmax by (symmetry; lia).
    pose proof (days_in_month_bounds (year dt + ys) (month dt) Hm).
    eexists. apply new_datetime_ok; lia.
  - destruct (Z.ltb_spec 12 (month dt + ms)).
    + pose proof (days_in_month_bounds (year dt + ys + 1) (month dt + ms - 12)
                    ltac:(lia)).
      eexists. apply new_datetime_ok; lia.
    + destruct (Z.ltb_spec (month dt + ms) 1); [lia|].
      pose proof (days_in_month_bounds (year dt + ys) (month dt + ms)
                    ltac:(lia)).
      eexists. apply new_datetime_ok; lia.
Qed.

(** After a whole period that ends before the end date there is a next
    anchor. *)
Lemma get_next_period_end_ok current f end_date :
  valid current -> valid end_date ->
  ltb (last_day_of_unit current f) end_date = true ->
  exists next, get_next_period_end (last_day_of_unit current f) f = Ok next.
Proof.
  intros Hc He Hlt.
  pose proof (last_day_of_unit_valid current f Hc) as Hv.
  pose proof Hc as (Hy & Hm & Hd)%valid_fields.
  pose proof He as (Hy' & Hm' & Hd')%valid_fields.
  pose proof (days_in_month_bounds (year end_date) (month end_date) Hm').
  apply ltb_lt in Hlt.
  destruct f; cbn [get_next_period_end].
  - destruct (tomorrow_ok current end_date Hc He) as [t Ht];
      [by apply ltb_lt|].
    exists t. cbn [last_day_of_unit]. unfold add_days.
    change (0 <=? 1) with true.
    change (Z.to_nat 1) with 1%nat. cbn [shift]. by rewrite Ht.
  - apply add_relativedelta_ok; [done|lia|lia|].
    cbn [last_day_of_unit year month day] in *.
    destruct (Z.ltb_spec 12 (month current + 1)); [|lia].
    assert (month current = 12) as Hm12 by lia. rewrite Hm12 in *.
    cbn in Hlt. lia.
  - apply add_relativedelta_ok; [done|lia|lia|].
    unfold last_day_of_unit in *.
    destruct (Z.leb_spec (month current) 3); [|
      destruct (Z.leb_spec (month current) 6); [|
      destruct (Z.leb_spec (month current) 9)]];
      cbn [year month day] in *;
      match goal with |- context [?a <? ?b] =>
        destruct (Z.ltb_spec a b); lia end.
  - apply add_relativedelta_ok; [done|lia|lia|].
    cbn [last_day_of_unit year month day] in *.
    change (12 <? 12 + 0) with false. lia.
Qed.

(** *** Making the folders of a period *)

Lemma only_new_folders_trans t1 t2 t3 :
  only_new_folders t1 t2 -> only_new_folders t2 t3 -> only_new_folders t1 t3.
Proof.
  intros H12 H23 p.
  destruct (H23 p) as [-> | (H2 & H3 & Hlen)]; [apply H12|].
  right. destruct (H12 p) as [<- | (? & ? & ?)]; [done|congruence].
Qed.

Lemma no_file_in_the_way_grown t t' :
  only_new_folders t t' -> no_file_in_the_way t -> no_file_in_the_way t'.
Proof.
  intros Hnew Hno d c H.
  destruct (Hnew [strftime_ymd d]) as [Heq | (_ & Hd & _)]; [|congruence].
  rewrite Heq in H. by apply (Hno d c).
Qed.

Lemma makedirs_top_run name w :
  fs w !! [name] = None ->
  makedirs [name] w = (Ok tt, World (heap w) (<[[name] := Dir]> (fs w))).
Proof.
  intros H. unfold makedirs. cbn [rev app makedirs_rev].
  erewrite bind_run_ok; [|reflexivity].
  rewrite mkdir_run, H. reflexivity.
Qed.

Lemma makedirs_sub_run name sub w :
  fs w !! [name] = Some Dir -> fs w !! [name; sub] = None ->
  makedirs [name; sub] w =
  (Ok tt, World (heap w) (<[[name; sub] := Dir]> (fs w))).
Proof.
  intros Hd H. unfold makedirs. cbn [rev app makedirs_rev].
  erewrite bind_run_ok.
  2: { erewrite bind_run_ok; [|apply path_exists_run].
       rewrite Hd. rewrite bool_decide_true by eauto. reflexivity. }
  rewrite mkdir_run, H. cbn [removelast is_dir]. by rewrite Hd.
Qed.

Lemma ensure_top_run name h t :
  (forall c, t !! [name] <> Some (File c)) ->
  exists t',
    unless (bool_decide (is_Some (t !! [name]))) (makedirs [name]) (World h t)
      = (Ok tt, World h t') /\
    only_new_folders t t' /\ t' !! [name] = Some Dir.
Proof.
  intros Hno.
  destruct (t !! [name]) as [[|c]|] eqn:H.
  - rewrite bool_decide_true by eauto. exists t.
    split; [done|]. split; [apply only_new_folders_refl|done].
  - by destruct (Hno c).
  - rewrite bool_decide_false by (by intros [? ?]). cbn [unless].
    rewrite makedirs_top_run by done. eexists. split; [reflexivity|].
    split; [|apply lookup_insert_eq].
    apply only_new_folders_mkdir; [apply only_new_folders_refl|done|cbn; lia].
Qed.

Lemma ensure_subfolders_run name subs h t :
  t !! [name] = Some Dir ->
  exists t',
    for_each subs (fun subfolder =>
      e ← path_exists ([name] ++ [subfolder]);
      unless e (makedirs ([name] ++ [subfolder]))) (World h t)
      = (Ok tt, World h t') /\
    only_new_folders t t' /\ t' !! [name] = Some Dir.
Proof.
  revert t. induction subs as [|sub subs IH]; intros t Hd.
  - exists t. split; [done|]. split; [apply only_new_folders_refl|done].
  - cbn [for_each app].
    assert (exists t1,
      (e ← path_exists [name; sub]; unless e (makedirs [name; sub]))
        (World h t) = (Ok tt, World h t1) /\
      only_new_folders t t1 /\ t1 !! [name] = Some Dir)
      as (t1 & Hrun & Hnew & Hd1).
    { erewrite bind_run_ok; [|apply path_exists_run]. cbn [fs].
      destruct (t !! [name; sub]) as [n|] eqn:H.
      - rewrite bool_decide_true by eauto. exists t.
        split; [done|]. split; [apply only_new_folders_refl|done].
      - rewrite bool_decide_false by (by intros [? ?]). cbn [unless].
        rewrite makedirs_sub_run by done. eexists. split; [reflexivity|].
        split; [|by rewrite lookup_insert_ne].
        apply only_new_folders_mkdir;
          [apply only_new_folders_refl|done|cbn; lia]. }
    destruct (IH t1 Hd1) as (t' & Hrun' & Hnew' & Hd').
    exists t'. erewrite bind_run_ok; [|exact Hrun].
    split; [exact Hrun'|]. split; [|done].
    by apply (only_new_folders_trans _ t1).
Qed.

(** *** The sequence *)


Lemma clamped_between end_date current f :
  valid current -> valid end_date -> leb current end_date = true ->
  let pe := clamped end_date (last_day_of_unit current f) in
  valid pe /\ leb current pe = true /\ leb pe end_date = true.
Proof.
  intros Hc He Hle. unfold clamped.
  destruct (ltb end_date _) eqn:E.
  - split; [done|]. split; [done|apply leb_refl].
  - split; [by apply last_day_of_unit_valid|].
    split; [by apply last_day_of_unit_ge|by apply ltb_false_leb].
Qed.

Lemma leb_trans a b c :
  leb a b = true -> leb b c = true -> leb a c = true.
Proof. rewrite !leb_le. lia. Qed.

Lemma create_folder_loop_sequence budget end_date f current acc w :
  valid current -> valid end_date ->
  ~ (f = monthly /\ year end_date = 9999 /\ month end_date = 12) ->
  no_file_in_the_way (fs w) ->
  leb current end_date = true ->
  toordinal end_date - toordinal current + 1 <= Z.of_nat budget ->
  exists dates w',
    create_folder_loop budget end_date f current acc w
      = (Ok (acc ++ map strftime_ymd dates)%list, w') /\
    head dates = Some (clamped end_date (last_day_of_unit current f)) /\
    Forall (fun d => leb current d = true /\ leb d end_date = true) dates /\
    StronglySorted (fun a b => ltb a b = true) dates.
Proof.
  revert current acc w.
  induction budget as [|budget IH]; intros current acc w Hc He Hmax Hno Hle Hb.
  { pose proof (toordinal_le _ _ Hc He Hle). lia. }
  cbn [create_folder_loop]. rewrite Hle.
  assert (Hpe : get_period_end_date current f
                = Ok (last_day_of_unit current f)).
  { apply get_period_end_date_spec; [done|].
    intros (-> & Hy & Hm). apply Hmax. apply leb_le in Hle.
    pose proof He as (? & ? & ?)%valid_fields. split; [done|lia]. }
  erewrite bind_run_ok; [|unfold lift; by rewrite Hpe].
  cbv zeta. fold (clamped end_date (last_day_of_unit current f)).
  destruct (clamped_between end_date current f Hc He Hle)
    as (Hpv & Hcp & Hpe_le).
  set (pe := clamped end_date (last_day_of_unit current f)) in *.
  destruct w as [h t]. cbn [fs] in Hno.
  erewrite bind_run_ok; [|apply path_exists_run]. cbn [fs].
  destruct (ensure_top_run (strftime_ymd pe) h t (Hno pe))
    as (t1 & Hrun1 & Hnew1 & Hd1).
  erewrite bind_run_ok; [|exact Hrun1].
  destruct (ensure_subfolders_run (strftime_ymd pe) subfolders h t1 Hd1)
    as (t2 & Hrun2 & Hnew2 & Hd2).
  erewrite bind_run_ok; [|exact Hrun2].
  assert (Hno2 : no_file_in_the_way t2).
  { eapply no_file_in_the_way_grown; [|exact Hno].
    by apply (only_new_folders_trans _ t1). }
  destruct (leb end_date pe) eqn:Hend.
  - exists [pe]. eexists. split; [reflexivity|]. split; [done|].
    split; [by repeat constructor|]. by repeat constructor.
  - apply leb_false_ltb in Hend.
    assert (Hpe' : pe = last_day_of_unit current f).
    { subst pe. unfold clamped in *.
      destruct (ltb end_date (last_day_of_unit current f)); [|done].
      apply ltb_lt in Hend. lia. }
    destruct (get_next_period_end_ok current f end_date Hc He)
      as [next Hnext]; [by rewrite <- Hpe'|].
    rewrite <- Hpe' in Hnext.
    erewrite bind_run_ok; [|unfold lift; by rewrite Hnext].
    destruct (get_next_period_end_inv pe f next Hpv Hnext) as [Hnv Hlt].
    destruct (leb next end_date) eqn:Hnle.
    + destruct (IH next (acc ++ [strftime_ymd pe])%list (World h t2))
        as (dates & w' & Hrun & Hhd & Hall & Hsort); try done.
      { pose proof (toordinal_le _ _ Hc Hpv Hcp).
        pose proof (toordinal_lt _ _ Hpv Hnv Hlt). lia. }
      exists (pe :: dates), w'. rewrite Hrun, <- app_assoc.
      split; [done|]. split; [done|]. split.
      * constructor; [done|].
        eapply Forall_impl; [exact Hall|]. intros d [H1 H2]. split; [|done].
        eapply leb_trans; [exact Hcp|].
        eapply leb_trans; [by apply ltb_leb|exact H1].
      * constructor; [done|].
        eapply Forall_impl; [exact Hall|]. intros d [H1 _].
        apply ltb_lt. apply ltb_lt in Hlt. apply leb_le in H1. lia.
    + exists [pe]. eexists. split.
      * destruct budget; cbn [create_folder_loop]; rewrite Hnle; reflexivity.
      * split; [done|]. split; by repeat constructor.
Qed.

Lemma create_folder_structure_sequence inception_date end_date f w :
  valid inception_date -> valid end_date ->
  leb inception_date end_date = true ->
  ~ (f = monthly /\ year end_date = 9999 /\ month end_date = 12) ->
  no_file_in_the_way (fs w) ->
  exists dates w',
    create_folder_structure inception_date end_date f w
      = (Ok (map strftime_ymd dates), w') /\
    head dates = Some (clamped end_date (last_day_of_unit inception_date f)) /\
    Forall (fun d => leb inception_date d = true /\ leb d end_date = true)
      dates /\
    StronglySorted (fun a b => ltb a b = true) dates.
Proof.
  intros Hi He Hle Hmax Hno.
  apply (create_folder_loop_sequence _ end_date f inception_date [] w);
    try done.
  unfold range_length. lia.
Qed.

Lemma create_folder_structure_single_day d f w :
  valid d ->
  ~ (f = monthly /\ year d = 9999 /\ month d = 12) ->
  no_file_in_the_way (fs w) ->
  exists w', create_folder_structure d d f w = (Ok [strftime_ymd d], w').
Proof.
  intros Hd Hmax Hno.
  destruct (create_folder_structure_sequence d d f w Hd Hd (leb_refl d)
              Hmax Hno) as (dates & w' & Hrun & Hhd & Hall & Hsort).
  exists w'. rewrite Hrun. do 2 f_equal.
  destruct dates as [|x rest]; [done|].
  apply Forall_cons in Hall as [[H1 H2] Hall].
  rewrite (leb_antisym _ _ H2 H1) in *.
  apply StronglySorted_inv in Hsort as [_ Hgt].
  destruct rest as [|y rest]; [done|].
  apply Forall_cons in Hall as [[_ Hy] _].
  apply Forall_cons in Hgt as [Hlt _].
  unfold leb in Hy. by rewrite Hlt in Hy.
Qed.

(** * The claims *)

Import Samples.
Open Scope string_scope.

(** C1 (the code at the scenario of the specification).  For inception
    2023-01-01, end 2023-07-10 and frequency quarterly the sequencer
    produces the two folders 2023-03-31 and 2023-06-30 only: the anchor
    after 2023-06-30 is 2023-09-30, past the end date, so the loop is left
    before the clamped period 2023-07-10 is made. *)
Theorem quarterly_scenario_two_folders :
  (create_folder_structure (Datetime 2023 1 1) (Datetime 2023 7 10)
     quarterly empty_world).1 = Ok ["2023-03-31"; "2023-06-30"] /\
  get_next_period_end (Datetime 2023 6 30) quarterly = Ok (Datetime 2023 9 30) /\
  leb (Datetime 2023 9 30) (Datetime 2023 7 10) = false.
Proof. repeat split; reflexivity. Qed.

(** C2 (the code at a failing input).  For inception 2023-06-15, end
    2024-06-15 and frequency annually the sequence is not empty, but its
    last element is 2023-12-31 and not the end date. *)
Theorem annual_scenario_stops_short :
  exists folders,
    (create_folder_structure (Datetime 2023 6 15) (Datetime 2024 6 15)
       annually empty_world).1 = Ok folders /\
    last folders = Some "2023-12-31" /\
    last folders <> Some (strftime_ymd (Datetime 2024 6 15)).
Proof. exists ["2023-12-31"]. repeat split; [reflexivity..|discriminate]. Qed.

(** C5 (the code at a failing input).  For the valid date 9999-12-15 and
    frequency monthly [get_period_end_date] raises [OverflowError] in place
    of returning 9999-12-31, which the quarterly and the annual branch do
    return. *)
Theorem monthly_period_end_overflows :
  valid (Datetime 9999 12 15) /\
  get_period_end_date (Datetime 9999 12 15) monthly = Raise OverflowError /\
  get_period_end_date (Datetime 9999 12 15) quarterly
    = Ok (Datetime 9999 12 31) /\
  get_period_end_date (Datetime 9999 12 15) annually
    = Ok (Datetime 9999 12 31).
Proof. repeat split; reflexivity. Qed.

(** C6 (the code at a failing input).  For inception 9999-12-01 <= end
    9999-12-31 and frequency monthly no sequence is produced: the run
    raises [OverflowError] before the first period end is known. *)
Theorem monthly_sequence_overflows :
  leb (Datetime 9999 12 1) (Datetime 9999 12 31) = true /\
  create_folder_structure (Datetime 9999 12 1) (Datetime 9999 12 31)
    monthly empty_world = (Raise OverflowError, empty_world).
Proof. split; reflexivity. Qed.

(** C7 (the code at a failing input).  For inception = end = 9999-12-15 and
    frequency monthly the sequencer raises [OverflowError] in place of
    emitting the one folder 9999-12-15. *)
Theorem single_day_overflows :
  create_folder_structure (Datetime 9999 12 15) (Datetime 9999 12 15)
    monthly empty_world = (Raise OverflowError, empty_world).
Proof. reflexivity. Qed.

(** C3, as stated, fails: with the end date 2023-02-28 before the inception
    date 2023-03-01 the run ends with ["Run is done!"], no error, and no
    file or folder changed. *)
Lemma inverted_range_run_is_done :
  ltb (Datetime 2023 2 28) (Datetime 2023 3 1) = true /\
  (main (Datetime 2023 3 1) (Datetime 2023 2 28) source monthly
     source_world).1 = Ok RunDone /\
  fs (main (Datetime 2023 3 1) (Datetime 2023 2 28) source monthly
        source_world).2 = fs source_world.
Proof. repeat split; vm_compute; reflexivity. Qed.

(** C3, amended.  When the end date is earlier than the inception date
    the period sequence is empty, no file or folder is changed, and the run
    reports no configuration error: it ends as the load of the two source
    tables ends, with ["Run is done!"] when they load and with the error
    of the load otherwise. *)
Theorem inverted_range_no_configuration_error
    inception_date end_date source_folder f w :
  ltb end_date inception_date = true ->
  create_folder_structure inception_date end_date f w = (Ok [], w) /\
  exists o w',
    main inception_date end_date source_folder f w = (Ok o, w') /\
    fs w' = fs w /\
    match (load_csv_files source_folder w).1 with
    | Ok _ => o = RunDone
    | Raise e => o = RunError e
    | Unfinished => False
    end.
Proof.
  intros H. split; [by apply create_folder_structure_inverted|].
  rewrite (main_inverted_run _ _ _ _ _ H).
  pose proof (settles_load_csv_files source_folder w) as Hs.
  pose proof (keeps_run _ _ w (keeps_files_load_csv_files w source_folder)
                eq_refl) as Hk.
  destruct (load_csv_files source_folder w) as [[tables|e|] w1];
    cbn [fst snd] in *; [eauto..|done].
Qed.

Lemma inverted_range_no_configuration_error_witness :
  create_folder_structure (Datetime 2023 3 1) (Datetime 2023 2 28) monthly
    source_world = (Ok [], source_world) /\
  exists o w',
    main (Datetime 2023 3 1) (Datetime 2023 2 28) source monthly source_world
      = (Ok o, w') /\
    fs w' = fs source_world /\
    match (load_csv_files source source_world).1 with
    | Ok _ => o = RunDone
    | Raise e => o = RunError e
    | Unfinished => False
    end.
Proof.
  apply (inverted_range_no_configuration_error
           (Datetime 2023 3 1) (Datetime 2023 2 28) source monthly
           source_world).
  reflexivity.
Defined.

(** C4, as stated, fails: with [Holdings.csv] missing the run does end
    with an error, but the period folder 2023-01-31, which was not there,
    has been created by then. *)
Lemma missing_holdings_folders_created :
  fs no_holdings_world !! [source; "perf"; "Holdings.csv"] = None /\
  (main (Datetime 2023 1 1) (Datetime 2023 2 28) source monthly
     no_holdings_world).1
    = Ok (RunError (FileNotFoundError [source; "perf"; "Holdings.csv"])) /\
  fs no_holdings_world !! ["2023-01-31"] = None /\
  fs (main (Datetime 2023 1 1) (Datetime 2023 2 28) source monthly
        no_holdings_world).2 !! ["2023-01-31"] = Some Dir.
Proof. repeat split; vm_compute; reflexivity. Qed.

(** C4, amended.  If either source table is absent the run ends with an
    error before any table is loaded, filtered or written: no object is
    created and no file is made or changed.  The period folders are made
    first: the world in which the run ends is the one
    [create_folder_structure] leaves, which differs from the initial one by
    new folders only; when [create_folder_structure] returns, the error is
    [FileNotFoundError] for the missing table: for [Holdings.csv] when it
    is absent, and for [Transactions.csv] when that alone is. *)
Theorem missing_source_data_aborts
    inception_date end_date source_folder f w :
  valid inception_date -> valid end_date ->
  fs w !! [source_folder; "perf"; "Holdings.csv"] = None \/
  fs w !! [source_folder; "perf"; "Transactions.csv"] = None ->
  exists e w',
    main inception_date end_date source_folder f w = (Ok (RunError e), w') /\
    w' = (create_folder_structure inception_date end_date f w).2 /\
    heap w' = heap w /\
    only_new_folders (fs w) (fs w') /\
    (forall folders,
       (create_folder_structure inception_date end_date f w).1 = Ok folders ->
       (fs w !! [source_folder; "perf"; "Holdings.csv"] = None ->
        e = FileNotFoundError [source_folder; "perf"; "Holdings.csv"]) /\
       (fs w !! [source_folder; "perf"; "Holdings.csv"] <> None ->
        e = FileNotFoundError [source_folder; "perf"; "Transactions.csv"])).
Proof.
  intros Hi He Hmiss.
  pose proof (main_missing_run inception_date end_date source_folder f w
                Hmiss) as Hrun.
  pose proof (create_folder_structure_settles inception_date end_date f
                Hi He w) as Hs.
  pose proof (keeps_run _ _ w
    (keeps_create_folder_structure w inception_date end_date f)
    (conj eq_refl (only_new_folders_refl _))) as [Hheap Hnew].
  destruct (create_folder_structure inception_date end_date f w)
    as [[folders|e|] w1]; cbn [fst snd] in *; [| |done].
  - eexists _, w1. split; [exact Hrun|]. do 3 (split; [done|]).
    intros _ _.
    destruct (fs w !! [source_folder; "perf"; "Holdings.csv"]%string);
      split; done.
  - exists e, w1. repeat split; try done.
Qed.

Lemma missing_source_data_aborts_witness :
  exists e w',
    main (Datetime 2023 1 1) (Datetime 2023 2 28) source monthly
      no_holdings_world = (Ok (RunError e), w') /\
    w' = (create_folder_structure (Datetime 2023 1 1) (Datetime 2023 2 28)
            monthly no_holdings_world).2 /\
    heap w' = heap no_holdings_world /\
    only_new_folders (fs no_holdings_world) (fs w') /\
    (forall folders,
       (create_folder_structure (Datetime 2023 1 1) (Datetime 2023 2 28)
          monthly no_holdings_world).1 = Ok folders ->
       (fs no_holdings_world !! [source; "perf"; "Holdings.csv"] = None ->
        e = FileNotFoundError [source; "perf"; "Holdings.csv"]) /\
       (fs no_holdings_world !! [source; "perf"; "Holdings.csv"] <> None ->
        e = FileNotFoundError [source; "perf"; "Transactions.csv"])).
Proof.
  apply (missing_source_data_aborts
           (Datetime 2023 1 1) (Datetime 2023 2 28) source monthly
           no_holdings_world).
  - reflexivity.
  - reflexivity.
  - left. reflexivity.
Defined.




(** C9.  Filtering never changes the two source tables: after
    [filter_and_save_csv] has run for a period, and after the loop of
    [main] has run it for any list of periods, whether they return or
    raise, the objects [df_ho] and [df_tr] hold what they held before. *)
Theorem filter_and_save_csv_keeps_sources w df_ho df_tr ho tr
    inception_date folder_date folder_name folders :
  heap w !! df_ho = Some ho -> heap w !! df_tr = Some tr ->
  let w1 := (filter_and_save_csv df_ho df_tr inception_date folder_date
               folder_name w).2 in
  let w2 := (process_folders df_ho df_tr inception_date folders w).2 in
  (heap w1 !! df_ho = Some ho /\ heap w1 !! df_tr = Some tr) /\
  (heap w2 !! df_ho = Some ho /\ heap w2 !! df_tr = Some tr).
Proof.
  intros Hho Htr w1 w2.
  assert (H1 : objects_kept (heap w) w1).
  { apply keeps_run; [apply keeps_objects_filter_and_save_csv|by unfold objects_kept]. }
  assert (H2 : objects_kept (heap w) w2).
  { apply keeps_run; [apply keeps_objects_process_folders|by unfold objects_kept]. }
  repeat split; by eapply objects_kept_lookup.
Qed.

Lemma filter_and_save_csv_keeps_sources_witness :
  let w1 := (filter_and_save_csv 0 1 (Datetime 2023 1 1) (Datetime 2023 1 31)
               "2023-01-31" loaded_world).2 in
  let w2 := (process_folders 0 1 (Datetime 2023 1 1)
               ["2023-01-31"; "2023-02-28"] loaded_world).2 in
  (heap w1 !! 0%nat = Some holdings /\ heap w1 !! 1%nat = Some transactions) /\
  (heap w2 !! 0%nat = Some holdings /\ heap w2 !! 1%nat = Some transactions).
Proof.
  apply (filter_and_save_csv_keeps_sources loaded_world 0%nat 1%nat
           holdings transactions).
  - reflexivity.
  - reflexivity.
Defined.

(** C10.  For every pair of dates and every frequency the loop of
    [create_folder_structure] ends: as many iterations as the date range
    has days are enough (the run is never [Unfinished] and a larger budget
    returns the same), so at most that many folders are returned; and an
    iteration that does not break hands the next one an anchor strictly
    after its own. *)
Theorem create_folder_structure_terminates inception_date end_date f w :
  valid inception_date -> valid end_date ->
  (create_folder_structure inception_date end_date f w).1 <> Unfinished /\
  (forall budget, (range_length inception_date end_date <= budget)%nat ->
     create_folder_loop budget end_date f inception_date [] w =
     create_folder_structure inception_date end_date f w) /\
  (forall folders w',
     create_folder_structure inception_date end_date f w = (Ok folders, w') ->
     (length folders <= range_length inception_date end_date)%nat) /\
  (forall current period_end next,
     valid current -> leb current end_date = true ->
     get_period_end_date current f = Ok period_end ->
     let period_end :=
       if ltb end_date period_end then end_date else period_end in
     leb end_date period_end = false ->
     get_next_period_end period_end f = Ok next ->
     ltb current next = true).
Proof.
  intros Hi He.
  pose proof (create_folder_structure_settles inception_date end_date f
                Hi He w) as Hs.
  repeat split.
  - done.
  - intros budget Hb. by apply create_folder_loop_budget.
  - intros folders w' H. by apply create_folder_loop_length in H.
  - intros current period_end next Hc Hle Hpe pe' _ Hnext.
    by destruct (next_anchor_later end_date f current period_end next).
Qed.

Lemma create_folder_structure_terminates_witness :
  (create_folder_structure (Datetime 2023 1 1) (Datetime 2023 7 10)
     quarterly empty_world).1 <> Unfinished /\
  (forall budget,
     (range_length (Datetime 2023 1 1) (Datetime 2023 7 10) <= budget)%nat ->
     create_folder_loop budget (Datetime 2023 7 10) quarterly
       (Datetime 2023 1 1) [] empty_world =
     create_folder_structure (Datetime 2023 1 1) (Datetime 2023 7 10)
       quarterly empty_world) /\
  (forall folders w',
     create_folder_structure (Datetime 2023 1 1) (Datetime 2023 7 10)
       quarterly empty_world = (Ok folders, w') ->
     (length folders
      <= range_length (Datetime 2023 1 1) (Datetime 2023 7 10))%nat) /\
  (forall current period_end next,
     valid current -> leb current (Datetime 2023 7 10) = true ->
     get_period_end_date current quarterly = Ok period_end ->
     let period_end :=
       if ltb (Datetime 2023 7 10) period_end
       then Datetime 2023 7 10 else period_end in
     leb (Datetime 2023 7 10) period_end = false ->
     get_next_period_end period_end quarterly = Ok next ->
     ltb current next = true).
Proof.
  apply (create_folder_structure_terminates
           (Datetime 2023 1 1) (Datetime 2023 7 10) quarterly empty_world).
  - reflexivity.
  - reflexivity.
Defined.

(** * Further properties of the script *)

Import MoreSamples.
Open Scope Z_scope.

(** ** Days and periods *)

Lemma tomorrow_valid_ordinal dt dt' :
  valid dt -> tomorrow dt = Ok dt' ->
  valid dt' /\ toordinal dt' = toordinal dt + 1.
Proof.
  intros Hv Ht. split; [by destruct (tomorrow_inv dt dt' Hv Ht)|].
  apply valid_fields in Hv as (Hy & Hm & Hd). destruct dt as [y m d].
  cbn [year month day] in *. rewrite tomorrow_eq in Ht. unfold toordinal.
  destruct (Z.ltb_spec d (days_in_month y m));
    [|destruct (Z.ltb_spec m 12); [|destruct (Z.ltb_spec y 9999)]];
    try discriminate; injection Ht as <-; cbn [year month day].
  - lia.
  - pose proof (days_before_month_next y m Hm) as Hn.
    destruct (Z.eqb_spec m 12); lia.
  - assert (m = 12) as -> by lia.
    pose proof (days_before_month_next y 12 Hm) as Hn.
    change (12 =? 12) with true in Hn. cbv beta iota in Hn.
    rewrite days_before_year_succ. unfold days_before_month at 1.
    cbn. lia.
Qed.

Lemma toordinal_inj a b :
  valid a -> valid b -> toordinal a = toordinal b -> a = b.
Proof.
  intros Ha Hb Heq.
  destruct (ltb a b) eqn:Hab.
  { pose proof (toordinal_lt a b Ha Hb Hab). lia. }
  destruct (ltb b a) eqn:Hba.
  { pose proof (toordinal_lt b a Hb Ha Hba). lia. }
  apply leb_antisym; unfold leb; by rewrite ?Hab, ?Hba.
Qed.

(** The period end of two dates of one unit is the same. *)
Lemma last_day_of_unit_same_unit f a b :
  valid a -> valid b -> same_unit f a b ->
  last_day_of_unit a f = last_day_of_unit b f.
Proof.
  intros (_ & Ha & _)%valid_fields (_ & Hb & _)%valid_fields.
  destruct a as [ya ma da], b as [yb mb db]. cbn [year month day] in *.
  destruct f; unfold same_unit, last_day_of_unit; cbn [year month day].
  - done.
  - by intros [-> ->].
  - intros [-> Hq]. each_month ma Ha; each_month mb Hb;
      first [reflexivity | by vm_compute in Hq].
  - by intros ->.
Qed.

Lemma get_period_end_date_same_unit f a b :
  valid a -> valid b -> same_unit f a b ->
  get_period_end_date a f = get_period_end_date b f.
Proof.
  intros Ha Hb Hs.
  destruct (decide (f = monthly /\ year a = 9999 /\ month a = 12))
    as [(-> & Hy & Hm) | Hn].
  - cbn in Hs. destruct Hs as [Hy' Hm'].
    rewrite !get_period_end_date_overflow; (done || congruence).
  - rewrite !get_period_end_date_spec; try done.
    + f_equal. by apply last_day_of_unit_same_unit.
    + intros (-> & Hy & Hm). apply Hn. cbn in Hs. destruct Hs. 
      split; [done|]. split; congruence.
Qed.

Lemma add_days_1 dt : add_days dt 1 = tomorrow dt.
Proof.
  unfold add_days. change (0 <=? 1) with true.
  change (Z.to_nat 1) with 1%nat. cbn [shift]. by destruct (tomorrow dt).
Qed.

(** The anchor after a whole period lies in the unit that begins the day
    after that period. *)
Lemma next_anchor_same_unit dt f next t :
  valid dt ->
  get_next_period_end (last_day_of_unit dt f) f = Ok next ->
  tomorrow (last_day_of_unit dt f) = Ok t ->
  same_unit f t next.
Proof.
  intros (Hy & Hm & Hd)%valid_fields.
  destruct dt as [y m d]. cbn [year month day] in *.
  destruct f; cbn [get_next_period_end last_day_of_unit same_unit];
    cbn [year month day].
  - rewrite add_days_1. congruence.
  - unfold add_relativedelta. cbn [year month day]. rewrite tomorrow_eq.
    change (1 =? 0) with false. cbv beta iota.
    destruct (Z.ltb_spec (days_in_month y m) (days_in_month y m)); [lia|].
    destruct (Z.ltb_spec 12 (m + 1)), (Z.ltb_spec m 12); try lia.
    + destruct (Z.ltb_spec y 9999); [|done].
      intros [-> _]%new_datetime_inv [= <-]. cbn. lia.
    + destruct (Z.ltb_spec (m + 1) 1); [lia|].
      intros [-> _]%new_datetime_inv [= <-]. cbn. lia.
  - each_month m Hm;
      cbn [Z.leb Z.compare Pos.compare Pos.compare_cont]; cbv beta iota;
      unfold add_relativedelta; rewrite tomorrow_eq;
      cbn [year month day days_in_month];
      repeat match goal with
      | |- context [?a <? ?b] => destruct (Z.ltb_spec a b); try lia
      | |- context [?a =? ?b] => destruct (Z.eqb_spec a b); try lia
      end;
      try done;
      intros [-> _]%new_datetime_inv [= <-]; cbn; split; (lia || reflexivity).
  - unfold add_relativedelta. cbn [year month day]. rewrite tomorrow_eq.
    change (0 =? 0) with true. cbv beta iota.
    change (31 <? days_in_month y 12) with false. change (12 <? 12) with false.
    cbv beta iota.
    destruct (Z.ltb_spec y 9999); [|done].
    intros [-> _]%new_datetime_inv [= <-]. cbn. lia.
Qed.

Lemma last_day_of_unit_mono f a b :
  valid a -> valid b -> leb a b = true ->
  leb (last_day_of_unit a f) (last_day_of_unit b f) = true.
Proof.
  intros (_ & Ha & Hda)%valid_fields (_ & Hb & Hdb)%valid_fields Hle%leb_le.
  apply leb_le.
  destruct a as [ya ma da], b as [yb mb db]. cbn [year month day] in *.
  destruct f; unfold last_day_of_unit; cbn [year month day].
  - lia.
  - destruct (decide (ya = yb /\ ma = mb)) as [[-> ->] | Hne]; lia.
  - each_month ma Ha; each_month mb Hb; cbn; lia.
  - lia.
Qed.

(** ** Digits *)

Lemma digit_cases k :
  0 <= k <= 9 ->
  k = 0 \/ k = 1 \/ k = 2 \/ k = 3 \/ k = 4 \/
  k = 5 \/ k = 6 \/ k = 7 \/ k = 8 \/ k = 9.
Proof. lia. Qed.

Lemma ascii_to_digit_to_ascii k :
  0 <= k <= 9 -> ascii_to_digit (digit_to_ascii k) = Some k.
Proof.
  intros H. destruct (digit_cases k H) as [-> | [-> | [-> | [-> | [-> |
    [-> | [-> | [-> | [-> | ->]]]]]]]]]; reflexivity.
Qed.

Lemma ascii_to_digit_inv c k :
  ascii_to_digit c = Some k -> 0 <= k <= 9 /\ c = digit_to_ascii k.
Proof.
  unfold ascii_to_digit, digit_to_ascii. cbv zeta.
  destruct (Z.leb_spec 48 (Z.of_nat (nat_of_ascii c))); [|done].
  destruct (Z.leb_spec (Z.of_nat (nat_of_ascii c)) 57); [|done].
  cbn [andb]. intros [= <-]. split; [lia|].
  replace (48 + (Z.of_nat (nat_of_ascii c) - 48))
    with (Z.of_nat (nat_of_ascii c)) by lia.
  by rewrite Nat2Z.id, ascii_nat_embedding.
Qed.

Lemma digits_forall (P : Z -> bool) :
  forallb P [0; 1; 2; 3; 4; 5; 6; 7; 8; 9] = true ->
  forall k, 0 <= k <= 9 -> P k = true.
Proof.
  intros H k Hk. rewrite forallb_forall in H. apply H.
  destruct (digit_cases k Hk) as [-> | [-> | [-> | [-> | [-> |
    [-> | [-> | [-> | [-> | ->]]]]]]]]]; cbn; tauto.
Qed.

Lemma two_digits n :
  0 <= n <= 99 ->
  0 <= n / 10 mod 10 <= 9 /\ 0 <= n mod 10 <= 9 /\
  10 * (n / 10 mod 10) + n mod 10 = n.
Proof. intros H. Z.div_mod_to_equations. lia. Qed.

Lemma four_digits n :
  0 <= n <= 9999 ->
  0 <= n / 1000 mod 10 <= 9 /\ 0 <= n / 100 mod 10 <= 9 /\
  1000 * (n / 1000 mod 10) + 100 * (n / 100 mod 10) +
    10 * (n / 10 mod 10) + n mod 10 = n.
Proof. intros H. Z.div_mod_to_equations. lia. Qed.

Lemma two_digits_of x y :
  0 <= x <= 9 -> 0 <= y <= 9 ->
  (10 * x + y) / 10 mod 10 = x /\ (10 * x + y) mod 10 = y.
Proof. intros Hx Hy. Z.div_mod_to_equations. lia. Qed.

Lemma four_digits_of a b c d :
  0 <= a <= 9 -> 0 <= b <= 9 -> 0 <= c <= 9 -> 0 <= d <= 9 ->
  let n := 1000 * a + 100 * b + 10 * c + d in
  n / 1000 mod 10 = a /\ n / 100 mod 10 = b /\
  n / 10 mod 10 = c /\ n mod 10 = d.
Proof. intros Ha Hb Hc Hd n. subst n. Z.div_mod_to_equations. lia. Qed.

Lemma match_Y_pad4 y :
  0 <= y <= 9999 -> match_Y (pad4 y EmptyString) = Some y.
Proof.
  intros H. destruct (four_digits y H) as (H3 & H2 & Hsum).
  destruct (two_digits (y mod 100)) as (H1 & H0 & _);
    [Z.div_mod_to_equations; lia|].
  assert (y mod 100 / 10 mod 10 = y / 10 mod 10) as E1
    by (Z.div_mod_to_equations; lia).
  assert (y mod 100 mod 10 = y mod 10) as E0
    by (Z.div_mod_to_equations; lia).
  rewrite E1 in H1. rewrite E0 in H0.
  unfold pad4, pad2, match_Y.
  rewrite !ascii_to_digit_to_ascii by done. cbn [mbind option_bind].
  by rewrite Hsum.
Qed.

Lemma match_m_pad2 m :
  1 <= m <= 12 -> match_m (pad2 m EmptyString) = Some m.
Proof. intros H. each_month m H; reflexivity. Qed.

Lemma match_d_pad2 d :
  1 <= d <= 31 -> match_d (pad2 d EmptyString) = Some d.
Proof.
  intros H. destruct (two_digits d) as (H1 & H0 & Hsum); [lia|].
  unfold pad2, match_d.
  rewrite !ascii_to_digit_to_ascii by done. cbn [mbind option_bind].
  replace (Ascii.eqb (digit_to_ascii (d / 10 mod 10)) " ") with false.
  2: { destruct (digit_cases _ H1) as [-> | [-> | [-> | [-> | [-> |
         [-> | [-> | [-> | [-> | ->]]]]]]]]]; reflexivity. }
  rewrite Hsum.
  replace (_ || _) with true; [done|]. symmetry.
  repeat first [rewrite orb_true_iff | rewrite andb_true_iff
               | rewrite Z.eqb_eq | rewrite Z.leb_le].
  lia.
Qed.

Lemma prefixes_m_pad2 m rest :
  1 <= m <= 12 ->
  exists others, prefixes_m (pad2 m rest) = (m, rest) :: others.
Proof. intros H. each_month m H; eexists; reflexivity. Qed.

Lemma prefixes_d_pad2 d rest :
  1 <= d <= 31 ->
  exists others, prefixes_d (pad2 d rest) = (d, rest) :: others.
Proof.
  intros H. destruct (two_digits d) as (H1 & H0 & Hsum); [lia|].
  unfold pad2, prefixes_d.
  rewrite !ascii_to_digit_to_ascii by done. rewrite Hsum.
  replace (_ || _) with true; [by eexists|]. symmetry.
  repeat first [rewrite orb_true_iff | rewrite andb_true_iff
               | rewrite Z.eqb_eq | rewrite Z.leb_le].
  lia.
Qed.

Lemma digit_code k :
  0 <= k <= 9 -> nat_of_ascii (digit_to_ascii k) = Z.to_nat (48 + k).
Proof.
  intros Hk. unfold digit_to_ascii. apply nat_ascii_embedding. lia.
Qed.

Lemma digit_is_not sep k :
  0 <= k <= 9 -> (nat_of_ascii sep < 48)%nat ->
  Ascii.eqb (digit_to_ascii k) sep = false.
Proof.
  intros Hk Hsep. apply Ascii.eqb_neq. intros <-.
  rewrite digit_code in Hsep by done. lia.
Qed.

Lemma mod_10_digit n : 0 <= n mod 10 <= 9.
Proof. Z.div_mod_to_equations. lia. Qed.

Lemma split_at_pad2 sep n rest :
  (nat_of_ascii sep < 48)%nat ->
  split_at sep (pad2 n (String sep rest)) = (pad2 n EmptyString, Some rest).
Proof.
  intros Hsep. unfold pad2. cbn [split_at].
  rewrite !digit_is_not by (done || apply mod_10_digit).
  by rewrite Ascii.eqb_refl.
Qed.

Lemma split_at_pad4 sep n rest :
  (nat_of_ascii sep < 48)%nat ->
  split_at sep (pad4 n (String sep rest)) = (pad4 n EmptyString, Some rest).
Proof.
  intros Hsep. unfold pad4. cbn [split_at].
  rewrite !digit_is_not by (done || apply mod_10_digit).
  by rewrite split_at_pad2.
Qed.

(** ** Dates written and read back *)

Lemma valid_days dt : valid dt -> 1 <= day dt <= 31.
Proof.
  intros (_ & Hm & Hd)%valid_fields.
  pose proof (days_in_month_bounds (year dt) (month dt) Hm). lia.
Qed.

Lemma strptime_ymd_isoformat_date dt :
  valid dt -> strptime_ymd (isoformat_date dt) = Ok dt.
Proof.
  intros Hv. pose proof (valid_days dt Hv) as Hd.
  pose proof Hv as (Hy & Hm & Hdm)%valid_fields.
  unfold strptime_ymd, isoformat_date.
  rewrite split_at_pad4 by (vm_compute; lia).
  rewrite split_at_pad2 by (vm_compute; lia).
  rewrite match_Y_pad4, match_m_pad2, match_d_pad2 by lia.
  unfold build. destruct dt as [y m d]. cbn [year month day] in *.
  by apply new_datetime_ok.
Qed.

Lemma strptime_Ymd_compact_date dt :
  valid dt ->
  match_8_digits (compact_date dt) = true /\
  strptime_Ymd (compact_date dt) = Ok dt.
Proof.
  intros Hv. pose proof (valid_days dt Hv) as Hd.
  pose proof Hv as (Hy & Hm & Hdm)%valid_fields.
  unfold compact_date. split.
  - unfold match_8_digits, pad4, pad2. cbn [skip_digits].
    by rewrite !ascii_to_digit_to_ascii by apply mod_10_digit.
  - unfold strptime_Ymd. unfold pad4 at 1. unfold pad2 at 1.
    fold (pad2 (year dt) EmptyString). fold (pad4 (year dt) EmptyString).
    rewrite match_Y_pad4 by lia.
    destruct (prefixes_m_pad2 (month dt) (pad2 (day dt) EmptyString) Hm)
      as [ms ->].
    cbn [first_md].
    destruct (prefixes_d_pad2 (day dt) EmptyString Hd) as [ds ->].
    destruct dt as [y m d]. cbn [year month day] in *.
    by apply new_datetime_ok.
Qed.

Lemma skip_digits_inv n s r :
  skip_digits (S n) s = Some r ->
  exists k s', 0 <= k <= 9 /\ s = String (digit_to_ascii k) s' /\
               skip_digits n s' = Some r.
Proof.
  cbn [skip_digits]. destruct s as [|c s']; [done|].
  destruct (ascii_to_digit c) as [k|] eqn:E; [|done].
  apply ascii_to_digit_inv in E as [Hk ->]. eauto.
Qed.

Lemma match_8_digits_inv s :
  match_8_digits s = true ->
  exists k1 k2 k3 k4 k5 k6 k7 k8 r,
    (0 <= k1 <= 9 /\ 0 <= k2 <= 9 /\ 0 <= k3 <= 9 /\ 0 <= k4 <= 9) /\
    (0 <= k5 <= 9 /\ 0 <= k6 <= 9 /\ 0 <= k7 <= 9 /\ 0 <= k8 <= 9) /\
    (r = EmptyString \/ r = String "010" EmptyString) /\
    s = String (digit_to_ascii k1) (String (digit_to_ascii k2)
          (String (digit_to_ascii k3) (String (digit_to_ascii k4)
            (String (digit_to_ascii k5) (String (digit_to_ascii k6)
              (String (digit_to_ascii k7) (String (digit_to_ascii k8)
                r))))))).
Proof.
  unfold match_8_digits.
  destruct (skip_digits 8 s) as [r|] eqn:E; [|done]. intros Hr.
  apply skip_digits_inv in E as (k1 & s1 & H1 & -> & E).
  apply skip_digits_inv in E as (k2 & s2 & H2 & -> & E).
  apply skip_digits_inv in E as (k3 & s3 & H3 & -> & E).
  apply skip_digits_inv in E as (k4 & s4 & H4 & -> & E).
  apply skip_digits_inv in E as (k5 & s5 & H5 & -> & E).
  apply skip_digits_inv in E as (k6 & s6 & H6 & -> & E).
  apply skip_digits_inv in E as (k7 & s7 & H7 & -> & E).
  apply skip_digits_inv in E as (k8 & s8 & H8 & -> & E).
  cbn in E. injection E as ->.
  exists k1, k2, k3, k4, k5, k6, k7, k8, r.
  split; [done|]. split; [done|]. split; [|done].
  destruct r as [|c [|? ?]]; [by left| |done].
  right. by apply Ascii.eqb_eq in Hr as ->.
Qed.

(** On four digits, followed by nothing or by a newline, [%m%d] leaves
    nothing over only when it reads two digits for each. *)
Lemma first_md_four_digits k5 k6 k7 k8 r m d :
  0 <= k5 <= 9 -> 0 <= k6 <= 9 -> 0 <= k7 <= 9 -> 0 <= k8 <= 9 ->
  r = EmptyString \/ r = String "010" EmptyString ->
  first_md (prefixes_m
    (String (digit_to_ascii k5) (String (digit_to_ascii k6)
      (String (digit_to_ascii k7) (String (digit_to_ascii k8) r)))))
    = Some (m, d, EmptyString) ->
  r = EmptyString /\ m = 10 * k5 + k6 /\ d = 10 * k7 + k8.
Proof.
  intros H5 H6 H7 H8 Hr.
  pose (check := fun r k5 k6 k7 k8 =>
    match first_md (prefixes_m
      (String (digit_to_ascii k5) (String (digit_to_ascii k6)
        (String (digit_to_ascii k7) (String (digit_to_ascii k8) r)))))
    with
    | Some (m, d, EmptyString) =>
        bool_decide (r = EmptyString) && (m =? 10 * k5 + k6)
        && (d =? 10 * k7 + k8)
    | _ => true
    end).
  assert (Hall : forall r, r = EmptyString \/ r = String "010" EmptyString ->
            check r k5 k6 k7 k8 = true).
  { clear Hr r. intros r Hr.
    revert k8 H8. apply digits_forall.
    revert k7 H7. apply (digits_forall (fun k7 => forallb _ _)).
    revert k6 H6. apply (digits_forall (fun k6 => forallb _ _)).
    revert k5 H5. apply (digits_forall (fun k5 => forallb _ _)).
    destruct Hr as [-> | ->]; vm_compute; reflexivity. }
  specialize (Hall r Hr). subst check. cbv beta in Hall.
  intros E. rewrite E in Hall.
  apply andb_true_iff in Hall as [[Hr'%bool_decide_eq_true ->%Z.eqb_eq
    ]%andb_true_iff ->%Z.eqb_eq].
  done.
Qed.

Lemma validate_date_format_inv s :
  validate_date_format s = true ->
  exists dt, valid dt /\ s = compact_date dt /\ strptime_Ymd s = Ok dt.
Proof.
  unfold validate_date_format.
  destruct (match_8_digits s) eqn:H8; [|done]. cbn [negb].
  destruct (strptime_Ymd s) as [dt| |] eqn:Hp; [intros _|done|done].
  exists dt.
  apply match_8_digits_inv in H8
    as (k1 & k2 & k3 & k4 & k5 & k6 & k7 & k8 & r
        & (H1 & H2 & H3 & H4) & (H5 & H6 & H7 & H8) & Hr & ->).
  unfold strptime_Ymd in Hp. unfold match_Y in Hp.
  rewrite !ascii_to_digit_to_ascii in Hp by done.
  cbn [mbind option_bind] in Hp.
  destruct (first_md _) as [[[m d] rest]|] eqn:Hmd; [|done].
  destruct rest; [|done].
  apply first_md_four_digits in Hmd as (-> & -> & ->); try done.
  apply new_datetime_inv in Hp as [-> Hv].
  split; [done|]. split; [|reflexivity].
  unfold compact_date, pad4, pad2. cbn [year month day].
  destruct (four_digits_of k1 k2 k3 k4 H1 H2 H3 H4) as (-> & -> & -> & ->).
  destruct (two_digits_of k5 k6 H5 H6) as (-> & ->).
  destruct (two_digits_of k7 k8 H7 H8) as (-> & ->).
  reflexivity.
Qed.

(** ** What [get_user_input] returns *)

Lemma date_prefix_inv s g :
  date_prefix s = Some g ->
  exists k1 k2 k3 k4 k5 k6 k7 k8 tail,
    (0 <= k1 <= 9 /\ 0 <= k2 <= 9 /\ 0 <= k3 <= 9 /\ 0 <= k4 <= 9) /\
    (0 <= k5 <= 9 /\ 0 <= k6 <= 9 /\ 0 <= k7 <= 9 /\ 0 <= k8 <= 9) /\
    g = String (digit_to_ascii k1) (String (digit_to_ascii k2)
          (String (digit_to_ascii k3) (String (digit_to_ascii k4)
            (String "-" (String (digit_to_ascii k5)
              (String (digit_to_ascii k6) (String "-"
                (String (digit_to_ascii k7) (String (digit_to_ascii k8)
                  EmptyString))))))))) /\
    s = String.append g tail.
Proof.
  unfold date_prefix.
  destruct s as [|y1 [|y2 [|y3 [|y4 [|h1 [|m1 [|m2 [|h2 [|d1 [|d2 tail
    ]]]]]]]]]]; try done.
  destruct (forallb _ _ && _ && _) eqn:E; [|done]. intros [= <-].
  apply andb_true_iff in E as [[E H1%Ascii.eqb_eq]%andb_true_iff
    H2%Ascii.eqb_eq]. subst h1 h2.
  cbn [forallb] in E.
  repeat (apply andb_true_iff in E as [?%bool_decide_eq_true E]).
  repeat match goal with
  | H : is_Some (ascii_to_digit ?c) |- _ =>
      let k := fresh "k" in
      destruct H as [k [? ->]%ascii_to_digit_inv]
  end.
  eexists _, _, _, _, _, _, _, _, tail. repeat split; lia.
Qed.

(** A date read from the text [dddd-dd-dd] is written as that text. *)
Lemma strptime_ymd_date_prefix s g dt :
  date_prefix s = Some g -> strptime_ymd g = Ok dt ->
  valid dt /\ g = isoformat_date dt /\
  exists tail, s = String.append (isoformat_date dt) tail.
Proof.
  intros (k1 & k2 & k3 & k4 & k5 & k6 & k7 & k8 & tail
          & (H1 & H2 & H3 & H4) & (H5 & H6 & H7 & H8) & -> & ->)%date_prefix_inv.
  unfold strptime_ymd.
  repeat first [ progress cbn [split_at]
               | rewrite digit_is_not by (done || (vm_compute; lia))
               | rewrite Ascii.eqb_refl ].
  unfold match_Y, match_m, match_d.
  rewrite !ascii_to_digit_to_ascii by done. cbn [mbind option_bind].
  rewrite (digit_is_not " " k7) by (done || (vm_compute; lia)).
  unfold build.
  destruct (_ || _); [|done]. destruct (_ || _); [|done].
  intros [-> Hv]%new_datetime_inv.
  assert (Hg : String (digit_to_ascii k1) (String (digit_to_ascii k2)
          (String (digit_to_ascii k3) (String (digit_to_ascii k4)
            (String "-" (String (digit_to_ascii k5)
              (String (digit_to_ascii k6) (String "-"
                (String (digit_to_ascii k7) (String (digit_to_ascii k8)
                  EmptyString))))))))) =
        isoformat_date
          (Datetime (1000 * k1 + 100 * k2 + 10 * k3 + k4)
                    (10 * k5 + k6) (10 * k7 + k8))).
  { unfold isoformat_date, pad4, pad2. cbn [year month day].
    destruct (four_digits_of k1 k2 k3 k4 H1 H2 H3 H4) as (-> & -> & -> & ->).
    destruct (two_digits_of k5 k6 H5 H6) as (-> & ->).
    destruct (two_digits_of k7 k8 H7 H8) as (-> & ->).
    reflexivity. }
  split; [done|]. split; [done|]. exists tail. by rewrite <- Hg.
Qed.

Lemma strptime_settles_ymd s : strptime_ymd s <> Unfinished.
Proof.
  unfold strptime_ymd, build.
  repeat case_match; first [done | apply new_datetime_settles].
Qed.

Lemma new_datetime_raises y m d e :
  new_datetime y m d = Raise e -> e = ValueError.
Proof. unfold new_datetime. case_match; [done|]. by intros [= <-]. Qed.

Lemma strptime_ymd_raises s e : strptime_ymd s = Raise e -> e = ValueError.
Proof.
  unfold strptime_ymd, build.
  repeat case_match; first [by intros [= <-] | apply new_datetime_raises].
Qed.

Lemma strptime_ymd_valid s dt : strptime_ymd s = Ok dt -> valid dt.
Proof.
  unfold strptime_ymd, build.
  repeat case_match; try done. by intros [_ Hv]%new_datetime_inv.
Qed.

Lemma ask_inception_date_got stdin d rest :
  ask_inception_date stdin = Ok (d, rest) ->
  valid d /\ exists read, read <> [] /\ stdin = (read ++ rest)%list.
Proof.
  induction stdin as [|line stdin IH]; cbn [ask_inception_date]; [done|].
  destruct (validate_date_format (strip line)) eqn:Hv.
  - apply validate_date_format_inv in Hv as (dt & Hvalid & _ & ->).
    intros [= <- <-]. split; [done|]. by exists [line].
  - intros (Hvalid & read & _ & ->)%IH. split; [done|].
    by exists (line :: read).
Qed.

Lemma ask_inception_date_raises stdin e :
  ask_inception_date stdin = Raise e -> e = EOFError.
Proof.
  induction stdin as [|line stdin IH]; cbn [ask_inception_date];
    [by intros [= <-]|].
  destruct (validate_date_format (strip line)) eqn:Hv; [|done].
  by apply validate_date_format_inv in Hv as (dt & _ & _ & ->).
Qed.

Lemma ask_inception_date_settles stdin :
  ask_inception_date stdin <> Unfinished.
Proof.
  induction stdin as [|line stdin IH]; cbn [ask_inception_date]; [done|].
  destruct (validate_date_format (strip line)) eqn:Hv; [|done].
  by apply validate_date_format_inv in Hv as (dt & _ & _ & ->).
Qed.

Lemma ask_folder_name_got t stdin end_date folder_name rest :
  ask_folder_name t stdin = Ok (end_date, folder_name, rest) ->
  valid end_date /\ is_Some (t !! [folder_name]) /\
  (exists date_match,
     date_prefix folder_name = Some date_match /\
     strptime_ymd date_match = Ok end_date) /\
  exists read, read <> [] /\ stdin = (read ++ rest)%list.
Proof.
  induction stdin as [|line stdin IH]; cbn [ask_folder_name]; [done|].
  assert (Hnext : ask_folder_name t stdin = Ok (end_date, folder_name, rest) ->
    valid end_date /\ is_Some (t !! [folder_name]) /\
    (exists date_match,
       date_prefix folder_name = Some date_match /\
       strptime_ymd date_match = Ok end_date) /\
    exists read, read <> [] /\ (line :: stdin = read ++ rest)%list).
  { intros (? & ? & ? & read & _ & ->)%IH. repeat split; try done.
    by exists (line :: read). }
  destruct (bool_decide _) eqn:Hin; [|done].
  apply bool_decide_eq_true in Hin.
  destruct (date_prefix (strip line)) as [g|] eqn:Hg; [|done].
  destruct (strptime_ymd g) as [dt| |] eqn:Hdt; [|done|done].
  intros [= <- <- <-].
  split; [by apply strptime_ymd_valid in Hdt|]. split; [done|].
  split; [by exists g|]. by exists [line].
Qed.

Lemma ask_folder_name_raises t stdin e :
  ask_folder_name t stdin = Raise e ->
  e = EOFError \/
  (e = ValueError /\
   exists line date_match,
     line ∈ stdin /\ is_Some (t !! [strip line]) /\
     date_prefix (strip line) = Some date_match /\
     strptime_ymd date_match = Raise ValueError).
Proof.
  induction stdin as [|line stdin IH]; cbn [ask_folder_name];
    [intros [= <-]; by left|].
  assert (Hnext : ask_folder_name t stdin = Raise e ->
    e = EOFError \/
    (e = ValueError /\
     exists line' date_match,
       line' ∈ line :: stdin /\ is_Some (t !! [strip line']) /\
       date_prefix (strip line') = Some date_match /\
       strptime_ymd date_match = Raise ValueError)).
  { intros [-> | (-> & l & g & Hl & ?)]%IH; [by left|right].
    split; [done|]. exists l, g. split; [by right|done]. }
  destruct (bool_decide _) eqn:Hin; [|done].
  apply bool_decide_eq_true in Hin.
  destruct (date_prefix (strip line)) as [g|] eqn:Hg; [|done].
  destruct (strptime_ymd g) as [dt|e'|] eqn:Hdt; [done| |done].
  intros [= <-]. apply strptime_ymd_raises in Hdt as Heq. subst e'.
  right. split; [done|]. exists line, g. split; [by left|done].
Qed.

Lemma ask_folder_name_settles t stdin : ask_folder_name t stdin <> Unfinished.
Proof.
  induction stdin as [|line stdin IH]; cbn [ask_folder_name]; [done|].
  destruct (bool_decide _); [|done].
  destruct (date_prefix (strip line)) as [g|]; [|done].
  pose proof (strptime_settles_ymd g).
  by destruct (strptime_ymd g).
Qed.

Lemma ask_frequency_got stdin f rest :
  ask_frequency stdin = Ok (f, rest) ->
  exists read, read <> [] /\ stdin = (read ++ rest)%list.
Proof.
  induction stdin as [|line stdin IH]; cbn [ask_frequency]; [done|].
  destruct (frequency_option _).
  - intros [= <- <-]. by exists [line].
  - intros (read & _ & ->)%IH. by exists (line :: read).
Qed.

Lemma ask_frequency_raises stdin e :
  ask_frequency stdin = Raise e -> e = EOFError.
Proof.
  induction stdin as [|line stdin IH]; cbn [ask_frequency];
    [by intros [= <-]|].
  by destruct (frequency_option _).
Qed.

Lemma ask_frequency_settles stdin : ask_frequency stdin <> Unfinished.
Proof.
  induction stdin as [|line stdin IH]; cbn [ask_frequency]; [done|].
  by destruct (frequency_option _).
Qed.

Lemma get_user_input_got t stdin inception_date end_date folder_name f rest :
  get_user_input t stdin
    = Ok (inception_date, end_date, folder_name, f, rest) ->
  valid inception_date /\ valid end_date /\
  is_Some (t !! [folder_name]) /\
  (exists date_match,
     date_prefix folder_name = Some date_match /\
     strptime_ymd date_match = Ok end_date) /\
  exists read, (3 <= length read)%nat /\ stdin = (read ++ rest)%list.
Proof.
  unfold get_user_input.
  destruct (ask_inception_date stdin) as [[i stdin1]| |] eqn:H1; try done.
  cbn [mbind res_bind].
  destruct (ask_folder_name t stdin1) as [[[e n] stdin2]| |] eqn:H2;
    try done.
  cbn [mbind res_bind].
  destruct (ask_frequency stdin2) as [[f' stdin3]| |] eqn:H3; try done.
  cbn [mbind res_bind].
  intros [= <- <- <- <- <-].
  apply ask_inception_date_got in H1 as (Hi & r1 & Hr1 & ->).
  apply ask_folder_name_got in H2 as (He & Hin & Hg & r2 & Hr2 & ->).
  apply ask_frequency_got in H3 as (r3 & Hr3 & ->).
  repeat split; try done.
  exists (r1 ++ r2 ++ r3)%list. split; [|by rewrite <- !app_assoc].
  rewrite !length_app. destruct r1, r2, r3; cbn; try done; lia.
Qed.

Lemma get_user_input_stop t stdin e :
  get_user_input t stdin = Raise e ->
  e = EOFError \/
  (e = ValueError /\
   exists line date_match,
     line ∈ stdin /\ is_Some (t !! [strip line]) /\
     date_prefix (strip line) = Some date_match /\
     strptime_ymd date_match = Raise ValueError).
Proof.
  unfold get_user_input.
  destruct (ask_inception_date stdin) as [[i stdin1]|e1|] eqn:H1;
    cbn [mbind res_bind]; [| |done].
  2: { intros [= <-]. left. by apply ask_inception_date_raises in H1. }
  destruct (ask_folder_name t stdin1) as [[[e' n] stdin2]|e2|] eqn:H2;
    cbn [mbind res_bind]; [| |done].
  2: { intros [= <-].
       apply ask_folder_name_raises in H2
         as [-> | (-> & line & g & Hl & ?)]; [by left|right].
       split; [done|]. exists line, g. split; [|done].
       apply ask_inception_date_got in H1 as (_ & read & _ & ->).
       apply elem_of_app. by right. }
  destruct (ask_frequency stdin2) as [[f' stdin3]|e3|] eqn:H3;
    cbn [mbind res_bind]; [done| |done].
  intros [= <-]. left. by apply ask_frequency_raises in H3.
Qed.

Lemma get_user_input_settles t stdin : get_user_input t stdin <> Unfinished.
Proof.
  unfold get_user_input.
  pose proof (ask_inception_date_settles stdin).
  destruct (ask_inception_date stdin) as [[i stdin1]|e1|];
    cbn [mbind res_bind]; [|done|done].
  pose proof (ask_folder_name_settles t stdin1).
  destruct (ask_folder_name t stdin1) as [[[e' n] stdin2]|e2|];
    cbn [mbind res_bind]; [|done|done].
  pose proof (ask_frequency_settles stdin2).
  by destruct (ask_frequency stdin2) as [[f' stdin3]|e3|].
Qed.

(** ** Period ends and anchors *)

(** After a whole period that has a next anchor there is a next day. *)
Lemma next_anchor_tomorrow dt f next :
  valid dt ->
  get_next_period_end (last_day_of_unit dt f) f = Ok next ->
  exists t, tomorrow (last_day_of_unit dt f) = Ok t.
Proof.
  intros Hv Hnext.
  pose proof (last_day_of_unit_valid dt f Hv) as Hpv.
  destruct (get_next_period_end_inv _ f next Hpv Hnext) as [Hnv Hlt].
  by apply (tomorrow_ok _ next).
Qed.

(** X4.  [get_period_end_date] on every valid date: under [monthly] in
    December 9999 it raises [OverflowError]; everywhere else it returns
    the last day of the day, month, quarter or year that holds its
    argument, which is a valid date, is not before the argument and lies
    in the same unit. *)
Theorem get_period_end_date_last_day dt f :
  valid dt ->
  (f = monthly /\ year dt = 9999 /\ month dt = 12 ->
   get_period_end_date dt f = Raise OverflowError) /\
  (~ (f = monthly /\ year dt = 9999 /\ month dt = 12) ->
   get_period_end_date dt f = Ok (last_day_of_unit dt f) /\
   valid (last_day_of_unit dt f) /\
   leb dt (last_day_of_unit dt f) = true /\
   same_unit f dt (last_day_of_unit dt f)).
Proof.
  intros Hv. split.
  - intros (-> & Hy & Hm). by apply get_period_end_date_overflow.
  - intros Hn. split; [by apply get_period_end_date_spec|].
    split; [by apply last_day_of_unit_valid|].
    split; [by apply last_day_of_unit_ge|by apply last_day_of_unit_same].
Qed.

Lemma get_period_end_date_last_day_witness :
  (monthly = monthly /\ year (Datetime 2024 2 10) = 9999 /\
   month (Datetime 2024 2 10) = 12 ->
   get_period_end_date (Datetime 2024 2 10) monthly = Raise OverflowError) /\
  (~ (monthly = monthly /\ year (Datetime 2024 2 10) = 9999 /\
      month (Datetime 2024 2 10) = 12) ->
   get_period_end_date (Datetime 2024 2 10) monthly
     = Ok (last_day_of_unit (Datetime 2024 2 10) monthly) /\
   valid (last_day_of_unit (Datetime 2024 2 10) monthly) /\
   leb (Datetime 2024 2 10) (last_day_of_unit (Datetime 2024 2 10) monthly)
     = true /\
   same_unit monthly (Datetime 2024 2 10)
     (last_day_of_unit (Datetime 2024 2 10) monthly)).
Proof. apply (get_period_end_date_last_day (Datetime 2024 2 10) monthly). reflexivity. Defined.

(** X5.  A period end is its own period end: what [get_period_end_date]
    returns for a valid date, it returns again when given its result. *)
Theorem get_period_end_date_idempotent dt f period_end :
  valid dt -> get_period_end_date dt f = Ok period_end ->
  get_period_end_date period_end f = Ok period_end.
Proof.
  intros Hv H. pose proof (get_period_end_date_inv dt f _ Hv H) as ->.
  rewrite <- H. symmetry. apply get_period_end_date_same_unit;
    [done|by apply last_day_of_unit_valid|by apply last_day_of_unit_same].
Qed.

Lemma get_period_end_date_idempotent_witness :
  get_period_end_date (Datetime 2023 6 30) quarterly = Ok (Datetime 2023 6 30).
Proof.
  apply (get_period_end_date_idempotent (Datetime 2023 5 17) quarterly).
  - reflexivity.
  - reflexivity.
Defined.

(** X6.  [get_period_end_date] is monotone: of two valid dates, the later
    one has no earlier period end. *)
Theorem get_period_end_date_monotone a b f end_a end_b :
  valid a -> valid b -> leb a b = true ->
  get_period_end_date a f = Ok end_a -> get_period_end_date b f = Ok end_b ->
  leb end_a end_b = true.
Proof.
  intros Ha Hb Hle ->%get_period_end_date_inv ->%get_period_end_date_inv;
    try done.
  by apply last_day_of_unit_mono.
Qed.

(** X7.  After a whole period, the anchor that [get_next_period_end]
    gives lies in the unit that begins on the day after the period end: it
    is not before that day and has the same period end, so whole periods
    follow each other without a gap. *)
Theorem next_anchor_opens_next_unit dt f period_end next :
  valid dt ->
  get_period_end_date dt f = Ok period_end ->
  get_next_period_end period_end f = Ok next ->
  exists t,
    tomorrow period_end = Ok t /\
    toordinal t = toordinal period_end + 1 /\
    same_unit f t next /\
    leb t next = true /\
    get_period_end_date next f = get_period_end_date t f.
Proof.
  intros Hv ->%get_period_end_date_inv Hnext; [|done].
  pose proof (last_day_of_unit_valid dt f Hv) as Hpv.
  destruct (next_anchor_tomorrow dt f next Hv Hnext) as [t Ht].
  destruct (tomorrow_valid_ordinal _ _ Hpv Ht) as [Htv Hto].
  destruct (get_next_period_end_inv _ f next Hpv Hnext) as [Hnv Hlt].
  pose proof (next_anchor_same_unit dt f next t Hv Hnext Ht) as Hsame.
  exists t. repeat split; try done.
  - apply leb_le. apply ltb_lt in Hlt.
    pose proof (toordinal_lt _ _ Hpv Hnv ltac:(by apply ltb_lt)) as Ho.
    destruct (ltb next t) eqn:E; [|by apply leb_le, ltb_false_leb].
    pose proof (toordinal_lt _ _ Hnv Htv E). lia.
  - symmetry. by apply get_period_end_date_same_unit.
Qed.

Lemma get_period_end_date_monotone_witness :
  leb (Datetime 2023 3 31) (Datetime 2023 6 30) = true.
Proof.
  apply (get_period_end_date_monotone (Datetime 2023 2 10) (Datetime 2023 4 1)
           quarterly (Datetime 2023 3 31) (Datetime 2023 6 30));
    reflexivity.
Defined.

Lemma next_anchor_opens_next_unit_witness :
  exists t,
    tomorrow (Datetime 2024 1 31) = Ok t /\
    toordinal t = toordinal (Datetime 2024 1 31) + 1 /\
    same_unit monthly t (Datetime 2024 2 29) /\
    leb t (Datetime 2024 2 29) = true /\
    get_period_end_date (Datetime 2024 2 29) monthly
    = get_period_end_date t monthly.
Proof.
  apply (next_anchor_opens_next_unit (Datetime 2024 1 15) monthly
           (Datetime 2024 1 31) (Datetime 2024 2 29)).
  - reflexivity.
  - reflexivity.
  - reflexivity.
Defined.

(** ** Folders of periods *)

Lemma only_new_folders_is_Some t t' p :
  only_new_folders t t' -> is_Some (t !! p) -> is_Some (t' !! p).
Proof.
  intros H Hp. destruct (H p) as [-> | (Hn & _)]; [done|].
  rewrite Hn in Hp. by destruct Hp.
Qed.

Lemma folders_grown_refl w : folders_grown w w.
Proof. split; [done|apply only_new_folders_refl]. Qed.

Lemma folders_grown_trans w1 w2 w3 :
  folders_grown w1 w2 -> folders_grown w2 w3 -> folders_grown w1 w3.
Proof.
  intros [H1 G1] [H2 G2]. split; [congruence|].
  by apply (only_new_folders_trans _ (fs w2)).
Qed.

Lemma period_folder_made_grown w w' name :
  folders_grown w w' ->
  period_folder_made (fs w) name -> period_folder_made (fs w') name.
Proof.
  intros [_ Hg] [H1 H2]. split.
  - by apply (only_new_folders_is_Some (fs w)).
  - intros sub Hsub. apply (only_new_folders_is_Some (fs w)); auto.
Qed.

Lemma makedirs_made c p w w' :
  makedirs (c :: p) w = (Ok tt, w') -> fs w' !! (c :: p) = Some Dir.
Proof.
  unfold makedirs.
  destruct (rev (c :: p)) as [|x rhead] eqn:Hrev.
  { apply (f_equal length) in Hrev. rewrite length_rev in Hrev. done. }
  cbn [makedirs_rev]. rewrite <- Hrev, rev_involutive.
  intros (? & w1 & _ & H)%bind_run_inv.
  rewrite mkdir_run in H.
  destruct (fs w1 !! (c :: p)); [done|].
  destruct (is_dir (fs w1) (removelast (c :: p))).
  - injection H as <-. cbn [fs]. apply lookup_insert_eq.
  - by destruct (fs w1 !! removelast (c :: p)).
Qed.

(** [if not os.path.exists(p): os.makedirs(p)]: when it returns, [p]
    exists, and nothing but new folders has been added. *)
Lemma ensure_folder_made c p w w' :
  (length (c :: p) <= 2)%nat ->
  (e ← path_exists (c :: p); unless e (makedirs (c :: p))) w = (Ok tt, w') ->
  folders_grown w w' /\ is_Some (fs w' !! (c :: p)).
Proof.
  intros Hlen H. split.
  - replace w' with
      ((e ← path_exists (c :: p); unless e (makedirs (c :: p))) w).2
      by (by rewrite H).
    apply keeps_run; [|apply folders_grown_refl].
    apply keeps_bind; [apply keeps_path_exists|].
    intros e. by apply keeps_unless, keeps_makedirs.
  - erewrite bind_run_ok in H; [|apply path_exists_run].
    destruct (bool_decide (is_Some (fs w !! (c :: p)))) eqn:E.
    + injection H as <-. by apply bool_decide_eq_true in E.
    + cbn [unless] in H. apply makedirs_made in H. by rewrite H.
Qed.

Lemma ensure_subfolders_made name subs w w' :
  for_each subs (fun subfolder =>
    e ← path_exists ([name] ++ [subfolder]);
    unless e (makedirs ([name] ++ [subfolder]))) w = (Ok tt, w') ->
  folders_grown w w' /\
  forall sub, sub ∈ subs -> is_Some (fs w' !! [name; sub]).
Proof.
  revert w. induction subs as [|s subs IH]; intros w; cbn [for_each].
  - intros [= <-]. split; [apply folders_grown_refl|].
    intros sub Hsub. by apply elem_of_nil in Hsub.
  - intros ([] & w1 & H1 & H2)%bind_run_inv.
    apply ensure_folder_made in H1 as [G1 E1]; [|cbn; lia].
    apply IH in H2 as [G2 E2].
    split; [by apply (folders_grown_trans _ w1)|].
    intros sub [-> | Hsub]%elem_of_cons; [|by apply E2].
    destruct G2 as [_ G2]. by apply (only_new_folders_is_Some (fs w1)).
Qed.

Lemma lift_run_inv {A} (r : res A) w a w' :
  lift r w = (Ok a, w') -> r = Ok a /\ w' = w.
Proof. unfold lift. by intros [= -> ->]. Qed.

(** What the loop returns begins with the folders it was given. *)
Lemma create_folder_loop_prefix budget end_date f current acc w folders w' :
  create_folder_loop budget end_date f current acc w = (Ok folders, w') ->
  acc `prefix_of` folders.
Proof.
  revert current acc w.
  induction budget as [|budget IH]; intros current acc w;
    cbn [create_folder_loop]; (destruct (leb current end_date);
      [|by intros [= <- <-]]); [done|].
  intros (pe0 & w1 & _ & H)%bind_run_inv. cbv zeta in H.
  apply bind_run_inv in H as (e & w2 & _ & H).
  apply bind_run_inv in H as (? & w3 & _ & H).
  apply bind_run_inv in H as (? & w4 & _ & H).
  destruct (leb end_date _).
  - injection H as <- <-. by apply prefix_app_r.
  - apply bind_run_inv in H as (next & w5 & _ & H).
    apply IH in H. etrans; [|exact H]. by apply prefix_app_r.
Qed.

Lemma create_folder_loop_made budget end_date f current acc w folders w' :
  Forall (period_folder_made (fs w)) acc ->
  create_folder_loop budget end_date f current acc w = (Ok folders, w') ->
  Forall (period_folder_made (fs w')) folders.
Proof.
  revert current acc w.
  induction budget as [|budget IH]; intros current acc w Hacc;
    cbn [create_folder_loop]; (destruct (leb current end_date);
      [|by intros [= <- <-]]); [done|].
  intros (pe0 & w1 & [_ ->]%lift_run_inv & H)%bind_run_inv. cbv zeta in H.
  set (pe := if ltb end_date pe0 then end_date else pe0) in *.
  apply bind_run_inv in H as (e & w2 & H1 & H).
  apply bind_run_inv in H as ([] & w3 & H2 & H).
  assert (Htop : folders_grown w w3 /\ is_Some (fs w3 !! [strftime_ymd pe])).
  { apply ensure_folder_made; [cbn; lia|].
    erewrite bind_run_ok; [exact H2|exact H1]. }
  destruct Htop as [G1 E1].
  apply bind_run_inv in H as ([] & w4 & H3 & H).
  apply ensure_subfolders_made in H3 as [G2 E2].
  assert (Hacc' : Forall (period_folder_made (fs w4))
                    (acc ++ [strftime_ymd pe])).
  { apply Forall_app. split.
    - eapply Forall_impl; [exact Hacc|]. intros name.
      apply period_folder_made_grown. by apply (folders_grown_trans _ w3).
    - constructor; [|done]. split; [|done].
      destruct G2 as [_ G2]. by apply (only_new_folders_is_Some (fs w3)). }
  destruct (leb end_date pe).
  - by injection H as <- <-.
  - apply bind_run_inv in H as (next & w5 & [_ ->]%lift_run_inv & H).
    by apply IH in H.
Qed.

Lemma ensure_subfolders_skip name subs w :
  (forall sub, sub ∈ subs -> is_Some (fs w !! [name; sub])) ->
  for_each subs (fun subfolder =>
    e ← path_exists ([name] ++ [subfolder]);
    unless e (makedirs ([name] ++ [subfolder]))) w = (Ok tt, w).
Proof.
  induction subs as [|s subs IH]; intros H; cbn [for_each]; [done|].
  erewrite bind_run_ok; [apply IH|].
  - intros sub Hsub. apply H. by right.
  - erewrite bind_run_ok; [|apply path_exists_run].
    rewrite bool_decide_true; [done|]. apply H. by left.
Qed.

(** In a world that has all the folders a run returned, the same run makes
    nothing and returns the same. *)
Lemma create_folder_loop_again budget end_date f current acc w folders w' w2 :
  create_folder_loop budget end_date f current acc w = (Ok folders, w') ->
  Forall (period_folder_made (fs w2)) folders ->
  create_folder_loop budget end_date f current acc w2 = (Ok folders, w2).
Proof.
  revert current acc w.
  induction budget as [|budget IH]; intros current acc w;
    cbn [create_folder_loop]; (destruct (leb current end_date);
      [|by intros [= <- <-]]); [done|].
  intros Hrun Hmade.
  pose proof Hrun as (pe0 & w1 & [Hpe ->]%lift_run_inv & H)%bind_run_inv.
  cbv zeta in H.
  erewrite bind_run_ok; [|unfold lift; by rewrite Hpe]. cbv zeta.
  set (pe := if ltb end_date pe0 then end_date else pe0) in *.
  apply bind_run_inv in H as (e & w2' & _ & H).
  apply bind_run_inv in H as ([] & w3 & _ & H).
  apply bind_run_inv in H as ([] & w4 & _ & H).
  assert (Hin : strftime_ymd pe ∈ folders).
  { destruct (leb end_date pe).
    - injection H as <- _. apply elem_of_app. right. by left.
    - apply bind_run_inv in H as (next & w5 & _ & H).
      apply create_folder_loop_prefix in H as [k ->].
      apply elem_of_app. left. apply elem_of_app. right. by left. }
  rewrite List.Forall_forall in Hmade.
  destruct (Hmade (strftime_ymd pe)) as [Htop Hsubs];
    [by apply list_elem_of_In|].
  erewrite bind_run_ok; [|apply path_exists_run].
  rewrite bool_decide_true by done. cbn [unless].
  erewrite bind_run_ok; [|reflexivity].
  erewrite bind_run_ok; [|by apply ensure_subfolders_skip].
  destruct (leb end_date pe).
  - by injection H as <- _.
  - apply bind_run_inv in H as (next & w5 & [Hnext ->]%lift_run_inv & H).
    erewrite bind_run_ok; [|unfold lift; by rewrite Hnext].
    eapply IH; [exact H|]. by apply List.Forall_forall.
Qed.

(** One iteration of the loop, where no file is in the way. *)
Lemma create_folder_loop_step budget end_date f current acc h t :
  valid current -> valid end_date ->
  ~ (f = monthly /\ year end_date = 9999 /\ month end_date = 12) ->
  no_file_in_the_way t ->
  leb current end_date = true ->
  exists t2,
    only_new_folders t t2 /\
    create_folder_loop (S budget) end_date f current acc (World h t) =
    let pe := clamped end_date (last_day_of_unit current f) in
    if leb end_date pe then (Ok (acc ++ [strftime_ymd pe])%list, World h t2)
    else (next ← lift (get_next_period_end pe f);
          create_folder_loop budget end_date f next
            (acc ++ [strftime_ymd pe])%list) (World h t2).
Proof.
  intros Hc He Hmax Hno Hle.
  cbn [create_folder_loop]. rewrite Hle.
  assert (Hpe : get_period_end_date current f
                = Ok (last_day_of_unit current f)).
  { apply get_period_end_date_spec; [done|].
    intros (-> & Hy & Hm). apply Hmax. apply leb_le in Hle.
    pose proof He as (? & ? & ?)%valid_fields. split; [done|lia]. }
  erewrite bind_run_ok; [|unfold lift; by rewrite Hpe].
  cbv zeta. fold (clamped end_date (last_day_of_unit current f)).
  set (pe := clamped end_date (last_day_of_unit current f)).
  erewrite bind_run_ok; [|apply path_exists_run]. cbn [fs].
  destruct (ensure_top_run (strftime_ymd pe) h t (Hno pe))
    as (t1 & Hrun1 & Hnew1 & Hd1).
  erewrite bind_run_ok; [|exact Hrun1].
  destruct (ensure_subfolders_run (strftime_ymd pe) subfolders h t1 Hd1)
    as (t2 & Hrun2 & Hnew2 & Hd2).
  erewrite bind_run_ok; [|exact Hrun2].
  exists t2. split; [by apply (only_new_folders_trans _ t1)|].
  by destruct (leb end_date pe).
Qed.

Lemma clamped_daily end_date current :
  leb current end_date = true ->
  clamped end_date (last_day_of_unit current daily) = current.
Proof.
  intros H. unfold clamped, leb in *. cbn [last_day_of_unit].
  by destruct (ltb end_date current).
Qed.

Lemma toordinal_leb a b :
  valid a -> valid b -> toordinal a <= toordinal b -> leb a b = true.
Proof.
  intros Ha Hb H. unfold leb. destruct (ltb b a) eqn:E; [|done].
  pose proof (toordinal_lt _ _ Hb Ha E). lia.
Qed.

Lemma create_folder_loop_daily budget end_date current acc w :
  valid current -> valid end_date ->
  no_file_in_the_way (fs w) ->
  leb current end_date = true ->
  toordinal end_date - toordinal current + 1 <= Z.of_nat budget ->
  exists dates w',
    create_folder_loop budget end_date daily current acc w
      = (Ok (acc ++ map strftime_ymd dates)%list, w') /\
    length dates = Z.to_nat (toordinal end_date - toordinal current + 1) /\
    forall k d, dates !! k = Some d ->
      valid d /\ toordinal d = toordinal current + Z.of_nat k.
Proof.
  revert current acc w.
  induction budget as [|budget IH]; intros current acc w Hc He Hno Hle Hb.
  { pose proof (toordinal_le _ _ Hc He Hle). lia. }
  destruct w as [h t]. cbn [fs] in Hno.
  destruct (create_folder_loop_step budget end_date daily current acc h t)
    as (t2 & Hnew & ->); try done; [by intros [? _]|].
  cbv zeta. rewrite clamped_daily by done.
  pose proof (toordinal_le _ _ Hc He Hle) as Hord.
  destruct (leb end_date current) eqn:Hend.
  - pose proof (leb_antisym _ _ Hle Hend) as ->.
    exists [end_date]. eexists. split; [reflexivity|].
    split; [cbn; lia|].
    intros [|k] d; [|done]. intros [= <-]. split; [done|lia].
  - apply leb_false_ltb in Hend.
    destruct (tomorrow_ok current end_date Hc He Hend) as [next Hnext].
    destruct (tomorrow_valid_ordinal _ _ Hc Hnext) as [Hnv Hno'].
    pose proof (toordinal_lt _ _ Hc He Hend) as Hlt.
    erewrite bind_run_ok;
      [|unfold lift; cbn [get_next_period_end];
        by rewrite add_days_1, Hnext].
    destruct (IH next (acc ++ [strftime_ymd current])%list (World h t2))
      as (dates & w' & Hrun & Hlen & Hdates); try done.
    { by apply (no_file_in_the_way_grown t). }
    { apply toordinal_leb; [done|done|lia]. }
    { lia. }
    exists (current :: dates), w'. rewrite Hrun, <- app_assoc.
    split; [done|]. split; [cbn [length]; lia|].
    intros [|k] d.
    + intros [= <-]. split; [done|lia].
    + intros Hk. destruct (Hdates k d Hk) as [Hv Ho]. split; [done|lia].
Qed.

(** What the loop returns where no file is in the way and the end of year
    9999 is not met. *)
Lemma create_folder_loop_periods budget end_date f current acc w :
  valid current -> valid end_date ->
  ~ (f = monthly /\ year end_date = 9999 /\ month end_date = 12) ->
  no_file_in_the_way (fs w) ->
  leb current end_date = true ->
  toordinal end_date - toordinal current + 1 <= Z.of_nat budget ->
  exists dates w',
    create_folder_loop budget end_date f current acc w
      = (Ok (acc ++ map strftime_ymd dates)%list, w') /\
    head dates = Some (clamped end_date (last_day_of_unit current f)) /\
    Forall (fun d => valid d /\ leb current d = true /\
                     leb d end_date = true) dates /\
    StronglySorted (fun a b => ltb a b = true) dates /\
    exists final, last dates = Some final /\
      (final = end_date \/
       exists next, get_next_period_end final f = Ok next /\
                    ltb end_date next = true).
Proof.
  revert current acc w.
  induction budget as [|budget IH]; intros current acc w Hc He Hmax Hno Hle Hb.
  { pose proof (toordinal_le _ _ Hc He Hle). lia. }
  destruct w as [h t]. cbn [fs] in Hno.
  destruct (create_folder_loop_step budget end_date f current acc h t)
    as (t2 & Hnew & ->); try done.
  cbv zeta.
  destruct (clamped_between end_date current f Hc He Hle)
    as (Hpv & Hcp & Hpe_le).
  set (pe := clamped end_date (last_day_of_unit current f)) in *.
  destruct (leb end_date pe) eqn:Hend.
  - exists [pe]. eexists. split; [reflexivity|]. split; [done|].
    split; [by repeat constructor|]. split; [by repeat constructor|].
    exists pe. split; [done|]. left. by apply leb_antisym.
  - apply leb_false_ltb in Hend.
    assert (Hpe' : pe = last_day_of_unit current f).
    { subst pe. unfold clamped in *.
      destruct (ltb end_date (last_day_of_unit current f)); [|done].
      apply ltb_lt in Hend. lia. }
    destruct (get_next_period_end_ok current f end_date Hc He)
      as [next Hnext]; [by rewrite <- Hpe'|].
    rewrite <- Hpe' in Hnext.
    erewrite bind_run_ok; [|unfold lift; by rewrite Hnext].
    destruct (get_next_period_end_inv pe f next Hpv Hnext) as [Hnv Hlt].
    destruct (leb next end_date) eqn:Hnle.
    + destruct (IH next (acc ++ [strftime_ymd pe])%list (World h t2))
        as (dates & w' & Hrun & Hhd & Hall & Hsort & final & Hlast & Hfinal);
        try done.
      { by apply (no_file_in_the_way_grown t). }
      { pose proof (toordinal_le _ _ Hc Hpv Hcp).
        pose proof (toordinal_lt _ _ Hpv Hnv Hlt). lia. }
      exists (pe :: dates), w'. rewrite Hrun, <- app_assoc.
      split; [done|]. split; [done|]. split; [|split].
      * constructor; [done|].
        eapply Forall_impl; [exact Hall|]. intros d (H0 & H1 & H2).
        split; [done|]. split; [|done].
        eapply leb_trans; [exact Hcp|].
        eapply leb_trans; [by apply ltb_leb|exact H1].
      * constructor; [done|].
        eapply Forall_impl; [exact Hall|]. intros d (_ & H1 & _).
        apply ltb_lt. apply ltb_lt in Hlt. apply leb_le in H1. lia.
      * exists final. split; [|done].
        destruct dates; [done|]. by rewrite last_cons, Hlast.
    + exists [pe]. eexists. split.
      * destruct budget; cbn [create_folder_loop]; rewrite Hnle; reflexivity.
      * split; [done|]. split; [by repeat constructor|].
        split; [by repeat constructor|].
        exists pe. split; [done|]. right. exists next. split; [done|].
        by apply leb_false_ltb.
Qed.


(** X8.  However it ends, [create_folder_structure] leaves the objects in
    memory alone, adds nothing but folders at most two components deep,
    and keeps every file and folder that was there as it was. *)
Theorem create_folder_structure_only_adds_folders inception_date end_date f w :
  let w' := (create_folder_structure inception_date end_date f w).2 in
  heap w' = heap w /\
  only_new_folders (fs w) (fs w') /\
  forall p n, fs w !! p = Some n -> fs w' !! p = Some n.
Proof.
  intros w'.
  assert (H : folders_grown w w').
  { apply keeps_run; [apply keeps_create_folder_structure|].
    apply folders_grown_refl. }
  destruct H as [Hh Hg]. split; [done|]. split; [done|].
  intros p n Hp. destruct (Hg p) as [-> | (Hn & _)]; [done|congruence].
Qed.

(** X9.  When [create_folder_structure] returns, every folder it names
    exists, together with its subfolders [context_data], [perf] and
    [portfolio]. *)
Theorem create_folder_structure_makes_folders
    inception_date end_date f w folders w' :
  create_folder_structure inception_date end_date f w = (Ok folders, w') ->
  Forall (period_folder_made (fs w')) folders.
Proof. intros H. by apply create_folder_loop_made in H. Qed.

Lemma create_folder_structure_makes_folders_witness :
  Forall (period_folder_made
            (fs (create_folder_structure (Datetime 2023 1 15)
                   (Datetime 2023 3 20) monthly empty_world).2))
         ["2023-01-31"; "2023-02-28"]%string.
Proof.
  apply (create_folder_structure_makes_folders (Datetime 2023 1 15)
           (Datetime 2023 3 20) monthly empty_world).
  vm_compute. reflexivity.
Defined.

(** X10.  Run again with the same arguments in the world it left,
    [create_folder_structure] returns the same names and changes nothing:
    folders that exist are not replaced. *)
Theorem create_folder_structure_idempotent
    inception_date end_date f w folders w' :
  create_folder_structure inception_date end_date f w = (Ok folders, w') ->
  create_folder_structure inception_date end_date f w' = (Ok folders, w').
Proof.
  intros H. eapply create_folder_loop_again; [exact H|].
  by apply create_folder_loop_made in H.
Qed.

Lemma create_folder_structure_idempotent_witness :
  let w' := (create_folder_structure (Datetime 2023 1 15)
               (Datetime 2023 3 20) monthly empty_world).2 in
  create_folder_structure (Datetime 2023 1 15) (Datetime 2023 3 20) monthly w'
  = (Ok ["2023-01-31"; "2023-02-28"]%string, w').
Proof.
  apply (create_folder_structure_idempotent (Datetime 2023 1 15)
           (Datetime 2023 3 20) monthly empty_world).
  vm_compute. reflexivity.
Defined.

(** X11.  Under [daily], from an inception date not after the end date
    and with no file in the way, the folders returned are those of every
    day of the range: there are as many as the range has days, the k-th
    is the k-th day after the inception date, and the last is the end
    date. *)
Theorem create_folder_structure_daily inception_date end_date w :
  valid inception_date -> valid end_date ->
  leb inception_date end_date = true ->
  no_file_in_the_way (fs w) ->
  exists dates w',
    create_folder_structure inception_date end_date daily w
      = (Ok (map strftime_ymd dates), w') /\
    length dates = range_length inception_date end_date /\
    (forall k d, dates !! k = Some d ->
       valid d /\ toordinal d = toordinal inception_date + Z.of_nat k) /\
    last dates = Some end_date.
Proof.
  intros Hi He Hle Hno.
  destruct (create_folder_loop_daily (range_length inception_date end_date)
              end_date inception_date [] w)
    as (dates & w' & Hrun & Hlen & Hdates); try done.
  { unfold range_length. lia. }
  exists dates, w'. split; [exact Hrun|]. split; [exact Hlen|].
  split; [exact Hdates|].
  pose proof (toordinal_le _ _ Hi He Hle) as Hord.
  rewrite last_lookup.
  destruct (lookup_lt_is_Some_2 dates (pred (length dates))) as [d Hd];
    [lia|].
  rewrite Hd. f_equal. destruct (Hdates _ _ Hd) as [Hv Ho].
  apply toordinal_inj; [done|done|lia].
Qed.

Lemma no_file_in_the_way_empty : no_file_in_the_way (fs empty_world).
Proof. intros d c. unfold empty_world. cbn [fs]. by rewrite lookup_empty. Qed.

Lemma create_folder_structure_daily_witness :
  exists dates w',
    create_folder_structure (Datetime 2023 1 15) (Datetime 2023 1 20) daily
      empty_world = (Ok (map strftime_ymd dates), w') /\
    length dates = range_length (Datetime 2023 1 15) (Datetime 2023 1 20) /\
    (forall k d, dates !! k = Some d ->
       valid d /\
       toordinal d = toordinal (Datetime 2023 1 15) + Z.of_nat k) /\
    last dates = Some (Datetime 2023 1 20).
Proof.
  apply (create_folder_structure_daily (Datetime 2023 1 15)
           (Datetime 2023 1 20) empty_world).
  - reflexivity.
  - reflexivity.
  - reflexivity.
  - apply no_file_in_the_way_empty.
Defined.

(** X12.  Away from December 9999 under [monthly], and with no file in
    the way, [create_folder_structure] returns the names of period ends of
    which the first is the period end of the inception date, cut back to
    the end date; all are valid dates between the inception date and the
    end date; they increase strictly; and the last is the end date, or a
    period end whose next anchor lies after the end date. *)
Theorem create_folder_structure_periods inception_date end_date f w :
  valid inception_date -> valid end_date ->
  leb inception_date end_date = true ->
  ~ (f = monthly /\ year end_date = 9999 /\ month end_date = 12) ->
  no_file_in_the_way (fs w) ->
  exists dates w',
    create_folder_structure inception_date end_date f w
      = (Ok (map strftime_ymd dates), w') /\
    head dates = Some (clamped end_date (last_day_of_unit inception_date f)) /\
    Forall (fun d => valid d /\ leb inception_date d = true /\
                     leb d end_date = true) dates /\
    StronglySorted (fun a b => ltb a b = true) dates /\
    exists final, last dates = Some final /\
      (final = end_date \/
       exists next, get_next_period_end final f = Ok next /\
                    ltb end_date next = true).
Proof.
  intros Hi He Hle Hmax Hno.
  apply (create_folder_loop_periods _ end_date f inception_date [] w);
    try done.
  unfold range_length. lia.
Qed.

Lemma create_folder_structure_periods_witness :
  exists dates w',
    create_folder_structure (Datetime 2023 1 1) (Datetime 2023 7 10) quarterly
      empty_world = (Ok (map strftime_ymd dates), w') /\
    head dates = Some (clamped (Datetime 2023 7 10)
                         (last_day_of_unit (Datetime 2023 1 1) quarterly)) /\
    Forall (fun d => valid d /\ leb (Datetime 2023 1 1) d = true /\
                     leb d (Datetime 2023 7 10) = true) dates /\
    StronglySorted (fun a b => ltb a b = true) dates /\
    exists final, last dates = Some final /\
      (final = Datetime 2023 7 10 \/
       exists next, get_next_period_end final quarterly = Ok next /\
                    ltb (Datetime 2023 7 10) next = true).
Proof.
  apply (create_folder_structure_periods (Datetime 2023 1 1)
           (Datetime 2023 7 10) quarterly empty_world).
  - reflexivity.
  - reflexivity.
  - reflexivity.
  - by intros [? _].
  - apply no_file_in_the_way_empty.
Defined.

(** ** Names of folders and answers to the prompts *)

Lemma isoformat_date_inj a b :
  valid a -> valid b -> isoformat_date a = isoformat_date b -> a = b.
Proof.
  intros Ha Hb H.
  pose proof (strptime_ymd_isoformat_date a Ha) as Hpa.
  rewrite H, strptime_ymd_isoformat_date in Hpa by done. congruence.
Qed.

(** From year 1000 on, [strftime] writes the zero-filled form. *)
Lemma strftime_ymd_isoformat_date dt :
  1000 <= year dt -> strftime_ymd dt = isoformat_date dt.
Proof.
  intros Hy. unfold strftime_ymd, isoformat_date, year_text.
  destruct (Z.ltb_spec (year dt) 10); [lia|].
  destruct (Z.ltb_spec (year dt) 100); [lia|].
  destruct (Z.ltb_spec (year dt) 1000); [lia|done].
Qed.

(** Before year 1000 what [strftime] writes is not read back. *)
Lemma strptime_ymd_strftime_ymd_short dt :
  year dt < 1000 -> strptime_ymd (strftime_ymd dt) = Raise ValueError.
Proof.
  intros Hy. unfold strftime_ymd, year_text, strptime_ymd.
  destruct (Z.ltb_spec (year dt) 10);
    [|destruct (Z.ltb_spec (year dt) 100);
      [|destruct (Z.ltb_spec (year dt) 1000); [|lia]]];
    unfold pad2 at 1;
    repeat first [ progress cbn [split_at]
                 | rewrite digit_is_not
                     by (apply mod_10_digit || (vm_compute; lia))
                 | rewrite Ascii.eqb_refl ];
    rewrite ?split_at_pad2 by (vm_compute; lia); reflexivity.
Qed.

Lemma append_String c s t :
  String.append (String c s) t = String c (String.append s t).
Proof. reflexivity. Qed.

Lemma date_prefix_isoformat_date dt tail :
  date_prefix (String.append (isoformat_date dt) tail)
  = Some (isoformat_date dt).
Proof.
  unfold isoformat_date, pad4, pad2. rewrite !append_String.
  unfold date_prefix. cbn [forallb].
  rewrite !bool_decide_true
    by (rewrite ascii_to_digit_to_ascii by apply mod_10_digit; eauto).
  reflexivity.
Qed.

(** X1.  [validate_date_format] and the texts [YYYYMMDD]: the text of
    eight digits of every valid date is accepted, and
    [strptime(date_str, '%Y%m%d')] reads it back as that date; and every
    text that is accepted has eight characters and is read by [strptime]
    as a valid date. *)
Theorem validate_date_format_dates :
  (forall dt, valid dt ->
     validate_date_format (compact_date dt) = true /\
     strptime_Ymd (compact_date dt) = Ok dt) /\
  (forall date_str, validate_date_format date_str = true ->
     String.length date_str = 8%nat /\
     exists dt, valid dt /\ strptime_Ymd date_str = Ok dt).
Proof.
  split.
  - intros dt Hv. unfold validate_date_format.
    destruct (strptime_Ymd_compact_date dt Hv) as [-> ->]. done.
  - intros date_str (dt & Hv & -> & Hp)%validate_date_format_inv.
    split; [reflexivity|]. by exists dt.
Qed.

(** X13.  The name [strftime('%Y-%m-%d')] gives a period folder, read
    back by [strptime] under the same format: from year 1000 on it is
    read back to the date it was written from, and the pattern of
    [get_user_input] finds it at the start of every name that begins with
    it; before year 1000 the year is written without zeros before it and
    [strptime] raises [ValueError] on the name. *)
Theorem folder_name_round_trip dt :
  valid dt ->
  (1000 <= year dt ->
   strptime_ymd (strftime_ymd dt) = Ok dt /\
   forall tail,
     date_prefix (String.append (strftime_ymd dt) tail)
     = Some (strftime_ymd dt)) /\
  (year dt < 1000 -> strptime_ymd (strftime_ymd dt) = Raise ValueError).
Proof.
  intros Hv. split.
  - intros Hy. rewrite strftime_ymd_isoformat_date by done.
    split; [by apply strptime_ymd_isoformat_date|].
    intros tail. apply date_prefix_isoformat_date.
  - apply strptime_ymd_strftime_ymd_short.
Qed.

Lemma folder_name_round_trip_witness :
  strptime_ymd (strftime_ymd (Datetime 2024 2 29)) = Ok (Datetime 2024 2 29)
  /\ strptime_ymd (strftime_ymd (Datetime 999 12 31)) = Raise ValueError.
Proof.
  split.
  - apply (folder_name_round_trip (Datetime 2024 2 29)); [reflexivity|].
    cbn [year]. lia.
  - apply (folder_name_round_trip (Datetime 999 12 31)); reflexivity.
Defined.

(** X2.  What [get_user_input] returns: both dates are calendar dates,
    the folder name is that of an entry of [DATASETS_DIR], the end date is
    what [strptime] reads from the ten characters [dddd-dd-dd] that the
    folder name begins with, and at least three lines of input have been
    read. *)
Theorem get_user_input_returns
    t stdin inception_date end_date folder_name f rest :
  get_user_input t stdin
    = Ok (inception_date, end_date, folder_name, f, rest) ->
  valid inception_date /\ valid end_date /\
  is_Some (t !! [folder_name]) /\
  (exists date_match,
     date_prefix folder_name = Some date_match /\
     strptime_ymd date_match = Ok end_date) /\
  exists read, (3 <= length read)%nat /\ stdin = (read ++ rest)%list.
Proof. apply get_user_input_got. Qed.

Lemma get_user_input_returns_witness :
  valid (Datetime 2023 1 1) /\ valid (Datetime 2023 2 28) /\
  is_Some (fs source_world !! [source]) /\
  (exists date_match,
     date_prefix source = Some date_match /\
     strptime_ymd date_match = Ok (Datetime 2023 2 28)) /\
  exists read, (3 <= length read)%nat /\
    ["2023-01-01"; " 20230101 "; "nowhere"; "2023-02-28-source";
     "Monthly"; "left"]%string = (read ++ ["left"%string])%list.
Proof.
  apply (get_user_input_returns (fs source_world)
           ["2023-01-01"; " 20230101 "; "nowhere"; "2023-02-28-source";
            "Monthly"; "left"]%string
           (Datetime 2023 1 1) (Datetime 2023 2 28) source monthly
           ["left"%string]).
  vm_compute. reflexivity.
Defined.

(** X3.  The exceptions of [get_user_input]: [EOFError], which [input()]
    raises when the lines of input end before the three answers are
    given, and [ValueError], raised only on an answer that names an
    existing entry whose first ten characters have the shape of a date
    and are no calendar date; there is no other. *)
Theorem get_user_input_raises t stdin e :
  get_user_input t stdin = Raise e ->
  e = EOFError \/
  (e = ValueError /\
   exists line date_match,
     line ∈ stdin /\ is_Some (t !! [strip line]) /\
     date_prefix (strip line) = Some date_match /\
     strptime_ymd date_match = Raise ValueError).
Proof. apply get_user_input_stop. Qed.

Lemma get_user_input_raises_witness :
  ValueError = EOFError \/
  (ValueError = ValueError /\
   exists line date_match,
     line ∈ ["20230101"; "2023-02-30-source"]%string /\
     is_Some (({[ ["2023-02-30-source"%string] := Dir ]} : gmap path node)
                !! [strip line]) /\
     date_prefix (strip line) = Some date_match /\
     strptime_ymd date_match = Raise ValueError).
Proof.
  apply (get_user_input_raises
           ({[ ["2023-02-30-source"%string] := Dir ]} : gmap path node)
           ["20230101"; "2023-02-30-source"]%string ValueError).
  vm_compute. reflexivity.
Defined.

(** ** The objects a filter leaves *)


Lemma filtered_columns lo hi c df : columns (filtered lo hi c df) = columns df.
Proof. reflexivity. Qed.







Lemma lookup_insert_not_dir (t : gmap path node) k c p :
  t !! p <> Some Dir -> <[k := File c]> t !! p <> Some Dir.
Proof.
  intros H. destruct (decide (k = p)) as [-> | Hne].
  - by rewrite lookup_insert_eq.
  - by rewrite lookup_insert_ne.
Qed.



(** ** The loop of [main] over the period folders *)

Section ProcessFolders.
Context (df_ho df_tr : nat) (ho tr : DataFrame) (inception_date : datetime).
Context (Rho : rectangular ho) (Rtr : rectangular tr).
Context (Cho : has_column Valuation_Date ho = true).
Context (Ctr : has_column Transaction_Date tr = true).
Context (Nho : has_column Valuation_Date_Datetime ho = false).
Context (Ntr : has_column Transaction_Date_Datetime tr = false).
Context (Pho : dates_parse Valuation_Date ho).
Context (Ptr : dates_parse Transaction_Date tr).

Lemma process_folders_run dates w :
  heap w !! df_ho = Some ho -> heap w !! df_tr = Some tr ->
  Forall valid dates ->
  Forall (fun d => perf_folder_ready (fs w) (isoformat_date d)) dates ->
  exists w',
    process_folders df_ho df_tr inception_date (map isoformat_date dates) w
      = (Ok tt, w') /\
    objects_kept (heap w) w' /\
    (forall d, d ∈ dates ->
       fs w' !! [isoformat_date d; "perf"; "Holdings.csv"]%string
         = Some (File (csv_of (filtered inception_date d Valuation_Date ho)))
       /\
       fs w' !! [isoformat_date d; "perf"; "Transactions.csv"]%string
         = Some (File (csv_of
                   (filtered inception_date d Transaction_Date tr)))) /\
    (forall p,
       (forall d, d ∈ dates ->
          p <> [isoformat_date d; "perf"; "Holdings.csv"]%string /\
          p <> [isoformat_date d; "perf"; "Transactions.csv"]%string) ->
       fs w' !! p = fs w !! p).
Proof.
  revert w. induction dates as [|d rest IH]; intros w Hho Htr Hvalid Hready.
  - exists w. split; [done|]. split; [by unfold objects_kept|].
    split; [|done]. intros d Hd. by apply elem_of_nil in Hd.
  - apply Forall_cons in Hvalid as [Hd Hvalid].
    apply Forall_cons in Hready as [(Hperf & Oho & Otr) Hready].
    destruct (filter_and_save_csv_run w df_ho df_tr ho tr inception_date d
                (isoformat_date d)) as (w1 & Hrun1 & Hfs1); try done.
    assert (Hk1 : objects_kept (heap w) w1).
    { replace w1 with
        (filter_and_save_csv df_ho df_tr inception_date d (isoformat_date d) w).2
        by (by rewrite Hrun1).
      apply keeps_run; [apply keeps_objects_filter_and_save_csv|].
      by unfold objects_kept. }
    destruct (IH w1) as (w' & Hrun & Hk & Hfiles & Hother).
    { by apply (objects_kept_lookup w). }
    { by apply (objects_kept_lookup w). }
    { done. }
    { eapply Forall_impl; [exact Hready|]. intros d' (H1 & H2 & H3).
      unfold perf_folder_ready. rewrite Hfs1.
      split; [by rewrite !lookup_insert_ne|].
      split; by do 2 apply lookup_insert_not_dir. }
    exists w'. split; [|split; [|split]].
    + unfold process_folders in *. cbn [map for_each].
      erewrite bind_run_ok; [exact Hrun|].
      erewrite bind_run_ok;
        [exact Hrun1|unfold lift; by rewrite strptime_ymd_isoformat_date].
    + unfold objects_kept in *. by etrans.
    + intros d0 Hd0.
      destruct (decide (d0 ∈ rest)) as [Hin | Hout]; [by apply Hfiles|].
      apply elem_of_cons in Hd0 as [-> | ?]; [|done].
      assert (Hne : forall d', d' ∈ rest -> isoformat_date d <> isoformat_date d').
      { intros d' Hd' Heq. apply Hout.
        rewrite List.Forall_forall in Hvalid.
        rewrite (isoformat_date_inj d d'); [done|done| |done].
        apply Hvalid. by apply list_elem_of_In. }
      rewrite !Hother, Hfs1.
      * rewrite lookup_insert_ne by done. by rewrite !lookup_insert_eq.
      * intros d' Hd'. specialize (Hne d' Hd'). split; congruence.
      * intros d' Hd'. specialize (Hne d' Hd'). split; congruence.
    + intros p Hp. rewrite Hother, Hfs1.
      * destruct (Hp d) as [H1 H2]; [by left|].
        by rewrite !lookup_insert_ne.
      * intros d' Hd'. apply Hp. by right.
Qed.
End ProcessFolders.

(** ** Tables the filter cannot read *)

















(** ** Loading *)

Lemma zip_with_strip i (rs : list (list cell)) :
  zip_with (fun r v => <[i := v]> r) rs
    (map strip_cell (map (fun r => nth i r (Str EmptyString)) rs))
  = map (strip_field i) rs.
Proof. induction rs as [|r rs IH]; [done|]. cbn. by rewrite IH. Qed.

Lemma select_rows_filter {A B} (P : B -> bool) (g : A -> B) (rs : list A) :
  select_rows (map P (map g rs)) rs = List.filter (fun r => P (g r)) rs.
Proof.
  induction rs as [|r rs IH]; [done|]. cbn. rewrite IH.
  by destruct (P (g r)).
Qed.

Lemma read_csv_run p f w :
  fs w !! p = Some (File f) ->
  read_csv p w =
  (Ok (length (heap w)),
   World (heap w ++ [Frame (header f) (map (map Str) (lines f))]) (fs w)).
Proof.
  intros H. unfold read_csv. rewrite bind_run. unfold get_fs.
  cbv beta iota. by rewrite H.
Qed.

Lemma strip_column_run l c i df w :
  heap w !! l = Some df -> index_of c (columns df) = Some i ->
  strip_column l c w =
  (Ok tt,
   World (<[l := Frame (columns df) (map (strip_field i) (rows df))]> (heap w))
         (fs w)).
Proof.
  intros Hl Hi. unfold strip_column.
  rewrite bind_run. unfold deref. rewrite Hl.
  rewrite bind_run. unfold lift, get_column. rewrite Hi.
  unfold assign, set_column. rewrite Hi. by rewrite zip_with_strip.
Qed.

Lemma drop_header_rows_run l c i df w :
  heap w !! l = Some df -> index_of c (columns df) = Some i ->
  drop_header_rows l c w =
  (Ok (length (heap w)),
   World (heap w ++
            [Frame (columns df)
               (List.filter
                  (fun r => bool_decide (nth i r (Str EmptyString) <> Str c))
                  (rows df))])
         (fs w)).
Proof.
  intros Hl Hi. unfold drop_header_rows.
  rewrite bind_run. unfold deref. rewrite Hl.
  rewrite bind_run. unfold lift, get_column. rewrite Hi.
  unfold alloc.
  by rewrite (select_rows_filter (fun v => bool_decide (v <> Str c))).
Qed.

Lemma strip_field_length i r : length (strip_field i r) = length r.
Proof. unfold strip_field. apply length_insert. Qed.

Lemma rectangular_cleaned c i f : regular f -> rectangular (cleaned c i f).
Proof.
  unfold regular, rectangular, cleaned. cbn [rows columns].
  rewrite !List.Forall_forall. intros H r [Hr _]%filter_In.
  apply in_map_iff in Hr as (r0 & <- & Hr0).
  apply in_map_iff in Hr0 as (l & <- & Hl).
  rewrite strip_field_length, length_map. by apply H.
Qed.

Lemma load_csv_files_run source_folder ho_file tr_file i j w :
  fs w !! [source_folder; "perf"; "Holdings.csv"]%string
    = Some (File ho_file) ->
  fs w !! [source_folder; "perf"; "Transactions.csv"]%string
    = Some (File tr_file) ->
  index_of Valuation_Date (header ho_file) = Some i ->
  index_of Transaction_Date (header tr_file) = Some j ->
  exists raw_ho raw_tr,
    load_csv_files source_folder w =
    (Ok ((length (heap w) + 2)%nat, (length (heap w) + 3)%nat),
     World (heap w ++ [raw_ho; raw_tr;
                       cleaned Valuation_Date i ho_file;
                       cleaned Transaction_Date j tr_file])
           (fs w)).
Proof.
  intros Hho Htr Hi Hj. destruct w as [h t]. cbn [heap fs] in *.
  do 2 eexists. unfold load_csv_files. cbv zeta.
  erewrite bind_run_ok; [|apply path_exists_run].
  cbn [fs]. rewrite Hho, bool_decide_true by eauto.
  erewrite bind_run_ok; [|reflexivity].
  erewrite bind_run_ok; [|apply path_exists_run].
  cbn [fs]. rewrite Htr, bool_decide_true by eauto.
  erewrite bind_run_ok; [|reflexivity].
  erewrite bind_run_ok; [|by apply read_csv_run].
  cbn [heap fs].
  erewrite bind_run_ok; [|by apply read_csv_run].
  cbn [heap fs]. rewrite <- app_assoc, length_app. cbn [app length].
  erewrite bind_run_ok.
  2: { eapply strip_column_run; [cbn [heap]; rewrite heap_lookup_0; reflexivity|exact Hi]. }
  cbn [heap fs columns rows]. rewrite heap_insert_0. cbn [insert list_insert].
  erewrite bind_run_ok.
  2: { eapply strip_column_run; [cbn [heap]; rewrite heap_lookup; reflexivity|exact Hj]. }
  cbn [heap fs columns rows]. rewrite insert_app_r. cbn [insert list_insert].
  erewrite bind_run_ok.
  2: { eapply drop_header_rows_run;
         [cbn [heap]; rewrite heap_lookup_0; reflexivity|exact Hi]. }
  cbn [heap fs columns rows]. rewrite <- app_assoc, length_app.
  cbn [app length].
  erewrite bind_run_ok.
  2: { eapply drop_header_rows_run;
         [cbn [heap]; rewrite heap_lookup; reflexivity|exact Hj]. }
  cbn [heap fs columns rows]. rewrite <- app_assoc. cbn [app].
  rewrite length_app. cbn [length]. unfold cleaned. reflexivity.
Qed.

Lemma has_column_cleaned c i f :
  index_of c (header f) = Some i -> has_column c (cleaned c i f) = true.
Proof. intros H. unfold has_column, cleaned. cbn [columns]. by rewrite H. Qed.

Lemma cleaned_rows c i f :
  regular f -> index_of c (header f) = Some i ->
  Forall (fun r => exists raw,
            nth i r (Str EmptyString) = Str (strip raw) /\ strip raw <> c)
         (rows (cleaned c i f)).
Proof.
  intros Hreg Hi%index_of_lt. unfold cleaned. cbn [rows].
  rewrite List.Forall_forall. intros r [Hr Hne]%filter_In.
  apply bool_decide_eq_true in Hne.
  apply in_map_iff in Hr as (r0 & <- & Hr0).
  apply in_map_iff in Hr0 as (l & <- & Hl).
  unfold regular in Hreg. rewrite List.Forall_forall in Hreg.
  specialize (Hreg l Hl).
  assert (Hnth : nth i (strip_field i (map Str l)) (Str EmptyString)
                 = strip_cell (nth i (map Str l) (Str EmptyString))).
  { unfold strip_field. rewrite nth_lookup, list_lookup_insert_eq; [done|].
    rewrite length_map. lia. }
  rewrite Hnth in Hne |- *. unfold strip_cell in *.
  eexists. split; [reflexivity|]. congruence.
Qed.


(** X14.  [load_csv_files] on two files with their date columns that
    [read_csv] reads field by field as text (every line has as many
    fields as the header, no label occurs twice, every column is one of
    those given [dtype=str], no field is taken for a missing value): it
    returns two new tables, the lines of the files with the date field
    stripped of white space and without the lines that repeat the header;
    both tables are rectangular and have their date column; no file has
    changed and the objects that were in memory hold what they held. *)
Theorem load_csv_files_cleans source_folder ho_file tr_file i j w :
  fs w !! [source_folder; "perf"; "Holdings.csv"] = Some (File ho_file) ->
  fs w !! [source_folder; "perf"; "Transactions.csv"] = Some (File tr_file) ->
  plain Valuation_Date ho_file -> plain Transaction_Date tr_file ->
  index_of Valuation_Date (header ho_file) = Some i ->
  index_of Transaction_Date (header tr_file) = Some j ->
  exists df_ho df_tr w',
    load_csv_files source_folder w = (Ok (df_ho, df_tr), w') /\
    fs w' = fs w /\ objects_kept (heap w) w' /\
    heap w' !! df_ho = Some (cleaned Valuation_Date i ho_file) /\
    heap w' !! df_tr = Some (cleaned Transaction_Date j tr_file) /\
    rectangular (cleaned Valuation_Date i ho_file) /\
    rectangular (cleaned Transaction_Date j tr_file) /\
    has_column Valuation_Date (cleaned Valuation_Date i ho_file) = true /\
    has_column Transaction_Date (cleaned Transaction_Date j tr_file) = true /\
    Forall (fun r => exists raw,
              nth i r (Str EmptyString) = Str (strip raw) /\
              strip raw <> Valuation_Date)
           (rows (cleaned Valuation_Date i ho_file)) /\
    Forall (fun r => exists raw,
              nth j r (Str EmptyString) = Str (strip raw) /\
              strip raw <> Transaction_Date)
           (rows (cleaned Transaction_Date j tr_file)).
Proof.
  intros Hho Htr [Rho _] [Rtr _] Hi Hj.
  destruct (load_csv_files_run source_folder ho_file tr_file i j w
              Hho Htr Hi Hj) as (raw_ho & raw_tr & Hrun).
  eexists _, _, _. split; [exact Hrun|]. cbn [heap fs].
  split; [done|]. split; [by apply prefix_app_r|].
  split; [by rewrite heap_lookup|]. split; [by rewrite heap_lookup|].
  split; [by apply rectangular_cleaned|].
  split; [by apply rectangular_cleaned|].
  split; [by apply has_column_cleaned|].
  split; [by apply has_column_cleaned|].
  split; by apply cleaned_rows.
Qed.

Lemma plain_holdings_csv_plain : plain Valuation_Date plain_holdings_csv.
Proof.
  split; [repeat constructor|].
  split; [apply (bool_decide_unpack _); vm_compute; exact I|].
  split; apply (bool_decide_unpack _); vm_compute; exact I.
Qed.

Lemma plain_transactions_csv_plain :
  plain Transaction_Date plain_transactions_csv.
Proof.
  split; [repeat constructor|].
  split; [apply (bool_decide_unpack _); vm_compute; exact I|].
  split; apply (bool_decide_unpack _); vm_compute; exact I.
Qed.

Lemma load_csv_files_cleans_witness :
  exists df_ho df_tr w',
    load_csv_files source whole_source_world = (Ok (df_ho, df_tr), w') /\
    fs w' = fs whole_source_world /\
    objects_kept (heap whole_source_world) w' /\
    heap w' !! df_ho = Some (cleaned Valuation_Date 2 plain_holdings_csv) /\
    heap w' !! df_tr
      = Some (cleaned Transaction_Date 0 plain_transactions_csv) /\
    rectangular (cleaned Valuation_Date 2 plain_holdings_csv) /\
    rectangular (cleaned Transaction_Date 0 plain_transactions_csv) /\
    has_column Valuation_Date (cleaned Valuation_Date 2 plain_holdings_csv)
      = true /\
    has_column Transaction_Date
      (cleaned Transaction_Date 0 plain_transactions_csv) = true /\
    Forall (fun r => exists raw,
              nth 2 r (Str EmptyString) = Str (strip raw) /\
              strip raw <> Valuation_Date)
           (rows (cleaned Valuation_Date 2 plain_holdings_csv)) /\
    Forall (fun r => exists raw,
              nth 0 r (Str EmptyString) = Str (strip raw) /\
              strip raw <> Transaction_Date)
           (rows (cleaned Transaction_Date 0 plain_transactions_csv)).
Proof.
  apply (load_csv_files_cleans source plain_holdings_csv
           plain_transactions_csv 2%nat 0%nat whole_source_world).
  - reflexivity.
  - reflexivity.
  - exact plain_holdings_csv_plain.
  - exact plain_transactions_csv_plain.
  - reflexivity.
  - reflexivity.
Defined.

(** ** Removing and copying trees *)

Lemma rmtree_run p w :
  fs w !! p = Some Dir ->
  rmtree p w =
  (Ok tt, World (heap w) (filter (fun kv => ~ p `prefix_of` kv.1) (fs w))).
Proof.
  intros H. unfold rmtree. rewrite bind_run. unfold get_fs.
  cbv beta iota. by rewrite H.
Qed.

Lemma lookup_removed (p q : list string) (t : gmap path node) :
  filter (fun kv : path * node => ~ p `prefix_of` kv.1) t !! q
  = if decide (p `prefix_of` q) then None else t !! q.
Proof.
  destruct (decide (p `prefix_of` q)) as [Hp | Hp].
  - apply map_lookup_filter_None_2. right. intros x _ Hn. by apply Hn.
  - destruct (t !! q) as [n|] eqn:Hq.
    + by apply map_lookup_filter_Some_2.
    + apply map_lookup_filter_None_2. by left.
Qed.

Lemma elem_of_copied src dst t q n :
  In (q, n)
     (map (fun kv : path * node => ((dst ++ drop (length src) kv.1)%list, kv.2))
          (map_to_list
             (filter (fun kv : path * node =>
                        src `prefix_of` kv.1 /\ kv.1 <> src) t)))
  <-> exists r, r <> [] /\ q = (dst ++ r)%list /\ t !! (src ++ r)%list = Some n.
Proof.
  rewrite in_map_iff. split.
  - intros ([k x] & [= <- <-] & Hin). cbn [fst snd].
    apply list_elem_of_In, elem_of_map_to_list in Hin.
    apply map_lookup_filter_Some in Hin as (Hk & Hpre & Hne).
    cbn [fst snd] in *. destruct Hpre as [r ->]. exists r. rewrite drop_app_length.
    split; [|done]. intros ->. by rewrite app_nil_r in Hne.
  - intros (r & Hr & -> & Hn). exists ((src ++ r)%list, n). cbn [fst snd].
    rewrite drop_app_length. split; [done|].
    apply list_elem_of_In, elem_of_map_to_list.
    apply map_lookup_filter_Some. split; [done|]. cbn [fst snd].
    split; [by apply prefix_app_r|].
    intros H. apply Hr. apply (app_inv_head src). by rewrite app_nil_r.
Qed.

Lemma lookup_copied_Some src dst t q n :
  copied src dst t !! q = Some n <->
  exists r, r <> [] /\ q = (dst ++ r)%list /\ t !! (src ++ r)%list = Some n.
Proof.
  rewrite <- elem_of_copied. unfold copied.
  rewrite <- elem_of_list_to_map', list_elem_of_In; [done|].
  intros n' (r & _ & -> & Hn)%list_elem_of_In%elem_of_copied
            (r' & _ & Hq & Hn')%list_elem_of_In%elem_of_copied.
  apply app_inv_head in Hq as <-. congruence.
Qed.

Lemma lookup_copied src dst t r :
  r <> [] -> copied src dst t !! (dst ++ r)%list = t !! (src ++ r)%list.
Proof.
  intros Hr. apply option_eq. intros n. rewrite lookup_copied_Some. split.
  - by intros (r' & _ & <-%app_inv_head & Hn).
  - intros Hn. by exists r.
Qed.

Lemma lookup_copied_None src dst t q :
  (forall r, r <> [] -> q <> (dst ++ r)%list) -> copied src dst t !! q = None.
Proof.
  intros H. apply eq_None_not_Some.
  intros [n (r & Hr & -> & _)%lookup_copied_Some]. by apply (H r).
Qed.

Lemma copytree_run src dst w w1 :
  fs w !! src = Some Dir ->
  makedirs dst w = (Ok tt, w1) ->
  copytree src dst w =
  (Ok tt, World (heap w1) (copied src dst (fs w) ∪ fs w1)).
Proof.
  intros Hsrc Hmk. unfold copytree. rewrite bind_run. unfold get_fs at 1.
  cbv beta iota. rewrite Hsrc. cbv zeta.
  erewrite bind_run_ok; [|exact Hmk]. reflexivity.
Qed.

Lemma prefix_two (a b : string) (q : list string) :
  [a; b] `prefix_of` q <-> exists r, q = a :: b :: r.
Proof. split; intros [r ->]; by exists r. Qed.

Lemma copytree_fresh_run (source_folder target sub : string) (h : list DataFrame)
    (t : gmap path node) :
  t !! [source_folder; sub] = Some Dir -> t !! [target] = Some Dir ->
  (forall q, [target; sub] `prefix_of` q -> t !! q = None) ->
  exists t',
    copytree [source_folder; sub] [target; sub] (World h t) = (Ok tt, World h t') /\
    (forall r, t' !! (target :: sub :: r) = t !! (source_folder :: sub :: r)) /\
    (forall q, ~ [target; sub] `prefix_of` q -> t' !! q = t !! q).
Proof.
  intros Hsrc Htop Hfree.
  assert (Hmk : makedirs [target; sub] (World h t)
                = (Ok tt, World h (<[[target; sub] := Dir]> t))).
  { apply (makedirs_sub_run target sub (World h t)); [done|]. by apply Hfree. }
  exists (copied [source_folder; sub] [target; sub] t ∪ <[[target; sub] := Dir]> t). split.
  { exact (copytree_run [source_folder; sub] [target; sub] (World h t) _ Hsrc Hmk). }
  split.
  - intros r. destruct r as [|x r].
    + rewrite lookup_union_r.
      * by rewrite lookup_insert_eq.
      * apply lookup_copied_None. intros r Hr Heq.
        apply (app_inv_head [target; sub] []) in Heq. by subst.
    + change (target :: sub :: x :: r) with ([target; sub] ++ x :: r)%list.
      rewrite lookup_union_l.
      * by rewrite lookup_copied.
      * rewrite lookup_insert_ne by done. apply Hfree. by apply prefix_app_r.
  - intros q Hq. rewrite lookup_union_r.
    + rewrite lookup_insert_ne; [done|]. intros <-. by apply Hq.
    + apply lookup_copied_None. intros r _ ->. apply Hq. by apply prefix_app_r.
Qed.

(** One auxiliary folder replaced in one target. *)
Lemma replace_tree_run (source_folder target sub : string) w :
  target <> source_folder ->
  fs w !! [source_folder; sub] = Some Dir -> fs w !! [target] = Some Dir ->
  aux_ready (fs w) target sub ->
  exists t',
    (e' ← path_exists [target; sub];
     when e' (rmtree [target; sub]);;
     copytree [source_folder; sub] [target; sub]) w = (Ok tt, World (heap w) t') /\
    (forall r, t' !! (target :: sub :: r) = fs w !! (source_folder :: sub :: r)) /\
    (forall q, ~ [target; sub] `prefix_of` q -> t' !! q = fs w !! q).
Proof.
  intros Hne Hsrc Htop Hready. destruct w as [h t]. cbn [heap fs] in *.
  assert (Hout : forall r, ~ [target; sub] `prefix_of` (source_folder :: sub :: r)).
  { intros r Hp. by apply prefix_cons_inv_1 in Hp. }
  assert (Htop' : ~ [target; sub] `prefix_of` [target]).
  { intros Hp%prefix_length. cbn in Hp. lia. }
  assert (exists t1,
    (e' ← path_exists [target; sub]; when e' (rmtree [target; sub]))
      (World h t) = (Ok tt, World h t1) /\
    forall q, t1 !! q = if decide ([target; sub] `prefix_of` q) then None
                        else t !! q) as (t1 & Hrun1 & Ht1).
  { erewrite bind_run_ok; [|apply path_exists_run]. cbn [fs].
    destruct Hready as [Hdir | Hfree].
    - rewrite Hdir, bool_decide_true by eauto. cbn [when].
      rewrite rmtree_run by done. eexists. split; [reflexivity|].
      intros q. apply lookup_removed.
    - rewrite (Hfree [target; sub]) by done.
      rewrite bool_decide_false by (by intros [? ?]).
      exists t. split; [done|]. intros q.
      destruct (decide _); [by apply Hfree|done]. }
  destruct (copytree_fresh_run source_folder target sub h t1) as (t' & Hrun2 & Hin & Hother).
  { rewrite Ht1. by rewrite decide_False by apply (Hout []). }
  { rewrite Ht1. by rewrite decide_False. }
  { intros q Hq. rewrite Ht1. by rewrite decide_True. }
  exists t'. split.
  - rewrite bind_run in Hrun1 |- *.
    destruct (path_exists [target; sub] (World h t)) as [[e'| |] w0]; try done.
    rewrite bind_run. by rewrite Hrun1.
  - split.
    + intros r. rewrite Hin, Ht1. by rewrite decide_False by apply Hout.
    + intros q Hq. rewrite Hother, Ht1 by done. by rewrite decide_False.
Qed.

Lemma for_each_cons {A} (x : A) xs (body : A -> M unit) w :
  for_each (x :: xs) body w = (body x;; for_each xs body) w.
Proof. reflexivity. Qed.

Lemma replicated_nil source_folder t q : replicated source_folder [] t q = t !! q.
Proof.
  by destruct q as [|a [|b r]].
Qed.

Section Replication.
Context (source_folder : string).

(** The body of the loop of [copy_additional_folders]. *)
Lemma copy_to_target_run target w :
  target <> source_folder ->
  fs w !! [source_folder; "context_data"]%string = Some Dir ->
  fs w !! [source_folder; "portfolio"]%string = Some Dir ->
  target_ready (fs w) target ->
  exists t',
    copy_additional_folders source_folder [target] w = (Ok tt, World (heap w) t') /\
    forall q, t' !! q = replicated source_folder [target] (fs w) q.
Proof.
  intros Hne Hcd Hpf (Htop & Rcd & Rpf).
  destruct (replace_tree_run source_folder target "context_data" w Hne Hcd Htop Rcd)
    as (t1 & Hrun1 & Hin1 & Hother1).
  assert (Hsame : forall q, ~ [target; "context_data"%string] `prefix_of` q ->
                            (fs (World (heap w) t1)) !! q = fs w !! q).
  { intros q Hq. cbn [fs]. by apply Hother1. }
  assert (Hpf1 : fs (World (heap w) t1) !! [source_folder; "portfolio"%string] = Some Dir).
  { rewrite Hsame; [done|]. intros Hp. by apply prefix_cons_inv_1 in Hp. }
  assert (Htop1 : fs (World (heap w) t1) !! [target] = Some Dir).
  { rewrite Hsame; [done|]. intros Hp%prefix_length. cbn in Hp. lia. }
  assert (Rpf1 : aux_ready (fs (World (heap w) t1)) target "portfolio").
  { destruct Rpf as [Hdir | Hfree]; [left | right].
    - rewrite Hsame; [done|]. intros Hp.
      apply prefix_cons_inv_2, prefix_cons_inv_1 in Hp. done.
    - intros q Hq. rewrite Hsame; [by apply Hfree|].
      apply prefix_two in Hq as [r ->]. intros Hp.
      apply prefix_cons_inv_2, prefix_cons_inv_1 in Hp. done. }
  destruct (replace_tree_run source_folder target "portfolio" (World (heap w) t1)
              Hne Hpf1 Htop1 Rpf1) as (t2 & Hrun2 & Hin2 & Hother2).
  cbn [heap fs] in *. exists t2. split.
  - unfold copy_additional_folders. cbv zeta. rewrite for_each_cons.
    erewrite bind_run_ok; [reflexivity|].
    erewrite bind_run_ok; [|apply path_exists_run].
    rewrite Hcd, bool_decide_true by eauto. cbn [when].
    erewrite bind_run_ok; [|exact Hrun1].
    erewrite bind_run_ok; [|apply path_exists_run]. cbn [fs].
    rewrite (Hother1 [source_folder; "portfolio"%string]), Hpf, bool_decide_true;
      [exact Hrun2|eauto|].
    intros Hp. by apply prefix_cons_inv_1 in Hp.
  - intros q. destruct q as [|a [|b r]]; cbn [replicated].
    + rewrite Hother2, Hother1; [done|..];
        intros Hp%prefix_length; cbn in Hp; lia.
    + rewrite Hother2, Hother1; [done|..];
        intros Hp%prefix_length; cbn in Hp; lia.
    + case_bool_decide as Hb.
      * destruct Hb as [->%list_elem_of_singleton [-> | ->]].
        -- rewrite Hother2; [apply Hin1|]. intros Hp.
           apply prefix_cons_inv_2, prefix_cons_inv_1 in Hp. done.
        -- rewrite Hin2. apply Hother1. intros Hp.
           by apply prefix_cons_inv_1 in Hp.
      * rewrite Hother2, Hother1; [done|..]; intros Hp; apply Hb.
        -- pose proof (prefix_cons_inv_1 _ _ _ _ Hp) as <-.
           apply prefix_cons_inv_2, prefix_cons_inv_1 in Hp as <-.
           split; [by apply list_elem_of_singleton|by left].
        -- pose proof (prefix_cons_inv_1 _ _ _ _ Hp) as <-.
           apply prefix_cons_inv_2, prefix_cons_inv_1 in Hp as <-.
           split; [by apply list_elem_of_singleton|by right].
Qed.
End Replication.

Lemma for_each_one_more {A} (x : A) xs (body : A -> M unit) w :
  for_each (x :: xs) body w = (for_each [x] body;; for_each xs body) w.
Proof.
  cbn [for_each]. rewrite !bind_run.
  destruct (body x w) as [[[]| |] w1]; reflexivity.
Qed.

Lemma copy_additional_folders_cons source_folder target rest w :
  copy_additional_folders source_folder (target :: rest) w =
  (copy_additional_folders source_folder [target];; copy_additional_folders source_folder rest) w.
Proof. apply for_each_one_more. Qed.

Lemma copy_additional_folders_run source_folder targets w :
  source_folder ∉ targets ->
  fs w !! [source_folder; "context_data"]%string = Some Dir ->
  fs w !! [source_folder; "portfolio"]%string = Some Dir ->
  Forall (target_ready (fs w)) targets ->
  exists t',
    copy_additional_folders source_folder targets w = (Ok tt, World (heap w) t') /\
    forall q, t' !! q = replicated source_folder targets (fs w) q.
Proof.
  revert w. induction targets as [|target rest IH]; intros w Hout Hcd Hpf Hready.
  { exists (fs w). split; [by destruct w|]. intros q.
    by rewrite replicated_nil. }
  apply not_elem_of_cons in Hout as [Hne Hout].
  apply Forall_cons in Hready as [HT Hready].
  destruct (copy_to_target_run source_folder target w) as (t1 & Hrun1 & Ht1); try done.
  assert (Hkeep : forall a b r, a <> target ->
            t1 !! (a :: b :: r) = fs w !! (a :: b :: r)).
  { intros a b r Ha. rewrite Ht1. cbn [replicated].
    rewrite bool_decide_false; [done|].
    intros [H%list_elem_of_singleton _]. done. }
  destruct (IH (World (heap w) t1)) as (t' & Hrun & Ht'); cbn [heap fs];
    try done.
  { by rewrite Hkeep. }
  { by rewrite Hkeep. }
  { eapply Forall_impl; [exact Hready|].
    intros target' (Htop & Rcd & Rpf). split; [by rewrite Ht1|].
    assert (Haux : forall sub,
              (sub = "context_data" \/ sub = "portfolio")%string ->
              aux_ready (fs w) target' sub -> aux_ready t1 target' sub).
    { intros sub Hsub Hr. destruct (decide (target' = target)) as [-> | HT'].
      - left. rewrite Ht1. cbn [replicated].
        rewrite bool_decide_true;
          [by destruct Hsub as [-> | ->]|].
        split; [by apply list_elem_of_singleton|done].
      - destruct Hr as [Hdir | Hfree]; [left | right].
        + by rewrite Hkeep.
        + intros q Hq. pose proof Hq as [r ->]. cbn [app] in *.
          rewrite Hkeep by done. by apply Hfree. }
    split; apply Haux; auto. }
  exists t'. split.
  - rewrite copy_additional_folders_cons.
    erewrite bind_run_ok; [exact Hrun|exact Hrun1].
  - intros q. rewrite Ht'. destruct q as [|a [|b r]]; cbn [replicated].
    + by rewrite Ht1.
    + by rewrite Ht1.
    + case_bool_decide as Hb1.
      * destruct Hb1 as [Hin Hsub].
        rewrite bool_decide_true by (split; [by right|done]).
        apply Hkeep. intros ->. done.
      * rewrite Ht1. cbn [replicated].
        case_bool_decide as Hb2.
        -- destruct Hb2 as [->%list_elem_of_singleton Hsub].
           rewrite bool_decide_true; [done|]. split; [by left|done].
        -- rewrite bool_decide_false; [done|].
           intros [[-> | Hin]%elem_of_cons Hsub].
           ++ apply Hb2. split; [by apply list_elem_of_singleton|done].
           ++ by apply Hb1.
Qed.

Lemma for_each_app {A} (xs ys : list A) (body : A -> M unit) w :
  for_each (xs ++ ys) body w = (for_each xs body;; for_each ys body) w.
Proof.
  revert w. induction xs as [|x xs IH]; intros w; [done|].
  cbn [app for_each]. rewrite !bind_run.
  destruct (body x w) as [[[]| |] w1]; [|done|done].
  by rewrite IH, bind_run.
Qed.

Lemma copytree_missing src dst w :
  fs w !! src = None ->
  copytree src dst w = (Raise (FileNotFoundError src), w).
Proof.
  intros H. unfold copytree. rewrite bind_run. unfold get_fs.
  cbv beta iota. by rewrite H.
Qed.

(** X19.  [copy_additional_folders] with the source folder not among the
    targets: it returns, and then below [context_data] and below
    [portfolio] of every target there is exactly what there is below the
    one of the source folder, nothing that was there before is left, and
    nothing else has changed. *)
Theorem copy_additional_folders_replicates source_folder target_folders w :
  source_folder ∉ target_folders ->
  fs w !! [source_folder; "context_data"] = Some Dir ->
  fs w !! [source_folder; "portfolio"] = Some Dir ->
  Forall (target_ready (fs w)) target_folders ->
  exists w',
    copy_additional_folders source_folder target_folders w = (Ok tt, w') /\
    heap w' = heap w /\
    (forall target sub r,
       target ∈ target_folders -> sub = "context_data" \/ sub = "portfolio" ->
       fs w' !! (target :: sub :: r) = fs w !! (source_folder :: sub :: r)) /\
    (forall q,
       (forall target sub r,
          target ∈ target_folders ->
          sub = "context_data" \/ sub = "portfolio" ->
          q <> target :: sub :: r) ->
       fs w' !! q = fs w !! q).
Proof.
  intros Hout Hcd Hpf Hready.
  destruct (copy_additional_folders_run source_folder target_folders w)
    as (t' & Hrun & Ht'); try done.
  eexists. split; [exact Hrun|]. cbn [heap fs]. split; [done|]. split.
  - intros target sub r Hin Hsub. rewrite Ht'. cbn [replicated].
    by rewrite bool_decide_true.
  - intros q Hq. rewrite Ht'. destruct q as [|a [|b r]]; try done.
    cbn [replicated]. rewrite bool_decide_false; [done|].
    intros [Hin Hsub]. by apply (Hq a b r).
Qed.

Lemma auxiliary_world_ready :
  Forall (target_ready (fs auxiliary_world)) ["2023-01-31"; "2023-02-28"].
Proof.
  constructor; [|constructor; [|constructor]].
  - split; [reflexivity|]. split; [by left|].
    right. intros q [r ->]. cbn [app].
    apply not_elem_of_list_to_map_1. cbn.
    repeat (apply not_elem_of_cons; split; [discriminate|]).
    apply not_elem_of_nil.
  - split; [reflexivity|].
    split; right; intros q [r ->]; cbn [app];
      apply not_elem_of_list_to_map_1; cbn;
      repeat (apply not_elem_of_cons; split; [discriminate|]);
      apply not_elem_of_nil.
Qed.

Lemma copy_additional_folders_replicates_witness :
  exists w',
    copy_additional_folders source ["2023-01-31"; "2023-02-28"]
      auxiliary_world = (Ok tt, w') /\
    heap w' = heap auxiliary_world /\
    (forall target sub r,
       target ∈ ["2023-01-31"; "2023-02-28"] ->
       sub = "context_data" \/ sub = "portfolio" ->
       fs w' !! (target :: sub :: r)
       = fs auxiliary_world !! (source :: sub :: r)) /\
    (forall q,
       (forall target sub r,
          target ∈ ["2023-01-31"; "2023-02-28"] ->
          sub = "context_data" \/ sub = "portfolio" ->
          q <> target :: sub :: r) ->
       fs w' !! q = fs auxiliary_world !! q).
Proof.
  apply (copy_additional_folders_replicates source
           ["2023-01-31"; "2023-02-28"] auxiliary_world).
  - by intros [[=] | [[=] | []%elem_of_nil]%elem_of_cons]%elem_of_cons.
  - reflexivity.
  - reflexivity.
  - apply auxiliary_world_ready.
Defined.

(** X20.  When the source folder is itself among the targets,
    [copy_additional_folders] ends with [FileNotFoundError]: the targets
    before it have received their copies, and the [context_data] of the
    source folder has been removed with all that was below it. *)
Theorem copy_additional_folders_onto_source source_folder before after w :
  source_folder ∉ before ->
  fs w !! [source_folder; "context_data"] = Some Dir ->
  fs w !! [source_folder; "portfolio"] = Some Dir ->
  Forall (target_ready (fs w)) before ->
  exists w',
    copy_additional_folders source_folder
      (before ++ source_folder :: after) w
    = (Raise (FileNotFoundError [source_folder; "context_data"]), w') /\
    (forall q, [source_folder; "context_data"] `prefix_of` q ->
               fs w' !! q = None) /\
    (forall target sub r,
       target ∈ before -> sub = "context_data" \/ sub = "portfolio" ->
       fs w' !! (target :: sub :: r) = fs w !! (source_folder :: sub :: r)).
Proof.
  intros Hout Hcd Hpf Hready.
  destruct (copy_additional_folders_run source_folder before w)
    as (t1 & Hrun & Ht1); try done.
  assert (Hsrc1 : t1 !! [source_folder; "context_data"] = Some Dir).
  { rewrite Ht1. cbn [replicated]. rewrite bool_decide_false; [done|].
    by intros [? _]. }
  set (gone := filter (fun kv : path * node =>
                 ~ [source_folder; "context_data"] `prefix_of` kv.1) t1).
  exists (World (heap w) gone). split; [|split].
  - unfold copy_additional_folders in *. cbv zeta in *.
    rewrite for_each_app. erewrite bind_run_ok; [|exact Hrun].
    rewrite for_each_cons. erewrite bind_run_raise; [reflexivity|].
    erewrite bind_run_ok; [|apply path_exists_run]. cbn [fs].
    rewrite Hsrc1, bool_decide_true by eauto. cbn [when].
    erewrite bind_run_raise; [reflexivity|].
    erewrite bind_run_ok; [|apply path_exists_run]. cbn [fs].
    rewrite Hsrc1, bool_decide_true by eauto. cbn [when].
    erewrite bind_run_ok; [|by apply rmtree_run]. cbn [heap fs].
    apply copytree_missing. cbn [fs]. subst gone.
    rewrite lookup_removed. by rewrite decide_True.
  - intros q Hq. cbn [fs]. subst gone. rewrite lookup_removed.
    by rewrite decide_True.
  - intros target sub r Hin Hsub. cbn [fs]. subst gone.
    rewrite lookup_removed. rewrite decide_False.
    + rewrite Ht1. cbn [replicated]. by rewrite bool_decide_true.
    + intros Hp%prefix_cons_inv_1. by subst.
Qed.

Lemma copy_additional_folders_onto_source_witness :
  exists w',
    copy_additional_folders source (["2023-01-31"] ++ source :: [])
      auxiliary_world
    = (Raise (FileNotFoundError [source; "context_data"]), w') /\
    (forall q, [source; "context_data"] `prefix_of` q -> fs w' !! q = None) /\
    (forall target sub r,
       target ∈ ["2023-01-31"] -> sub = "context_data" \/ sub = "portfolio" ->
       fs w' !! (target :: sub :: r)
       = fs auxiliary_world !! (source :: sub :: r)).
Proof.
  apply (copy_additional_folders_onto_source source ["2023-01-31"] []
           auxiliary_world).
  - by intros [[=] | []%elem_of_nil]%elem_of_cons.
  - reflexivity.
  - reflexivity.
  - pose proof auxiliary_world_ready as H.
    apply Forall_cons in H as [H _]. by constructor.
Defined.

(** ** A whole run *)


Lemma leb_year a b : leb a b = true -> year a <= year b.
Proof.
  unfold leb, ltb. intros H.
  destruct (Z.ltb_spec (year b) (year a)); [done|lia].
Qed.

Lemma index_of_None c labels : c ∉ labels -> index_of c labels = None.
Proof.
  induction labels as [|l ls IH]; [done|].
  intros [Hne Hout]%not_elem_of_cons. cbn [index_of].
  rewrite decide_False by done. by rewrite IH.
Qed.

(** A plain table has no column with the name of the temporary one. *)
Lemma plain_no_column c c' i f :
  plain c f -> c' ∉ text_columns c -> has_column c' (cleaned c i f) = false.
Proof.
  intros (_ & _ & Hcols & _) Hout. unfold has_column, cleaned.
  cbn [columns]. rewrite index_of_None; [done|].
  intros Hin. apply Hout. rewrite List.Forall_forall in Hcols.
  by apply Hcols, list_elem_of_In.
Qed.

Lemma dates_in_range_parse c df : dates_in_range c df -> dates_parse c df.
Proof.
  unfold dates_in_range, dates_parse. intros H.
  eapply Forall_impl; [exact H|]. intros r (t & Ht & _). by exists t.
Qed.

Lemma strftime_ymd_length d : (String.length (strftime_ymd d) <= 10)%nat.
Proof.
  unfold strftime_ymd, year_text, pad4, pad2.
  repeat case_match; cbn [String.length]; lia.
Qed.

(** X21.  A whole run of [main] where no period folder exists yet, for an
    inception date and an end date that a timestamp of [pandas] holds
    (1677-09-22 to 2262-04-11): with both auxiliary folders in the source
    folder and both tables such that [read_csv] reads them field by field
    as text and every date field, stripped, is a date that a timestamp
    holds, the run ends with ["Run is done!"]; every period folder that
    [create_folder_structure] names then holds both tables from the
    inception date to its date, and auxiliary folders that equal those of
    the source folder; and nothing that was there before has changed. *)
Theorem main_splits_the_source inception_date end_date source_folder f w
    ho_file tr_file i j :
  valid inception_date -> valid end_date ->
  in_timestamp_range inception_date -> in_timestamp_range end_date ->
  leb inception_date end_date = true ->
  (forall d q, fs w !! (strftime_ymd d :: q) = None) ->
  fs w !! [source_folder; "perf"; "Holdings.csv"]%string
    = Some (File ho_file) ->
  fs w !! [source_folder; "perf"; "Transactions.csv"]%string
    = Some (File tr_file) ->
  fs w !! [source_folder; "context_data"]%string = Some Dir ->
  fs w !! [source_folder; "portfolio"]%string = Some Dir ->
  plain Valuation_Date ho_file -> plain Transaction_Date tr_file ->
  index_of Valuation_Date (header ho_file) = Some i ->
  index_of Transaction_Date (header tr_file) = Some j ->
  dates_in_range Valuation_Date (cleaned Valuation_Date i ho_file) ->
  dates_in_range Transaction_Date (cleaned Transaction_Date j tr_file) ->
  exists dates w',
    (create_folder_structure inception_date end_date f w).1
      = Ok (map strftime_ymd dates) /\
    main inception_date end_date source_folder f w = (Ok RunDone, w') /\
    (forall d, d ∈ dates ->
       fs w' !! [strftime_ymd d; "perf"; "Holdings.csv"]%string
         = Some (File (csv_of (filtered inception_date d Valuation_Date
                                 (cleaned Valuation_Date i ho_file)))) /\
       fs w' !! [strftime_ymd d; "perf"; "Transactions.csv"]%string
         = Some (File (csv_of (filtered inception_date d Transaction_Date
                                 (cleaned Transaction_Date j tr_file)))) /\
       forall sub r, (sub = "context_data" \/ sub = "portfolio")%string ->
         fs w' !! (strftime_ymd d :: sub :: r)
         = fs w' !! (source_folder :: sub :: r)) /\
    (forall p n, fs w !! p = Some n -> fs w' !! p = Some n).
Proof.
  intros Hi He [Hlo _] [_ Hhi] Hle Hfresh Hho Htr Hcd Hpf Lho Ltr Iho Itr
    Dho Dtr.
  assert (Rho : regular ho_file) by apply Lho.
  assert (Rtr : regular tr_file) by apply Ltr.
  assert (Nho : has_column Valuation_Date_Datetime
                  (cleaned Valuation_Date i ho_file) = false).
  { apply (plain_no_column Valuation_Date); [done|].
    apply (bool_decide_unpack _). vm_compute. exact I. }
  assert (Ntr : has_column Transaction_Date_Datetime
                  (cleaned Transaction_Date j tr_file) = false).
  { apply (plain_no_column Transaction_Date); [done|].
    apply (bool_decide_unpack _). vm_compute. exact I. }
  pose proof (dates_in_range_parse _ _ Dho) as Pho.
  pose proof (dates_in_range_parse _ _ Dtr) as Ptr.
  assert (Hmax : ~ (f = monthly /\ year end_date = 9999 /\
                    month end_date = 12)).
  { intros (_ & Hy & _). apply leb_year in Hhi. cbn [year] in Hhi. lia. }
  assert (Hsource : forall d, source_folder <> strftime_ymd d).
  { intros d ->. by rewrite Hfresh in Hcd. }
  destruct (create_folder_loop_periods
              (range_length inception_date end_date) end_date f
              inception_date [] w)
    as (dates & w1 & Hrun1 & _ & Hdates & _); try done.
  { intros d c. by rewrite Hfresh. }
  { unfold range_length. lia. }
  cbn [app] in Hrun1.
  assert (Hiso : forall d, d ∈ dates -> strftime_ymd d = isoformat_date d).
  { intros d Hd. rewrite List.Forall_forall in Hdates.
    destruct (Hdates d) as (_ & Hge & _); [by apply list_elem_of_In|].
    apply strftime_ymd_isoformat_date.
    apply leb_year in Hlo. apply leb_year in Hge. cbn [year] in Hlo. lia. }
  assert (Hnames : map strftime_ymd dates = map isoformat_date dates).
  { apply map_ext_in. intros d Hd. by apply Hiso, list_elem_of_In. }
  assert (Hmade : Forall (period_folder_made (fs w1))
                    (map strftime_ymd dates)).
  { eapply create_folder_loop_made; [|exact Hrun1]. constructor. }
  fold (create_folder_structure inception_date end_date f) in Hrun1.
  assert (Hgrown : folders_grown w w1).
  { replace w1 with (create_folder_structure inception_date end_date f w).2
      by (by rewrite Hrun1).
    apply keeps_run; [apply keeps_create_folder_structure|].
    apply folders_grown_refl. }
  destruct Hgrown as [Hheap1 Hnew1].
  assert (Hkept1 : forall p n, fs w !! p = Some n -> fs w1 !! p = Some n).
  { intros p n Hp. destruct (Hnew1 p) as [-> | (Hn & _)]; [done|congruence]. }
  assert (Hdir1 : forall p, fs w !! p = None -> is_Some (fs w1 !! p) ->
                            fs w1 !! p = Some Dir).
  { intros p Hp [n Hn]. destruct (Hnew1 p) as [Heq | (_ & Hd & _)]; [|done].
    congruence. }
  assert (Hlong1 : forall a b c r,
            fs w1 !! (a :: b :: c :: r) = fs w !! (a :: b :: c :: r)).
  { intros a b c r. destruct (Hnew1 (a :: b :: c :: r))
      as [Heq | (_ & _ & Hlen)]; [done|cbn in Hlen; lia]. }
  destruct (load_csv_files_run source_folder ho_file tr_file i j w1)
    as (raw_ho & raw_tr & Hrun2); try done; try (by apply Hkept1).
  set (w2 := World _ _) in Hrun2.
  rewrite List.Forall_forall in Hmade.
  assert (Hfolder : forall d, d ∈ dates ->
            fs w1 !! [strftime_ymd d] = Some Dir /\
            forall sub, sub ∈ subfolders ->
              fs w1 !! [strftime_ymd d; sub] = Some Dir).
  { intros d Hd. destruct (Hmade (strftime_ymd d)) as [Htop Hsubs].
    { apply in_map. by apply list_elem_of_In. }
    split; [by apply Hdir1|]. intros sub Hsub. apply Hdir1; [done|].
    by apply Hsubs. }
  destruct (process_folders_run
              (length (heap w1) + 2) (length (heap w1) + 3)
              (cleaned Valuation_Date i ho_file)
              (cleaned Transaction_Date j tr_file) inception_date
              (rectangular_cleaned _ _ _ Rho) (rectangular_cleaned _ _ _ Rtr)
              (has_column_cleaned _ _ _ Iho) (has_column_cleaned _ _ _ Itr)
              Nho Ntr Pho Ptr dates w2)
    as (w3 & Hrun3 & _ & Hfiles3 & Hother3).
  { subst w2. cbn [heap]. by rewrite heap_lookup. }
  { subst w2. cbn [heap]. by rewrite heap_lookup. }
  { eapply Forall_impl; [exact Hdates|]. by intros d [? _]. }
  { apply List.Forall_forall. intros d Hd%list_elem_of_In.
    rewrite <- (Hiso d Hd).
    destruct (Hfolder d Hd) as [_ Hsubs]. subst w2. cbn [fs].
    split; [apply Hsubs; unfold subfolders; by right; left|].
    rewrite !Hlong1, !Hfresh. done. }
  rewrite <- Hnames in Hrun3.
  assert (Hfiles3' : forall d, d ∈ dates ->
            fs w3 !! [strftime_ymd d; "perf"; "Holdings.csv"]%string
              = Some (File (csv_of (filtered inception_date d Valuation_Date
                                      (cleaned Valuation_Date i ho_file))))
            /\
            fs w3 !! [strftime_ymd d; "perf"; "Transactions.csv"]%string
              = Some (File (csv_of
                        (filtered inception_date d Transaction_Date
                           (cleaned Transaction_Date j tr_file))))).
  { intros d Hd. rewrite (Hiso d Hd). by apply Hfiles3. }
  assert (Hother3' : forall p,
            (forall d, d ∈ dates ->
               p <> [strftime_ymd d; "perf"; "Holdings.csv"]%string /\
               p <> [strftime_ymd d; "perf"; "Transactions.csv"]%string) ->
            fs w3 !! p = fs w2 !! p).
  { intros p Hp. apply Hother3. intros d Hd. rewrite <- (Hiso d Hd).
    by apply Hp. }
  clear Hfiles3 Hother3.
  assert (Hshort3 : forall p, (length p <= 2)%nat -> fs w3 !! p = fs w1 !! p).
  { intros p Hp. rewrite Hother3'; [done|].
    intros d _. split; intros ->; cbn in Hp; lia. }
  assert (Hsource3 : forall q,
            fs w3 !! (source_folder :: q) = fs w1 !! (source_folder :: q)).
  { intros q. rewrite Hother3'; [done|].
    intros d _. pose proof (Hsource d). split; congruence. }
  destruct (copy_additional_folders_run source_folder
              (map strftime_ymd dates) w3) as (t4 & Hrun4 & Ht4).
  { intros (d & Hd & _)%list_elem_of_fmap. by apply (Hsource d). }
  { rewrite Hsource3. by apply Hkept1. }
  { rewrite Hsource3. by apply Hkept1. }
  { apply List.Forall_forall. intros n (d & <- & Hd)%in_map_iff.
    apply list_elem_of_In in Hd. destruct (Hfolder d Hd) as [Htop Hsubs].
    split; [|split].
    - rewrite Hshort3 by (cbn; lia). done.
    - left. rewrite Hshort3 by (cbn; lia). apply Hsubs.
      unfold subfolders. by left.
    - left. rewrite Hshort3 by (cbn; lia). apply Hsubs.
      unfold subfolders. by right; right; left. }
  exists dates, (World (heap w3) t4). split; [|split; [|split]].
  - by rewrite Hrun1.
  - rewrite main_run. unfold main_try.
    erewrite bind_run_ok; [|exact Hrun1]. cbv beta.
    erewrite bind_run_ok; [|exact Hrun2]. cbv beta iota.
    erewrite bind_run_ok; [|exact Hrun3]. cbv beta. by rewrite Hrun4.
  - intros d Hd. cbn [fs]. rewrite !Ht4. cbn [replicated].
    rewrite !bool_decide_false by (by intros [_ [|]]).
    destruct (Hfiles3' d Hd) as [-> ->]. split; [done|]. split; [done|].
    intros sub r Hsub. rewrite !Ht4. cbn [replicated].
    rewrite bool_decide_true.
    2: { split; [|done]. apply list_elem_of_fmap. by exists d. }
    rewrite bool_decide_false; [done|].
    intros [(d' & Hd' & _)%list_elem_of_fmap _].
    by apply (Hsource d').
  - intros p n Hp. cbn [fs]. rewrite Ht4.
    assert (Hp3 : fs w3 !! p = Some n).
    { rewrite Hother3'; [by apply Hkept1|].
      intros d _. split; intros ->; by rewrite Hfresh in Hp. }
    destruct p as [|a [|b r]]; cbn [replicated]; try done.
    rewrite bool_decide_false; [done|].
    intros [(d & -> & _)%list_elem_of_fmap _]. by rewrite Hfresh in Hp.
Qed.

Lemma whole_source_world_fresh d q :
  fs whole_source_world !! (strftime_ymd d :: q) = None.
Proof.
  apply not_elem_of_list_to_map_1. cbn [whole_source_world fs fmap list_fmap fst].
  assert (Hlen : forall r, strftime_ymd d :: q <> source :: r).
  { intros r H.
    apply (f_equal (fun p => match p with
                             | x :: _ => String.length x
                             | [] => 0%nat
                             end)) in H.
    pose proof (strftime_ymd_length d) as Hd. rewrite H in Hd.
    vm_compute in Hd. lia. }
  repeat (apply not_elem_of_cons; split; [apply Hlen|]).
  apply not_elem_of_nil.
Qed.

Lemma main_splits_the_source_witness :
  exists dates w',
    (create_folder_structure (Datetime 2023 1 1) (Datetime 2023 2 28) monthly
       whole_source_world).1 = Ok (map strftime_ymd dates) /\
    main (Datetime 2023 1 1) (Datetime 2023 2 28) source monthly
      whole_source_world = (Ok RunDone, w') /\
    (forall d, d ∈ dates ->
       fs w' !! [strftime_ymd d; "perf"; "Holdings.csv"]%string
         = Some (File (csv_of (filtered (Datetime 2023 1 1) d Valuation_Date
                                 (cleaned Valuation_Date 2
                                    plain_holdings_csv)))) /\
       fs w' !! [strftime_ymd d; "perf"; "Transactions.csv"]%string
         = Some (File (csv_of (filtered (Datetime 2023 1 1) d
                                 Transaction_Date
                                 (cleaned Transaction_Date 0
                                    plain_transactions_csv)))) /\
       forall sub r, (sub = "context_data" \/ sub = "portfolio")%string ->
         fs w' !! (strftime_ymd d :: sub :: r)
         = fs w' !! (source :: sub :: r)) /\
    (forall p n, fs whole_source_world !! p = Some n -> fs w' !! p = Some n).
Proof.
  apply (main_splits_the_source (Datetime 2023 1 1) (Datetime 2023 2 28)
           source monthly whole_source_world plain_holdings_csv
           plain_transactions_csv 2%nat 0%nat).
  - reflexivity.
  - reflexivity.
  - split; reflexivity.
  - split; reflexivity.
  - reflexivity.
  - apply whole_source_world_fresh.
  - reflexivity.
  - reflexivity.
  - reflexivity.
  - reflexivity.
  - exact plain_holdings_csv_plain.
  - exact plain_transactions_csv_plain.
  - reflexivity.
  - reflexivity.
  - repeat (constructor; [eexists; split; [reflexivity|split; reflexivity]|]).
    constructor.
  - repeat (constructor; [eexists; split; [reflexivity|split; reflexivity]|]).
    constructor.
Defined.
